(** * Row validation engine of the ad-performance validator

    A shallow embedding of [src/src/validator.py] (the schema
    [AdPerformanceRecord]) and of [src/src/validate_app.py]
    ([format_pydantic_error], [validate_data]), with the properties of the
    batch runner, the row validator and the error formatter.

    The program is Python on top of pandas and pydantic 1.x (the formatter
    matches the diagnostic texts of pydantic 1.x: "field required",
    "value is not a valid float", "value is not a valid integer").  Python
    values, dictionaries, exceptions and the part of the two libraries the
    program exercises are modelled below.  Strings are byte strings (the
    UTF-8 encoding of the Python text).  The index labels of a frame are
    Python values: [pd.read_csv] numbers the rows 0, 1, 2, ..., but a frame
    may carry other labels, and the runner computes with them. *)

From Stdlib Require Import ZArith String Ascii List Bool Lia.
From stdpp Require Import base option list strings gmap pretty.
Import ListNotations.

Open Scope string_scope.
Open Scope list_scope.
Open Scope Z_scope.

(** ** Python values *)

(** A Python [float].  A finite value is [m * 2^e]; the sign of zero is not
    represented (no operation of the program depends on it). *)
Inductive pyfloat : Type :=
  | FNaN
  | FInf (negative : bool)
  | FFinite (m e : Z).

(** A Python object as the program meets it, in a cell of the table or as an
    index label.  A frame read from a CSV file holds strings, numbers,
    booleans and NaN.  [VOther] stands for an object of another type, with
    the name of its type: one that is no number and no text and has no
    conversion to them, such as a list, a tuple, a dictionary or a timestamp,
    so that [int()], [float()] and [+ 2] raise [TypeError] on it and the
    schema's [str] refuses it. *)
Inductive value : Type :=
  | VNone
  | VBool (b : bool)
  | VInt (z : Z)
  | VFloat (f : pyfloat)
  | VStr (s : string)
  | VOther (type_name : string).

(** A Python [dict] with string keys. *)
Abbreviation Dict := (gmap string value).

(** [d.get(key, default)]. *)
Definition dict_get (d : Dict) (key : string) (dflt : value) : value :=
  default dflt (d !! key).

(** Sign tests on floats.  [float_sign f] is the sign of a finite or
    infinite value, [None] for NaN. *)
Definition float_sign (f : pyfloat) : option Z :=
  match f with
  | FNaN => None
  | FInf negative => Some (if negative then -1 else 1)
  | FFinite m _ => Some (Z.sgn m)
  end.

(** [a >= b] on floats; every comparison with NaN is false. *)
Definition float_ge (a b : pyfloat) : bool :=
  match a, b with
  | FNaN, _ | _, FNaN => false
  | FInf na, FInf nb => implb na nb
  | FInf na, FFinite _ _ => negb na
  | FFinite _ _, FInf nb => nb
  | FFinite ma ea, FFinite mb eb =>
      let e := Z.min ea eb in
      (mb * 2 ^ (eb - e) <=? ma * 2 ^ (ea - e))
  end.

(** [a < 0.0]. *)
Definition float_negative (f : pyfloat) : bool :=
  match float_sign f with
  | Some s => s <? 0
  | None => false
  end.

(** [float(z)] for an integer (the rounding to 53 bits of large integers is
    not modelled: it changes neither the sign nor the order with 0.0). *)
Definition float_of_int (z : Z) : pyfloat := FFinite z 0.

(** [int(f)]: truncation towards zero; NaN and the infinities are refused. *)
Definition int_of_float (f : pyfloat) : option Z :=
  match f with
  | FFinite m e =>
      Some (if 0 <=? e then m * 2 ^ e else Z.quot m (2 ^ (- e)))
  | _ => None
  end.

(** The operations of the Python runtime that are taken as given:
    [int(s)] and [float(s)] on a string ([None] when they raise
    [ValueError]), [str(f)] on a float, the sum of two floats, and the text
    of the [TypeError] that [x + 2] raises for an object [x] of the named
    type. *)
Record Runtime : Type := {
  int_of_str : string -> option Z;
  float_of_str : string -> option pyfloat;
  str_of_float : pyfloat -> string;
  float_add : pyfloat -> pyfloat -> pyfloat;
  add_type_error : string -> string
}.

(** ** Python strings *)

(** [sub in s]. *)
Fixpoint str_in (sub s : string) : bool :=
  if String.prefix sub s then true
  else match s with
       | EmptyString => false
       | String _ s' => str_in sub s'
       end.

Definition ascii_upper (c : ascii) : ascii :=
  let n := nat_of_ascii c in
  if ((97 <=? n) && (n <=? 122))%nat then ascii_of_nat (n - 32) else c.

Definition ascii_lower (c : ascii) : ascii :=
  let n := nat_of_ascii c in
  if ((65 <=? n) && (n <=? 90))%nat then ascii_of_nat (n + 32) else c.

Fixpoint str_lower (s : string) : string :=
  match s with
  | EmptyString => EmptyString
  | String c s' => String (ascii_lower c) (str_lower s')
  end.

(** [s.capitalize()]: first character upper case, the rest lower case
    (on ASCII letters; other bytes are kept). *)
Definition capitalize (s : string) : string :=
  match s with
  | EmptyString => EmptyString
  | String c s' => String (ascii_upper c) (str_lower s')
  end.

(** ** Exceptions *)

(** One entry of [ValidationError.errors()], a dictionary with the keys
    "loc", "msg" and "type".  [format_pydantic_error] reads "loc" and "msg"
    with [dict.get] and a default, so both may be absent. *)
Record ErrorDetail : Type := {
  loc : option (list string);
  msg : option string;
  type_ : string
}.

Inductive exn : Type :=
  | ValidationError (errors : list ErrorDetail)
  | IndexError
  | TypeError (text : string)
  | Exception (text : string).

(** The outcome of a Python expression: a value, or a raised exception. *)
Inductive Result (A : Type) : Type :=
  | Ok (a : A)
  | Raise (e : exn).
Arguments Ok {A} a.
Arguments Raise {A} e.

#[global] Instance result_ret : MRet Result := fun _ a => Ok a.
#[global] Instance result_bind : MBind Result := fun _ _ k r =>
  match r with
  | Ok a => k a
  | Raise e => Raise e
  end.

(** [l[0]]. *)
Definition first_item {A} (l : list A) : Result A :=
  match l with
  | x :: _ => Ok x
  | [] => Raise IndexError
  end.

(** [[f(x) for x in l]]: evaluated left to right, the first exception
    leaves the comprehension. *)
Fixpoint comprehension {A B} (f : A -> Result B) (l : list A) : Result (list B) :=
  match l with
  | [] => Ok []
  | x :: l' => y ← f x; ys ← comprehension f l'; Ok (y :: ys)
  end.

(** ** validate_app.py: the error formatter *)

Definition format_pydantic_error (error_detail : ErrorDetail) : Result string :=
  field ← first_item (default ["Campo Desconhecido"] (loc error_detail));
  let msg := default "Erro de validação genérico." (msg error_detail) in
  if str_in "field required" msg then
    Ok ("O campo '" +:+ field +:+ "' está faltando ou vazio.")
  else if str_in "float" msg
          && (str_in "not a valid float" msg
              || str_in "value is not a valid float" msg) then
    Ok ("O campo '" +:+ field +:+ "' deve ser um número decimal (ex: 100.50).")
  else if str_in "int" msg && str_in "not a valid integer" msg then
    Ok ("O campo '" +:+ field +:+ "' deve ser um número inteiro (ex: 100).")
  else
    Ok ("Campo '" +:+ field +:+ "': " +:+ capitalize msg +:+ ".").

(** ** validator.py: the schema *)

(** The scalar types of the annotations; [TFloat (Some b)] is [float] with
    the constraint [ge=b] of [Field]. *)
Inductive Scalar : Type :=
  | TInt
  | TStr
  | TFloat (ge : option pyfloat).

(** An annotation without its [Optional]: one scalar type, or a [Union] whose
    members are tried from left to right. *)
Inductive Annotation : Type :=
  | Single (t : Scalar)
  | Union (ts : list Scalar).

(** A field of a pydantic model.  [Field(...)] makes it required;
    [Optional[...]] with [Field(None)] makes it accept [None] and default to
    [None]. *)
Record ModelField : Type := {
  name : string;
  annotation : Annotation;
  required : bool;
  allow_none : bool
}.

Definition Required (name : string) (a : Annotation) : ModelField :=
  {| name := name; annotation := a; required := true; allow_none := false |}.

Definition Optional (name : string) (a : Annotation) : ModelField :=
  {| name := name; annotation := a; required := false; allow_none := true |}.

(** [AdPerformanceRecord.__fields__], in declaration order. *)
Definition AdPerformanceRecord_fields : list ModelField := [
  Required "Organizador" (Single TInt);
  Required "Ano_Mes" (Single TStr);
  Required "Dia_da_Semana" (Single TStr);
  Required "Tipo_Dia" (Single TStr);
  Required "Objetivo" (Single TStr);
  Required "Date" (Single TStr);
  Required "AdSet_name" (Single TStr);
  Required "Amount_spent" (Single (TFloat (Some (FFinite 0 0))));
  Optional "Link_clicks" (Union [TInt; TFloat None]);
  Optional "Impressions" (Union [TInt; TFloat None]);
  Optional "Conversions" (Union [TInt; TFloat None]);
  Optional "Segmentação" (Single TStr);
  Required "Tipo_de_Anúncio" (Single TStr);
  Required "Fase" (Single TStr)
].

(** ** pydantic 1.x: validation of one model *)

(** A validator's exception: the diagnostic text and the error type. *)
Record PydanticError : Type := {
  msg_template : string;
  code : string
}.

Definition MissingError : PydanticError :=
  {| msg_template := "field required"; code := "value_error.missing" |}.
Definition NoneIsNotAllowedError : PydanticError :=
  {| msg_template := "none is not an allowed value";
     code := "type_error.none.not_allowed" |}.
Definition IntegerError : PydanticError :=
  {| msg_template := "value is not a valid integer"; code := "type_error.integer" |}.
Definition FloatError : PydanticError :=
  {| msg_template := "value is not a valid float"; code := "type_error.float" |}.
Definition StrError : PydanticError :=
  {| msg_template := "str type expected"; code := "type_error.str" |}.

(** The entry of [errors()] for an exception raised at a field. *)
Definition error_dict (field_name : string) (e : PydanticError) : ErrorDetail :=
  {| loc := Some [field_name]; msg := Some (msg_template e); type_ := code e |}.

Section Pydantic.

Variable rt : Runtime.

Definition NumberNotGeError (limit_value : pyfloat) : PydanticError :=
  {| msg_template := "ensure this value is greater than or equal to "
                     +:+ str_of_float rt limit_value;
     code := "value_error.number.not_ge" |}.

(** [int_validator]: an [int] is kept, anything else goes through [int(v)]. *)
Definition int_validator (v : value) : PydanticError + Z :=
  match v with
  | VInt z => inr z
  | VBool b => inr (if b then 1 else 0)
  | VFloat f => from_option inr (inl IntegerError) (int_of_float f)
  | VStr s => from_option inr (inl IntegerError) (int_of_str rt s)
  | VNone | VOther _ => inl IntegerError
  end.

(** [float_validator]: a [float] is kept, anything else goes through
    [float(v)]. *)
Definition float_validator (v : value) : PydanticError + pyfloat :=
  match v with
  | VFloat f => inr f
  | VInt z => inr (float_of_int z)
  | VBool b => inr (float_of_int (if b then 1 else 0))
  | VStr s => from_option inr (inl FloatError) (float_of_str rt s)
  | VNone | VOther _ => inl FloatError
  end.

(** [number_size_validator] for the [ge] bound. *)
Definition number_size_validator (ge : option pyfloat) (f : pyfloat)
  : PydanticError + pyfloat :=
  match ge with
  | Some bound => if negb (float_ge f bound) then inl (NumberNotGeError bound) else inr f
  | None => inr f
  end.

(** [str_validator]: a [str] is kept, a number becomes [str(v)], anything
    else is refused. *)
Definition str_validator (v : value) : PydanticError + string :=
  match v with
  | VStr s => inr s
  | VInt z => inr (pretty z)
  | VBool b => inr (if b then "True" else "False")
  | VFloat f => inr (str_of_float rt f)
  | VNone | VOther _ => inl StrError
  end.

(** The validators of a scalar type, applied in turn. *)
Definition apply_validators (t : Scalar) (v : value) : PydanticError + value :=
  match t with
  | TInt => match int_validator v with inr z => inr (VInt z) | inl e => inl e end
  | TStr => match str_validator v with inr s => inr (VStr s) | inl e => inl e end
  | TFloat ge =>
      match float_validator v with
      | inr f => match number_size_validator ge f with
                 | inr f' => inr (VFloat f')
                 | inl e => inl e
                 end
      | inl e => inl e
      end
  end.

(** The members of a [Union]: the first that accepts the value wins,
    otherwise the errors of all of them are reported. *)
Fixpoint validate_union (ts : list Scalar) (v : value) (errors : list PydanticError)
  : list PydanticError + value :=
  match ts with
  | [] => inl errors
  | t :: ts' =>
      match apply_validators t v with
      | inr v' => inr v'
      | inl e => validate_union ts' v (errors ++ [e])
      end
  end.

(** [ModelField.validate]. *)
Definition field_validate (field : ModelField) (v : value)
  : list PydanticError + value :=
  match v with
  | VNone => if allow_none field then inr VNone else inl [NoneIsNotAllowedError]
  | _ =>
      match annotation field with
      | Single t => match apply_validators t v with
                    | inr v' => inr v'
                    | inl e => inl [e]
                    end
      | Union ts => validate_union ts v []
      end
  end.

(** The loop of [validate_model] over the fields: a missing required field is
    an error, a missing optional one takes its default [None], a present one
    is validated; errors accumulate in declaration order.  Keys of the input
    that are no field are not looked at ([extra = "ignore"]). *)
Fixpoint validate_fields (fields : list ModelField) (input_data values : Dict)
  (errors : list ErrorDetail) : Dict * list ErrorDetail :=
  match fields with
  | [] => (values, errors)
  | field :: rest =>
      match input_data !! name field with
      | None =>
          if required field then
            validate_fields rest input_data values
              (errors ++ [error_dict (name field) MissingError])
          else
            validate_fields rest input_data (<[name field := VNone]> values) errors
      | Some value =>
          match field_validate field value with
          | inr v_ =>
              validate_fields rest input_data (<[name field := v_]> values) errors
          | inl errors_ =>
              validate_fields rest input_data values
                (errors ++ map (error_dict (name field)) errors_)
          end
      end
  end.

Definition validate_model (input_data : Dict) : Dict * list ErrorDetail :=
  validate_fields AdPerformanceRecord_fields input_data ∅ [].

(** The constructor call with the entries of [data] as keyword arguments:
    the validated record (as its dictionary of field values), or
    [ValidationError] when there is any error. *)
Definition AdPerformanceRecord (data : Dict) : Result Dict :=
  let '(values, errors) := validate_model data in
  match errors with
  | [] => Ok values
  | _ :: _ => Raise (ValidationError errors)
  end.

End Pydantic.

(** ** validate_app.py: the batch runner *)

(** A row of the frame, a pandas [Series] with the column names as labels. *)
Abbreviation Series := (gmap string value).

(** [row.to_dict()]. *)
Definition to_dict (row : Series) : Dict := row.

(** [row.get(label, default)]. *)
Definition series_get (row : Series) (label : string) (dflt : value) : value :=
  default dflt (row !! label).

(** A [DataFrame] as [df.iterrows()] enumerates it: the index label and the
    row, in order. *)
Abbreviation DataFrame := (list (value * Series)).

Definition iterrows (df : DataFrame) : list (value * Series) := df.

(** The frame of a table of rows with the default index 0, 1, 2, ... that
    [pd.read_csv] gives it. *)
Definition range_indexed (rows : list Series) : DataFrame :=
  imap (fun i row => (VInt (Z.of_nat i), row)) rows.

(** The double quote. *)
Definition dquote : string := String (ascii_of_nat 34) EmptyString.

(** [index + 2]: the sum for a number (a boolean counts as 0 or 1),
    [TypeError] for any other object. *)
Definition add_two (rt : Runtime) (index : value) : Result value :=
  match index with
  | VInt z => Ok (VInt (z + 2))
  | VBool b => Ok (VInt ((if b then 1 else 0) + 2))
  | VFloat f => Ok (VFloat (float_add rt f (float_of_int 2)))
  | VStr _ =>
      Raise (TypeError ("can only concatenate str (not " +:+ dquote +:+ "int"
                        +:+ dquote +:+ ") to str"))
  | VNone =>
      Raise (TypeError "unsupported operand type(s) for +: 'NoneType' and 'int'")
  | VOther type_name => Raise (TypeError (add_type_error rt type_name))
  end.

(** An entry of [error_report_list]. *)
Record ErrorEntry : Type := {
  Linha_CSV : value;
  AdSet_Nome_Aprox : value;
  Primeiro_Erro_Detectado : string;
  Total_Erros_Nesta_Linha : Z
}.

(** [str(e)] of an exception that is not a [ValidationError]. *)
Definition exn_str (e : exn) : string :=
  match e with
  | Exception text => text
  | TypeError text => text
  | IndexError => "list index out of range"
  | ValidationError _ => EmptyString
  end.

Section Runner.

Variable rt : Runtime.

(** Exceptions other than [ValidationError] that the body of the [try] may
    raise on a row (in [row.to_dict()] or inside the constructor), with their
    [str(e)]; [None] when the row raises none. *)
Variable unexpected : Series -> option string.

(** Lines 47-50: the statements of the [try] before the [append]. *)
Definition try_body (row : Series) : Result Dict :=
  match unexpected row with
  | Some text => Raise (Exception text)
  | None =>
      let record_dict := to_dict row in
      validated_record ← AdPerformanceRecord rt record_dict;
      Ok record_dict
  end.

(** One iteration of the [for] loop on the two lists.  The entries of the
    dictionary an [except] clause appends are evaluated in the order they are
    written, [index + 2] first; an exception raised there leaves the loop. *)
Definition loop_body (st : list Dict * list ErrorEntry) (it : value * Series)
  : Result (list Dict * list ErrorEntry) :=
  let '(valid_records, error_report_list) := st in
  let '(index, row) := it in
  match try_body row with
  | Ok record_dict => Ok (valid_records ++ [record_dict], error_report_list)
  | Raise (ValidationError errors) =>
      let record_dict := to_dict row in
      formatted_errors ← comprehension format_pydantic_error errors;
      line ← add_two rt index;
      first_error ← first_item formatted_errors;
      Ok (valid_records,
          error_report_list ++ [
            {| Linha_CSV := line;
               AdSet_Nome_Aprox := dict_get record_dict "AdSet_name" (VStr "N/A");
               Primeiro_Erro_Detectado := first_error;
               Total_Erros_Nesta_Linha := Z.of_nat (length formatted_errors) |} ])
  | Raise e =>
      line ← add_two rt index;
      Ok (valid_records,
          error_report_list ++ [
            {| Linha_CSV := line;
               AdSet_Nome_Aprox := series_get row "AdSet_name" (VStr "N/A");
               Primeiro_Erro_Detectado := "Erro Geral: " +:+ exn_str e;
               Total_Erros_Nesta_Linha := 1 |} ])
  end.

(** [for item in items: body]. *)
Fixpoint for_each {S A} (body : S -> A -> Result S) (items : list A) (st : S)
  : Result S :=
  match items with
  | [] => Ok st
  | item :: rest => st' ← body st item; for_each body rest st'
  end.

Definition validate_data (df : DataFrame) : Result (list Dict * list ErrorEntry) :=
  for_each loop_body (iterrows df) ([], []).

End Runner.

(** ** Derived descriptions used in the statements *)

(** The sentence [format_pydantic_error] builds from a field name and a
    diagnostic text. *)
Definition sentence (field msg : string) : string :=
  if str_in "field required" msg then
    "O campo '" +:+ field +:+ "' está faltando ou vazio."
  else if str_in "float" msg
          && (str_in "not a valid float" msg
              || str_in "value is not a valid float" msg) then
    "O campo '" +:+ field +:+ "' deve ser um número decimal (ex: 100.50)."
  else if str_in "int" msg && str_in "not a valid integer" msg then
    "O campo '" +:+ field +:+ "' deve ser um número inteiro (ex: 100)."
  else
    "Campo '" +:+ field +:+ "': " +:+ capitalize msg +:+ ".".

(** The sentence of an entry of [errors()], read off its keys. *)
Definition sentence_of (e : ErrorDetail) : string :=
  sentence (default EmptyString (loc e ≫= head)) (default EmptyString (msg e)).

(** The errors one field contributes for an input dictionary. *)
Definition field_errors (rt : Runtime) (input_data : Dict) (field : ModelField)
  : list ErrorDetail :=
  match input_data !! name field with
  | None => if required field then [error_dict (name field) MissingError] else []
  | Some value =>
      match field_validate rt field value with
      | inr _ => []
      | inl errors_ => map (error_dict (name field)) errors_
      end
  end.

(** Index labels that are numbers: those on which [index + 2] is defined. *)
Definition is_number (index : value) : bool :=
  match index with
  | VInt _ | VBool _ | VFloat _ => true
  | VNone | VStr _ | VOther _ => false
  end.

(** What one row contributes: a record for [valid_records] or an entry for
    [error_report_list], or the exception of [index + 2]. *)
Definition row_outcome (rt : Runtime) (unexpected : Series -> option string)
  (it : value * Series) : Result (Dict + ErrorEntry) :=
  match unexpected it.2 with
  | Some text =>
      line ← add_two rt it.1;
      Ok (inr {| Linha_CSV := line;
                 AdSet_Nome_Aprox := default (VStr "N/A") (it.2 !! "AdSet_name");
                 Primeiro_Erro_Detectado := "Erro Geral: " +:+ text;
                 Total_Erros_Nesta_Linha := 1 |})
  | None =>
      match flat_map (field_errors rt (to_dict it.2)) AdPerformanceRecord_fields with
      | [] => Ok (inl (to_dict it.2))
      | first :: rest =>
          line ← add_two rt it.1;
          Ok (inr {| Linha_CSV := line;
                     AdSet_Nome_Aprox := default (VStr "N/A") (it.2 !! "AdSet_name");
                     Primeiro_Erro_Detectado := sentence_of first;
                     Total_Erros_Nesta_Linha := Z.of_nat (length (first :: rest)) |})
      end
  end.

(** The state of the loop after one more outcome. *)
Definition record_outcome (st : list Dict * list ErrorEntry) (o : Dict + ErrorEntry)
  : list Dict * list ErrorEntry :=
  match o with
  | inl d => (st.1 ++ [d], st.2)
  | inr entry => (st.1, st.2 ++ [entry])
  end.

Definition valid_of (o : Dict + ErrorEntry) : option Dict :=
  match o with inl d => Some d | inr _ => None end.

Definition error_of (o : Dict + ErrorEntry) : option ErrorEntry :=
  match o with inl _ => None | inr en => Some en end.

(** ** A runtime and rows for the examples *)

Fixpoint digits_value (s : string) (acc : Z) : option Z :=
  match s with
  | EmptyString => Some acc
  | String c s' =>
      let n := nat_of_ascii c in
      if ((48 <=? n) && (n <=? 57))%nat
      then digits_value s' (10 * acc + Z.of_nat (n - 48))
      else None
  end.

(** Decimal integer literals with an optional minus sign. *)
Definition decimal_int (s : string) : option Z :=
  match s with
  | EmptyString => None
  | String "-" EmptyString => None
  | String "-" s' => Z.opp <$> digits_value s' 0
  | _ => digits_value s 0
  end.

(** The sum of two floats without the rounding of the result. *)
Definition exact_float_add (a b : pyfloat) : pyfloat :=
  match a, b with
  | FNaN, _ | _, FNaN => FNaN
  | FInf na, FInf nb => if Bool.eqb na nb then FInf na else FNaN
  | FInf na, FFinite _ _ => FInf na
  | FFinite _ _, FInf nb => FInf nb
  | FFinite ma ea, FFinite mb eb =>
      let e := Z.min ea eb in
      FFinite (ma * 2 ^ (ea - e) + mb * 2 ^ (eb - e)) e
  end.

(** The runtime of the examples.  It agrees with CPython on the strings and
    floats the examples use: decimal integer literals, words that are no
    number, [str] of a float with an integral value, sums that need no
    rounding, and the messages of [+] for the built-in containers. *)
Definition example_runtime : Runtime := {|
  int_of_str := decimal_int;
  float_of_str := fun s => float_of_int <$> decimal_int s;
  str_of_float := fun f =>
    match f with
    | FNaN => "nan"
    | FInf negative => if negative then "-inf" else "inf"
    | FFinite m e => if e =? 0 then pretty m +:+ ".0" else pretty m +:+ "*2**" +:+ pretty e
    end;
  float_add := exact_float_add;
  add_type_error := fun type_name =>
    if String.eqb type_name "list" || String.eqb type_name "tuple" then
      "can only concatenate " +:+ type_name +:+ " (not " +:+ dquote +:+ "int"
      +:+ dquote +:+ ") to " +:+ type_name
    else
      "unsupported operand type(s) for +: '" +:+ type_name +:+ "' and 'int'"
|}.

(** No row raises an unexpected exception. *)
Definition no_fault : Series -> option string := fun _ => None.

(** A row that conforms to the schema. *)
Definition conforming_row : Series :=
  <["Organizador" := VInt 7]> (
  <["Ano_Mes" := VStr "2024 | Março"]> (
  <["Dia_da_Semana" := VStr "Sexta-Feira"]> (
  <["Tipo_Dia" := VStr "Dia útil"]> (
  <["Objetivo" := VStr "Leads"]> (
  <["Date" := VStr "2024-03-01"]> (
  <["AdSet_name" := VStr "X"]> (
  <["Amount_spent" := VInt 5]> (
  <["Tipo_de_Anúncio" := VStr "Video"]> (
  <["Fase" := VStr "F1"]> ∅))))))))).

(** The number of rows before position [i] that went to [valid_records],
    and the number that went to [error_report_list]: the lengths of the two
    lists the runner returns on the first [i] rows. *)
Definition valid_before (rt : Runtime) (unexpected : Series -> option string)
  (df : DataFrame) (i : nat) : nat :=
  match validate_data rt unexpected (take i df) with
  | Ok (valid_records, _) => length valid_records
  | Raise _ => 0%nat
  end.

Definition errors_before (rt : Runtime) (unexpected : Series -> option string)
  (df : DataFrame) (i : nat) : nat :=
  match validate_data rt unexpected (take i df) with
  | Ok (_, error_report_list) => length error_report_list
  | Raise _ => 0%nat
  end.

(** The four sentences of the formatter. *)
Definition missing_sentence (field : string) : string :=
  "O campo '" +:+ field +:+ "' está faltando ou vazio.".
Definition float_sentence (field : string) : string :=
  "O campo '" +:+ field +:+ "' deve ser um número decimal (ex: 100.50).".
Definition integer_sentence (field : string) : string :=
  "O campo '" +:+ field +:+ "' deve ser um número inteiro (ex: 100).".
Definition generic_sentence (field text : string) : string :=
  "Campo '" +:+ field +:+ "': " +:+ capitalize text +:+ ".".

(** The fields declared before [Date]. *)
Definition fields_before_Date : list ModelField := take 5 AdPerformanceRecord_fields.

(** The conforming row with one more column, which the schema does not
    declare. *)
Definition extra_column_row : Series :=
  <["Campanha" := VStr "Q1"]> conforming_row.

(** What the schema makes of [extra_column_row]: the values of the validated
    record. *)
Definition extra_column_validated : Dict :=
  (validate_model example_runtime (to_dict extra_column_row)).1.

(** A row that raises an unexpected exception in the examples. *)
Definition unreadable_row : Series := <["AdSet_name" := VStr "Y"]> ∅.

Definition fault_on_unreadable : Series -> option string := fun row =>
  if decide (row !! "Organizador" = None) then Some "unreadable" else None.

(** More rows for the examples, and a frame of them. *)
Definition negative_amount_row : Series :=
  <["Amount_spent" := VInt (-5)]> conforming_row.

Definition wrong_clicks_row : Series :=
  <["Link_clicks" := VStr "abc"]> conforming_row.

Definition missing_date_row : Series := delete "Date" conforming_row.

Definition missing_two_row : Series := delete "Organizador" missing_date_row.

(** The conforming row with an empty [Date] cell: [pd.read_csv] reads an
    empty cell as the float NaN. *)
Definition empty_date_row : Series := <["Date" := VFloat FNaN]> conforming_row.

Definition example_frame : DataFrame :=
  range_indexed [conforming_row; negative_amount_row; extra_column_row;
                 wrong_clicks_row; missing_date_row; unreadable_row].

(** ** app.py: the first version of the validator *)

Module App.

(** The formatter of app.py: the float test and the float sentence differ
    from those of validate_app.py. *)
Definition format_pydantic_error (error_detail : ErrorDetail) : Result string :=
  field ← first_item (default ["Campo Desconhecido"] (loc error_detail));
  let msg := default "Erro de validação genérico." (msg error_detail) in
  if str_in "field required" msg then
    Ok ("O campo '" +:+ field +:+ "' está faltando ou vazio.")
  else if str_in "is not a valid float" msg
          || str_in "value is not a valid float" msg then
    Ok ("O campo '" +:+ field +:+ "' deve ser um número (ex: 100.50).")
  else if str_in "int" msg && str_in "is not a valid integer" msg then
    Ok ("O campo '" +:+ field +:+ "' deve ser um número inteiro (ex: 100).")
  else
    Ok ("Campo '" +:+ field +:+ "': " +:+ capitalize msg +:+ ".").

(** Reading a local variable that no statement has assigned yet. *)
Definition UnboundLocalError : exn :=
  Exception "local variable 'record_dict' referenced before assignment".

(** The value of the local variable [record_dict]. *)
Definition read_local (record_dict : option Dict) : Result Dict :=
  match record_dict with
  | Some d => Ok d
  | None => Raise UnboundLocalError
  end.

Section Runner.

Variable rt : Runtime.

(** Exceptions that [row.to_dict()] raises on a row, and exceptions other
    than [ValidationError] that the constructor raises, with their [str(e)].
    The two are kept apart because [record_dict] is assigned between them and
    both handlers of app.py read it. *)
Variable to_dict_raises : Series -> option string.
Variable constructor_raises : Series -> option string.

(** One iteration of the [for] loop.  The state is the two lists and the
    local variable [record_dict], which belongs to the function and so keeps
    the dictionary of an earlier row when [row.to_dict()] raises.  As in
    validate_app.py, [index + 2] is the first entry an [except] clause
    evaluates. *)
Definition loop_body (st : (list Dict * list ErrorEntry) * option Dict)
  (it : value * Series) : Result ((list Dict * list ErrorEntry) * option Dict) :=
  let '((valid_records, error_report_list), record_dict) := st in
  let '(index, row) := it in
  match to_dict_raises row with
  | Some text =>
      line ← add_two rt index;
      label_source ← read_local record_dict;
      Ok ((valid_records,
           error_report_list ++ [
             {| Linha_CSV := line;
                AdSet_Nome_Aprox := dict_get label_source "AdSet_name" (VStr "N/A");
                Primeiro_Erro_Detectado := "Erro Geral: " +:+ text;
                Total_Erros_Nesta_Linha := 1 |} ]),
          record_dict)
  | None =>
      let record_dict := to_dict row in
      match (match constructor_raises row with
             | Some text => Raise (Exception text)
             | None => AdPerformanceRecord rt record_dict
             end) with
      | Ok validated_record =>
          Ok ((valid_records ++ [record_dict], error_report_list), Some record_dict)
      | Raise (ValidationError errors) =>
          formatted_errors ← comprehension format_pydantic_error errors;
          line ← add_two rt index;
          first_error ← first_item formatted_errors;
          Ok ((valid_records,
               error_report_list ++ [
                 {| Linha_CSV := line;
                    AdSet_Nome_Aprox := dict_get record_dict "AdSet_name" (VStr "N/A");
                    Primeiro_Erro_Detectado := first_error;
                    Total_Erros_Nesta_Linha := Z.of_nat (length formatted_errors) |} ]),
              Some record_dict)
      | Raise e =>
          line ← add_two rt index;
          Ok ((valid_records,
               error_report_list ++ [
                 {| Linha_CSV := line;
                    AdSet_Nome_Aprox := dict_get record_dict "AdSet_name" (VStr "N/A");
                    Primeiro_Erro_Detectado := "Erro Geral: " +:+ exn_str e;
                    Total_Erros_Nesta_Linha := 1 |} ]),
              Some record_dict)
      end
  end.

Definition validate_data (df : DataFrame) : Result (list Dict * list ErrorEntry) :=
  st ← for_each loop_body (iterrows df) (([], []), None);
  Ok st.1.

End Runner.

(** The sentence the formatter of app.py builds from a field name and a
    diagnostic text. *)
Definition sentence (field msg : string) : string :=
  if str_in "field required" msg then
    "O campo '" +:+ field +:+ "' está faltando ou vazio."
  else if str_in "is not a valid float" msg
          || str_in "value is not a valid float" msg then
    "O campo '" +:+ field +:+ "' deve ser um número (ex: 100.50)."
  else if str_in "int" msg && str_in "is not a valid integer" msg then
    "O campo '" +:+ field +:+ "' deve ser um número inteiro (ex: 100)."
  else
    "Campo '" +:+ field +:+ "': " +:+ capitalize msg +:+ ".".

End App.

(** Entries that differ in the wording of the message only. *)
Definition same_but_message (entry' entry : ErrorEntry) : Prop :=
  Linha_CSV entry' = Linha_CSV entry /\
  AdSet_Nome_Aprox entry' = AdSet_Nome_Aprox entry /\
  Total_Erros_Nesta_Linha entry' = Total_Erros_Nesta_Linha entry.

(** ** validate_app.py: the page after the button is pressed *)

(** The calls to Streamlit the script makes. *)
#[warnings="-register-all"]
Inductive StCall : Type :=
  | st_info (body : string)
  | st_subheader (body : string)
  | st_columns (n : Z)
  | st_metric (label : string) (v : value)
  | st_error (body : string)
  | st_markdown (body : string)
  | st_warning (body : string)
  | st_success (body : string)
  | st_exception (e : exn)
  | st_dataframe_errors (error_report : list ErrorEntry)
  | st_dataframe_valid (valid_data : list Dict)
  | st_expander (label : string) (body : list StCall).

Section Page.

Variable rt : Runtime.
Variable unexpected : Series -> option string.

(** Lines 114-158, and the handler of lines 160-163 when [validate_data]
    raises.  [elapsed] is the text of [end_time - start_time], formatted with
    two decimals. *)
Definition validation_page (elapsed : string) (df : DataFrame) : list StCall :=
  st_info "Iniciando a validação linha a linha... Por favor, aguarde." ::
  match validate_data rt unexpected df with
  | Raise e =>
      [ st_error ("Ocorreu um erro **inesperado** durante a leitura do CSV: "
                  +:+ exn_str e);
        st_exception e ]
  | Ok (valid_data, error_report) =>
      let total_records := Z.of_nat (length df) in
      let valid_count := Z.of_nat (length valid_data) in
      let error_count := Z.of_nat (length error_report) in
      [ st_subheader "Resumo da Validação";
        st_columns 4;
        st_metric "Total de Linhas" (VInt total_records);
        st_metric "Válidas (OK)" (VInt valid_count);
        st_metric "Com Erro" (VInt error_count);
        st_metric "Tempo Total (s)" (VStr elapsed) ]
      ++ (if 0 <? error_count then
            [ st_error ("❌ **ATENÇÃO:** Foram encontrados **" +:+ pretty error_count
                        +:+ "** registros com falhas de validação.");
              st_markdown "### Relatório de Erros Amigável";
              st_warning "Use a tabela abaixo para identificar e corrigir rapidamente os dados incorretos no seu CSV original.";
              st_dataframe_errors error_report ]
          else
            [ st_success "✅ **SUCESSO!** Todos os registros passaram na validação. O esquema de dados está correto." ])
      ++ [ st_expander ("Visualizar os " +:+ pretty valid_count +:+ " Registros Válidos")
             (match valid_data with
              | _ :: _ => [ st_dataframe_valid valid_data ]
              | [] => [ st_warning "Nenhum dado válido para exibir (todas as linhas tiveram erro)." ]
              end) ]
  end.

End Page.

(** ** dashboard_app.py: the currency format *)

(** [s.replace(old, new)] for one-character [old] and [new]. *)
Fixpoint replace_char (old new : ascii) (s : string) : string :=
  match s with
  | EmptyString => EmptyString
  | String c s' =>
      String (if Ascii.eqb c old then new else c) (replace_char old new s')
  end.

(** [pd.isna(value) or value is None] on a scalar. *)
Definition isna (v : value) : bool :=
  match v with
  | VNone => true
  | VFloat FNaN => true
  | VBool _ | VInt _ | VFloat _ | VStr _ | VOther _ => false
  end.

Section Currency.

(** The text of [value] under the format specification [,.2f] (thousands
    separated by commas, two decimals); it raises on a value that is no
    number. *)
Variable format_grouped_2f : value -> Result string.

Definition format_brl (v : value) : Result string :=
  if isna v then Ok "N/A"
  else
    text ← format_grouped_2f v;
    Ok (replace_char "X" "." (replace_char "." "," (replace_char "," "X"
          ("R$ " +:+ text)))).

End Currency.

(** Commas and full stops exchanged, character by character. *)
Fixpoint swap_separators (s : string) : string :=
  match s with
  | EmptyString => EmptyString
  | String c s' =>
      String (if Ascii.eqb c "," then "."%char
              else if Ascii.eqb c "." then ","%char else c)
             (swap_separators s')
  end.

(** The characters of a string. *)
Fixpoint chars (s : string) : list ascii :=
  match s with
  | EmptyString => []
  | String c s' => c :: chars s'
  end.

(** ** Further derived descriptions *)

(** The field of the schema with a given name. *)
Definition field_named (k : string) : option ModelField :=
  find (fun field => String.eqb (name field) k) AdPerformanceRecord_fields.

(** The value the schema stores for a field of a dictionary without errors:
    the validated value, or [None] for an absent optional field. *)
Definition stored_value (rt : Runtime) (d : Dict) (field : ModelField) : value :=
  match d !! name field with
  | None => VNone
  | Some v =>
      match field_validate rt field v with
      | inr v' => v'
      | inl _ => VNone
      end
  end.

(** The largest number of errors one field can contribute, and the largest
    number when its cell holds no object of another type: an optional text
    field then never fails. *)
Definition field_bound (field : ModelField) : nat :=
  match annotation field with
  | Single _ => 1
  | Union ts => Nat.max 1 (length ts)
  end.

Definition csv_field_bound (field : ModelField) : nat :=
  match annotation field with
  | Single TStr => if required field || negb (allow_none field) then 1 else 0
  | Single _ => 1
  | Union ts => Nat.max 1 (length ts)
  end.

(** Cells as a CSV file gives them: no object of another type. *)
Definition is_csv_value (v : value) : bool :=
  match v with
  | VOther _ => false
  | VNone | VBool _ | VInt _ | VFloat _ | VStr _ => true
  end.

(** More rows for the examples. *)
Definition empty_amount_row : Series :=
  <["Amount_spent" := VFloat FNaN]> conforming_row.

Definition none_date_row : Series := <["Date" := VNone]> conforming_row.

(** A row with as many errors as a CSV file can cause, and one with as many
    as the schema allows. *)
Definition worst_row : Series :=
  <["Link_clicks" := VStr "abc"]> (
  <["Impressions" := VStr "abc"]> (
  <["Conversions" := VStr "abc"]> ∅)).

Definition worst_object_row : Series :=
  <["Segmentação" := VOther "list"]> worst_row.

(** A text cell that holds a list. *)
Definition list_date_row : Series := <["Date" := VOther "list"]> conforming_row.

(** Frames whose index is not the default one. *)
Definition relabelled_frame : DataFrame := [(VInt 4, negative_amount_row)].

Definition text_labelled_frame : DataFrame := [(VStr "a", negative_amount_row)].

Definition text_labelled_fault_frame : DataFrame := [(VStr "a", unreadable_row)].

(** A format for the examples: it knows the text of two numbers. *)
Definition example_format (v : value) : Result string :=
  match v with
  | VFloat (FFinite 1234567 0) => Ok "1,234,567.00"
  | VInt 1500 => Ok "1,500.00"
  | _ => Raise (Exception "Unknown format code 'f'")
  end.

(** * Properties *)

(** ** The error formatter *)

Lemma format_pydantic_error_sentence (field : string) (rest : list string)
  (text : string) (type : string) :
  format_pydantic_error {| loc := Some (field :: rest); msg := Some text; type_ := type |}
  = Ok (sentence field text).
Proof.
  unfold format_pydantic_error, sentence; simpl.
  destruct (str_in "field required" text); [reflexivity|].
  destruct (str_in "float" text && _); [reflexivity|].
  destruct (str_in "int" text && _); reflexivity.
Qed.

Lemma format_error_dict (field : string) (e : PydanticError) :
  format_pydantic_error (error_dict field e) = Ok (sentence field (msg_template e)).
Proof. apply format_pydantic_error_sentence. Qed.

Lemma comprehension_Ok {A B} (f : A -> Result B) (g : A -> B) (l : list A) :
  Forall (fun x => f x = Ok (g x)) l -> comprehension f l = Ok (map g l).
Proof.
  induction 1 as [|x l Hx _ IH]; simpl; [reflexivity|].
  rewrite Hx; simpl. rewrite IH. reflexivity.
Qed.

(** ** The row validator *)

Section Engine.

Variable rt : Runtime.

Lemma validate_fields_errors (fields : list ModelField) (d values : Dict)
  (errors : list ErrorDetail) :
  (validate_fields rt fields d values errors).2
  = errors ++ flat_map (field_errors rt d) fields.
Proof.
  revert values errors.
  induction fields as [|field rest IH]; intros values errors; simpl.
  - by rewrite app_nil_r.
  - unfold field_errors at 1.
    destruct (d !! name field) as [v|].
    + destruct (field_validate rt field v) as [errs|v'].
      * by rewrite IH, <- app_assoc.
      * by rewrite IH.
    + destruct (required field).
      * by rewrite IH, <- app_assoc.
      * by rewrite IH.
Qed.

Lemma validate_model_errors (d : Dict) :
  (validate_model rt d).2 = flat_map (field_errors rt d) AdPerformanceRecord_fields.
Proof. unfold validate_model. by rewrite validate_fields_errors. Qed.

(** Every error of a field is the entry of a pydantic exception at that
    field. *)
Lemma field_errors_shape (d : Dict) (field : ModelField) :
  Forall (fun e => exists pe, e = error_dict (name field) pe) (field_errors rt d field).
Proof.
  unfold field_errors.
  destruct (d !! name field) as [v|].
  - destruct (field_validate rt field v) as [errs|?]; [|constructor].
    apply List.Forall_forall. intros e He. apply in_map_iff in He as (pe & <- & _). eauto.
  - destruct (required field); repeat constructor. eauto.
Qed.

Lemma model_errors_shape (d : Dict) :
  Forall (fun e => exists field pe, e = error_dict field pe)
         (flat_map (field_errors rt d) AdPerformanceRecord_fields).
Proof.
  apply List.Forall_forall. intros e He.
  apply in_flat_map in He as (field & _ & He).
  pose proof (field_errors_shape d field) as Hs.
  rewrite List.Forall_forall in Hs. destruct (Hs e He) as [pe ->]. eauto.
Qed.

(** The constructor raises exactly when some field has an error, and then
    with the errors of the fields in declaration order. *)
Lemma AdPerformanceRecord_spec (d : Dict) :
  match flat_map (field_errors rt d) AdPerformanceRecord_fields with
  | [] => AdPerformanceRecord rt d = Ok (validate_model rt d).1
  | errors => AdPerformanceRecord rt d = Raise (ValidationError errors)
  end.
Proof.
  rewrite <- validate_model_errors. unfold AdPerformanceRecord.
  destruct (validate_model rt d) as [values [|e errors]]; reflexivity.
Qed.

End Engine.

(** ** The batch runner *)

Lemma comprehension_Forall2 {A B} (f : A -> Result B) (l : list A) (ys : list B) :
  comprehension f l = Ok ys <-> Forall2 (fun x y => f x = Ok y) l ys.
Proof.
  revert ys. induction l as [|x l IH]; intros ys; simpl.
  - split.
    + intros H. injection H as <-. constructor.
    + intros H. by inversion H.
  - destruct (f x) as [y|e] eqn:Hx; simpl.
    + destruct (comprehension f l) as [ys'|e] eqn:Hl; simpl.
      * split.
        -- intros H. injection H as <-. constructor; [done|]. by apply IH.
        -- intros H. inversion H as [|? y' ? ys'' Hy Hys]; subst.
           apply IH in Hys. congruence.
      * split; [done|].
        intros H. inversion H as [|? y' ? ys'' Hy Hys]; subst.
        apply IH in Hys. congruence.
    + split; [done|].
      intros H. inversion H as [|? y' ? ys'' Hy Hys]; subst. congruence.
Qed.

Lemma comprehension_total {A B} (f : A -> Result B) (l : list A) :
  Forall (fun x => exists y, f x = Ok y) l -> exists ys, comprehension f l = Ok ys.
Proof.
  induction 1 as [|x l [y Hx] _ [ys IH]]; simpl; [eauto|].
  rewrite Hx, IH. simpl. eauto.
Qed.

Lemma comprehension_take {A B} (f : A -> Result B) (l : list A) (ys : list B) (i : nat) :
  comprehension f l = Ok ys -> comprehension f (take i l) = Ok (take i ys).
Proof.
  rewrite !comprehension_Forall2. apply Forall2_take.
Qed.

Lemma comprehension_lookup {A B} (f : A -> Result B) (l : list A) (ys : list B)
  (i : nat) (x : A) :
  comprehension f l = Ok ys -> l !! i = Some x ->
  exists y, ys !! i = Some y /\ f x = Ok y.
Proof.
  rewrite comprehension_Forall2. intros H Hi.
  destruct (Forall2_lookup_l _ _ _ _ _ H Hi) as (y & Hy & Hxy). eauto.
Qed.

Lemma comprehension_raises {A B} (f : A -> Result B) (l : list A) (e : exn) :
  comprehension f l = Raise e ->
  exists i x, l !! i = Some x /\ f x = Raise e /\
              exists ys, comprehension f (take i l) = Ok ys.
Proof.
  induction l as [|x l IH]; simpl; [done|].
  destruct (f x) as [y|e'] eqn:Hx; simpl.
  - destruct (comprehension f l) as [ys|e'] eqn:Hl; simpl; [done|].
    intros H. injection H as ->.
    destruct (IH eq_refl) as (i & x' & Hi & Hx' & ys & Hys).
    exists (S i), x'. repeat split; [done..|].
    simpl. rewrite Hx, Hys. simpl. eauto.
  - intros H. injection H as ->. exists 0%nat, x. repeat split; [done..|].
    simpl. eauto.
Qed.

Section Batch.

Variable rt : Runtime.
Variable unexpected : Series -> option string.

Lemma try_body_spec (row : Series) :
  try_body rt unexpected row =
  match unexpected row with
  | Some text => Raise (Exception text)
  | None =>
      match flat_map (field_errors rt (to_dict row)) AdPerformanceRecord_fields with
      | [] => Ok (to_dict row)
      | errors => Raise (ValidationError errors)
      end
  end.
Proof.
  unfold try_body. destruct (unexpected row); [reflexivity|].
  pose proof (AdPerformanceRecord_spec rt (to_dict row)) as H.
  destruct (flat_map _ _); rewrite H; reflexivity.
Qed.

Lemma format_model_errors (d : Dict) :
  comprehension format_pydantic_error
    (flat_map (field_errors rt d) AdPerformanceRecord_fields)
  = Ok (map sentence_of (flat_map (field_errors rt d) AdPerformanceRecord_fields)).
Proof.
  apply comprehension_Ok.
  eapply List.Forall_impl; [|apply model_errors_shape].
  intros e (field & pe & ->). apply format_error_dict.
Qed.

(** [index + 2] is defined exactly on the numbers. *)
Lemma add_two_number (index : value) :
  is_number index = true -> exists line, add_two rt index = Ok line.
Proof. destruct index; simpl; intros H; try discriminate; eauto. Qed.

Lemma add_two_not_number (index : value) :
  is_number index = false -> exists text, add_two rt index = Raise (TypeError text).
Proof. destruct index; simpl; intros H; try discriminate; eauto. Qed.

Lemma add_two_Ok_number (index line : value) :
  add_two rt index = Ok line -> is_number index = true.
Proof. destruct index; simpl; intros H; try discriminate; reflexivity. Qed.

(** One iteration appends the outcome of its row to one of the two lists and
    leaves the other as it is, or raises what [index + 2] raises. *)
Lemma loop_body_outcome (st : list Dict * list ErrorEntry) (it : value * Series) :
  loop_body rt unexpected st it =
  o ← row_outcome rt unexpected it; Ok (record_outcome st o).
Proof.
  destruct st as [valid_records error_report_list], it as [index row].
  unfold loop_body, row_outcome; cbn [fst snd].
  rewrite try_body_spec.
  destruct (unexpected row) as [text|].
  { destruct (add_two rt index); reflexivity. }
  pose proof (format_model_errors (to_dict row)) as Hf.
  destruct (flat_map _ _) as [|first rest]; [reflexivity|].
  rewrite Hf. cbn [mbind result_bind].
  destruct (add_two rt index) as [line|e]; [|reflexivity].
  cbn [mbind result_bind map first_item record_outcome fst snd].
  cbn [length]. rewrite length_map. reflexivity.
Qed.

Lemma record_outcome_app (st : list Dict * list ErrorEntry) (o : Dict + ErrorEntry)
  (outs : list (Dict + ErrorEntry)) :
  ((record_outcome st o).1 ++ omap valid_of outs,
   (record_outcome st o).2 ++ omap error_of outs)
  = (st.1 ++ omap valid_of (o :: outs), st.2 ++ omap error_of (o :: outs)).
Proof. destruct st, o; cbn; by rewrite <- ?app_assoc. Qed.

Lemma for_each_outcomes (items : list (value * Series)) (st : list Dict * list ErrorEntry) :
  for_each (loop_body rt unexpected) items st =
  outs ← comprehension (row_outcome rt unexpected) items;
  Ok (st.1 ++ omap valid_of outs, st.2 ++ omap error_of outs).
Proof.
  revert st. induction items as [|it rest IH]; intros st.
  - destruct st. simpl. by rewrite !app_nil_r.
  - cbn [for_each comprehension]. rewrite loop_body_outcome.
    destruct (row_outcome rt unexpected it) as [o|e]; [|reflexivity].
    cbn [mbind result_bind]. rewrite IH.
    destruct (comprehension (row_outcome rt unexpected) rest) as [outs|e]; [|reflexivity].
    cbn [mbind result_bind]. by rewrite record_outcome_app.
Qed.

(** The runner is the outcomes of the rows in order, each list those of its
    kind, up to the first exception. *)
Lemma validate_data_outcomes (df : DataFrame) :
  validate_data rt unexpected df =
  comprehension (row_outcome rt unexpected) df
  ≫= fun outs : list (Dict + ErrorEntry) => Ok (omap valid_of outs, omap error_of outs).
Proof. unfold validate_data, iterrows. by rewrite for_each_outcomes. Qed.

Lemma validate_data_Ok (df : DataFrame) (v : list Dict) (e : list ErrorEntry) :
  validate_data rt unexpected df = Ok (v, e) ->
  exists outs, comprehension (row_outcome rt unexpected) df = Ok outs /\
               v = omap valid_of outs /\ e = omap error_of outs.
Proof.
  rewrite validate_data_outcomes.
  destruct (comprehension _ df) as [outs|ex]; simpl; [|done].
  intros H. injection H as <- <-. eauto.
Qed.

Lemma validate_data_of_outcomes (df : DataFrame) (outs : list (Dict + ErrorEntry)) :
  comprehension (row_outcome rt unexpected) df = Ok outs ->
  validate_data rt unexpected df = Ok (omap valid_of outs, omap error_of outs).
Proof. intros H. by rewrite validate_data_outcomes, H. Qed.

Lemma row_outcome_number (it : value * Series) :
  is_number it.1 = true -> exists o, row_outcome rt unexpected it = Ok o.
Proof.
  intros H. destruct (add_two_number _ H) as [line Hline].
  unfold row_outcome. rewrite Hline.
  destruct (unexpected it.2); [simpl; eauto|].
  destruct (flat_map _ _); simpl; eauto.
Qed.

(** On a frame whose labels are numbers every row has an outcome. *)
Lemma outcomes_number (df : DataFrame) :
  Forall (fun it => is_number it.1 = true) df ->
  exists outs, comprehension (row_outcome rt unexpected) df = Ok outs.
Proof.
  intros H. apply comprehension_total.
  eapply List.Forall_impl; [|exact H]. apply row_outcome_number.
Qed.

Lemma validate_data_number (df : DataFrame) :
  Forall (fun it => is_number it.1 = true) df ->
  exists outs, comprehension (row_outcome rt unexpected) df = Ok outs /\
               validate_data rt unexpected df
               = Ok (omap valid_of outs, omap error_of outs).
Proof.
  intros H. destruct (outcomes_number df H) as [outs Houts].
  exists outs. split; [done|]. by apply validate_data_of_outcomes.
Qed.

Lemma valid_before_outcomes (df : DataFrame) (outs : list (Dict + ErrorEntry)) (i : nat) :
  comprehension (row_outcome rt unexpected) df = Ok outs ->
  valid_before rt unexpected df i = length (omap valid_of (take i outs)).
Proof.
  intros H. unfold valid_before.
  by rewrite (validate_data_of_outcomes _ _ (comprehension_take _ _ _ i H)).
Qed.

Lemma errors_before_outcomes (df : DataFrame) (outs : list (Dict + ErrorEntry)) (i : nat) :
  comprehension (row_outcome rt unexpected) df = Ok outs ->
  errors_before rt unexpected df i = length (omap error_of (take i outs)).
Proof.
  intros H. unfold errors_before.
  by rewrite (validate_data_of_outcomes _ _ (comprehension_take _ _ _ i H)).
Qed.

(** An iteration from two empty lists shows the outcome of its row. *)
Lemma loop_body_valid (it : value * Series) (d : Dict) :
  loop_body rt unexpected ([], []) it = Ok ([d], []) ->
  row_outcome rt unexpected it = Ok (inl d).
Proof.
  rewrite loop_body_outcome.
  destruct (row_outcome rt unexpected it) as [[?|?]|?]; simpl; congruence.
Qed.

Lemma loop_body_error (it : value * Series) (en : ErrorEntry) :
  loop_body rt unexpected ([], []) it = Ok ([], [en]) ->
  row_outcome rt unexpected it = Ok (inr en).
Proof.
  rewrite loop_body_outcome.
  destruct (row_outcome rt unexpected it) as [[?|?]|?]; simpl; congruence.
Qed.

(** The line of an entry is [index + 2]. *)
Lemma row_outcome_line (it : value * Series) (en : ErrorEntry) :
  row_outcome rt unexpected it = Ok (inr en) ->
  add_two rt it.1 = Ok (Linha_CSV en).
Proof.
  unfold row_outcome.
  destruct (unexpected it.2).
  - destruct (add_two rt it.1); simpl; [|done]. intros H. by injection H as <-.
  - destruct (flat_map _ _); [done|].
    destruct (add_two rt it.1); simpl; [|done]. intros H. by injection H as <-.
Qed.

(** A record does not depend on the label of its row. *)
Lemma row_outcome_record (index : value) (row : Series) (d : Dict) :
  row_outcome rt unexpected (index, row) = Ok (inl d) ->
  d = to_dict row /\ unexpected row = None /\
  flat_map (field_errors rt (to_dict row)) AdPerformanceRecord_fields = [] /\
  forall index', row_outcome rt unexpected (index', row) = Ok (inl d).
Proof.
  unfold row_outcome; cbn [fst snd].
  destruct (unexpected row).
  - destruct (add_two rt index); simpl; done.
  - destruct (flat_map _ _).
    + intros H. injection H as <-. done.
    + destruct (add_two rt index); simpl; done.
Qed.

End Batch.

(** Positions in the two lists. *)

Lemma map_fmap {A B} (f : A -> B) (l : list A) : map f l = f <$> l.
Proof. reflexivity. Qed.

Lemma outcome_lengths (l : list (Dict + ErrorEntry)) :
  (length (omap valid_of l) + length (omap error_of l) = length l)%nat.
Proof.
  induction l as [|[d|en] l IH]; cbn; lia.
Qed.

Lemma omap_lookup_position {A B} (f : A -> option B) (l : list A) (i : nat) (x : A) (y : B) :
  l !! i = Some x -> f x = Some y ->
  omap f l !! length (omap f (take i l)) = Some y.
Proof.
  intros Hi Hy.
  replace (omap f l) with (omap f (take i l ++ x :: drop (S i) l))
    by (by rewrite take_drop_middle).
  rewrite omap_app. cbn. rewrite Hy.
  by rewrite list_lookup_middle.
Qed.

Lemma omap_position_lt {A B} (f : A -> option B) (l : list A) (i j : nat) (x : A) :
  (i < j)%nat -> l !! i = Some x -> is_Some (f x) ->
  (length (omap f (take i l)) < length (omap f (take j l)))%nat.
Proof.
  intros Hij Hi [y Hy].
  assert (take j l = take i l ++ x :: take (j - S i) (drop (S i) l)) as ->.
  { replace (take j l) with (take j (take i l ++ x :: drop (S i) l))
      by (by rewrite take_drop_middle).
    assert (length (take i l) = i) as Hlen.
    { rewrite length_take. apply lookup_lt_Some in Hi. lia. }
    rewrite take_app_ge by lia. rewrite Hlen.
    replace (j - i)%nat with (S (j - S i)) by lia. reflexivity. }
  rewrite omap_app. cbn. rewrite Hy. rewrite length_app. simpl. lia.
Qed.

Lemma range_indexed_lookup (rows : list Series) (i : nat) (row : Series) :
  rows !! i = Some row -> range_indexed rows !! i = Some (VInt (Z.of_nat i), row).
Proof. intros H. unfold range_indexed. by rewrite list_lookup_imap, H. Qed.

Lemma range_indexed_number (rows : list Series) :
  Forall (fun it => is_number it.1 = true) (range_indexed rows).
Proof.
  apply List.Forall_forall. intros it Hin.
  apply list_elem_of_In in Hin.
  apply list_elem_of_lookup in Hin as [i Hi].
  unfold range_indexed in Hi. rewrite list_lookup_imap in Hi.
  destruct (rows !! i); simpl in Hi; [|done]. by injection Hi as <-.
Qed.

Section Positions.

Variable rt : Runtime.
Variable unexpected : Series -> option string.

Lemma entry_position (df : DataFrame) (outs : list (Dict + ErrorEntry)) (i : nat)
  (it : value * Series) (en : ErrorEntry) :
  comprehension (row_outcome rt unexpected) df = Ok outs ->
  df !! i = Some it ->
  row_outcome rt unexpected it = Ok (inr en) ->
  omap error_of outs !! errors_before rt unexpected df i = Some en.
Proof.
  intros Houts Hi Hen. rewrite (errors_before_outcomes _ _ _ _ _ Houts).
  destruct (comprehension_lookup _ _ _ _ _ Houts Hi) as (o & Ho & Hito).
  eapply omap_lookup_position; [exact Ho|].
  rewrite Hen in Hito. by injection Hito as <-.
Qed.

Lemma record_position (df : DataFrame) (outs : list (Dict + ErrorEntry)) (i : nat)
  (it : value * Series) (d : Dict) :
  comprehension (row_outcome rt unexpected) df = Ok outs ->
  df !! i = Some it ->
  row_outcome rt unexpected it = Ok (inl d) ->
  omap valid_of outs !! valid_before rt unexpected df i = Some d.
Proof.
  intros Houts Hi Hd. rewrite (valid_before_outcomes _ _ _ _ _ Houts).
  destruct (comprehension_lookup _ _ _ _ _ Houts Hi) as (o & Ho & Hito).
  eapply omap_lookup_position; [exact Ho|].
  rewrite Hd in Hito. by injection Hito as <-.
Qed.

(** A row is rejected as soon as one field has an error: no label makes it a
    record, and a label that is a number makes it an entry. *)
Lemma row_not_valid (index : value) (row : Series) (field : ModelField) (e : ErrorDetail)
  (d : Dict) :
  In field AdPerformanceRecord_fields ->
  In e (field_errors rt (to_dict row) field) ->
  row_outcome rt unexpected (index, row) <> Ok (inl d).
Proof.
  intros Hfield He Hd.
  apply row_outcome_record in Hd as (_ & _ & Hnil & _).
  assert (In e (flat_map (field_errors rt (to_dict row)) AdPerformanceRecord_fields)) as Hin
    by (apply in_flat_map; eauto).
  rewrite Hnil in Hin. destruct Hin.
Qed.

Lemma row_rejected (index : value) (row : Series) (field : ModelField) (e : ErrorDetail) :
  is_number index = true ->
  In field AdPerformanceRecord_fields ->
  In e (field_errors rt (to_dict row) field) ->
  exists en, row_outcome rt unexpected (index, row) = Ok (inr en).
Proof.
  intros Hnum Hfield He.
  destruct (row_outcome_number rt unexpected (index, row) Hnum) as [[d|en] Ho]; [|eauto].
  exfalso. eapply row_not_valid; eauto.
Qed.

Lemma constructor_raises (d : Dict) (field : ModelField) (e : ErrorDetail) :
  In field AdPerformanceRecord_fields ->
  In e (field_errors rt d field) ->
  exists errors,
    AdPerformanceRecord rt d = Raise (ValidationError errors) /\
    errors = flat_map (field_errors rt d) AdPerformanceRecord_fields /\
    In e errors.
Proof.
  intros Hfield He.
  assert (In e (flat_map (field_errors rt d) AdPerformanceRecord_fields)) as Hin
    by (apply in_flat_map; eauto).
  pose proof (AdPerformanceRecord_spec rt d) as H.
  destruct (flat_map _ _) as [|first rest]; [destruct Hin|eauto].
Qed.

End Positions.

Section Returned.

Variable rt : Runtime.
Variable unexpected : Series -> option string.

(** Positions in the lists of a run that returned. *)
Lemma returned_entry_position (df : DataFrame) (v : list Dict) (e : list ErrorEntry)
  (i : nat) (it : value * Series) (en : ErrorEntry) :
  validate_data rt unexpected df = Ok (v, e) ->
  df !! i = Some it ->
  row_outcome rt unexpected it = Ok (inr en) ->
  e !! errors_before rt unexpected df i = Some en.
Proof.
  intros Hrun Hi Hen. apply validate_data_Ok in Hrun as (outs & Houts & _ & ->).
  by eapply entry_position.
Qed.

Lemma returned_record_position (df : DataFrame) (v : list Dict) (e : list ErrorEntry)
  (i : nat) (it : value * Series) (d : Dict) :
  validate_data rt unexpected df = Ok (v, e) ->
  df !! i = Some it ->
  row_outcome rt unexpected it = Ok (inl d) ->
  v !! valid_before rt unexpected df i = Some d.
Proof.
  intros Hrun Hi Hd. apply validate_data_Ok in Hrun as (outs & Houts & -> & _).
  by eapply record_position.
Qed.

(** A run on a frame whose labels are numbers returns. *)
Lemma validate_data_returns (df : DataFrame) :
  Forall (fun it => is_number it.1 = true) df ->
  exists v e, validate_data rt unexpected df = Ok (v, e) /\
              (length v + length e = length df)%nat.
Proof.
  intros Hnum. destruct (validate_data_number rt unexpected df Hnum) as (outs & Houts & Hrun).
  do 2 eexists. split; [exact Hrun|].
  rewrite outcome_lengths. apply comprehension_Forall2 in Houts.
  symmetry. by eapply Forall2_length.
Qed.

(** A rejected row in the loop: an entry when its label is a number, and
    under no label a record. *)
Lemma loop_body_rejected (st : list Dict * list ErrorEntry) (index : value) (row : Series)
  (field : ModelField) (e : ErrorDetail) :
  In field AdPerformanceRecord_fields ->
  In e (field_errors rt (to_dict row) field) ->
  (is_number index = true ->
   exists entry, loop_body rt unexpected st (index, row) = Ok (st.1, st.2 ++ [entry])) /\
  (forall st', loop_body rt unexpected st (index, row) = Ok st' -> st'.1 = st.1).
Proof.
  intros Hfield He. split.
  - intros Hnum.
    destruct (row_rejected rt unexpected index row field e Hnum Hfield He) as [en Hen].
    exists en. by rewrite loop_body_outcome, Hen.
  - intros st'. rewrite loop_body_outcome.
    destruct (row_outcome rt unexpected (index, row)) as [[d|en]|ex] eqn:Ho; simpl.
    + exfalso. by eapply row_not_valid.
    + intros H. by injection H as <-.
    + done.
Qed.

End Returned.

(** ** Claims *)

(** C1 (as the code has it). For every input table whose index labels are
    numbers each row yields exactly one outcome: an iteration appends exactly
    one entry to [valid_records] and leaves [error_report_list] alone, or the
    other way round; hence the runner returns two lists whose lengths add up
    to the number of rows.  Under any labels, an iteration that returns has
    appended exactly one entry. *)
Theorem C1_one_outcome_per_row (rt : Runtime) (unexpected : Series -> option string)
  (df : DataFrame) :
  Forall (fun it => is_number it.1 = true) df ->
  (forall st it, is_number it.1 = true ->
      exists st',
        loop_body rt unexpected st it = Ok st' /\
        ((exists d, st' = (st.1 ++ [d], st.2)) \/
         (exists en, st' = (st.1, st.2 ++ [en])))) /\
  (forall st it st',
      loop_body rt unexpected st it = Ok st' ->
      (exists d, st' = (st.1 ++ [d], st.2)) \/
      (exists en, st' = (st.1, st.2 ++ [en]))) /\
  exists valid_records error_report,
    validate_data rt unexpected df = Ok (valid_records, error_report) /\
    (length valid_records + length error_report = length df)%nat.
Proof.
  intros Hnum. split; [|split].
  - intros st it Hit. rewrite loop_body_outcome.
    destruct (row_outcome_number rt unexpected it Hit) as [[d|en] ->]; simpl; eauto 6.
  - intros st it st'. rewrite loop_body_outcome.
    destruct (row_outcome rt unexpected it) as [[d|en]|e]; simpl; [| |done];
      intros H; injection H as <-; eauto.
  - by apply validate_data_returns.
Qed.

(** C1, as stated, fails: on a table of one row whose index label is the
    text "a" and whose row fails validation, [index + 2] raises in the
    handler, the exception leaves the runner and no list is returned. *)
Lemma C1_counterexample :
  length text_labelled_frame = 1%nat /\
  validate_data example_runtime no_fault text_labelled_frame
  = Raise (TypeError ("can only concatenate str (not " +:+ dquote +:+ "int"
                      +:+ dquote +:+ ") to str")) /\
  forall valid_records error_report,
    validate_data example_runtime no_fault text_labelled_frame
    <> Ok (valid_records, error_report).
Proof.
  assert (validate_data example_runtime no_fault text_labelled_frame
          = Raise (TypeError ("can only concatenate str (not " +:+ dquote +:+ "int"
                              +:+ dquote +:+ ") to str"))) as Hrun
    by (vm_compute; reflexivity).
  split; [reflexivity|]. split; [exact Hrun|].
  intros v e. rewrite Hrun. discriminate.
Qed.

(** C9. Both outputs keep the order of the rows: each list is the outcomes of
    its kind in input order, so for rows at positions [i < j] that land in
    the same list, the entry of row [i] stands before the entry of row [j],
    each at the position given by the number of earlier rows of its kind. *)
Theorem C9_row_order_preserved (rt : Runtime) (unexpected : Series -> option string)
  (df : DataFrame) (valid_records : list Dict) (error_report : list ErrorEntry)
  (i j : nat) (it_i it_j : value * Series) :
  validate_data rt unexpected df = Ok (valid_records, error_report) ->
  (i < j)%nat ->
  df !! i = Some it_i ->
  df !! j = Some it_j ->
  (forall a b,
      loop_body rt unexpected ([], []) it_i = Ok ([a], []) ->
      loop_body rt unexpected ([], []) it_j = Ok ([b], []) ->
      (valid_before rt unexpected df i < valid_before rt unexpected df j)%nat /\
      valid_records !! valid_before rt unexpected df i = Some a /\
      valid_records !! valid_before rt unexpected df j = Some b) /\
  (forall a b,
      loop_body rt unexpected ([], []) it_i = Ok ([], [a]) ->
      loop_body rt unexpected ([], []) it_j = Ok ([], [b]) ->
      (errors_before rt unexpected df i < errors_before rt unexpected df j)%nat /\
      error_report !! errors_before rt unexpected df i = Some a /\
      error_report !! errors_before rt unexpected df j = Some b).
Proof.
  intros Hrun Hij Hi Hj.
  destruct (validate_data_Ok _ _ _ _ _ Hrun) as (outs & Houts & -> & ->).
  destruct (comprehension_lookup _ _ _ _ _ Houts Hi) as (o & Ho & Hito).
  split; intros a b Ha Hb.
  - apply loop_body_valid in Ha, Hb. split; [|split].
    + rewrite !(valid_before_outcomes _ _ _ _ _ Houts).
      eapply omap_position_lt; [exact Hij|exact Ho|].
      rewrite Ha in Hito. injection Hito as <-. by eexists.
    + by eapply record_position.
    + by eapply record_position.
  - apply loop_body_error in Ha, Hb. split; [|split].
    + rewrite !(errors_before_outcomes _ _ _ _ _ Houts).
      eapply omap_position_lt; [exact Hij|exact Ho|].
      rewrite Ha in Hito. injection Hito as <-. by eexists.
    + by eapply entry_position.
    + by eapply entry_position.
Qed.

(** C3 (as the code has it). A row that fails schema validation and whose
    index label is a number gets exactly one entry in the error report: its
    line number is the index label plus 2, which is [i + 2] for the row at
    zero-based position [i] of a table with the default index 0, 1, 2, ...;
    its label is the value of [AdSet_name] when the row has one and "N/A"
    otherwise, its message is the formatter applied to the first error (the
    errors come in the declaration order of the fields) and its count is the
    number of errors of the row. *)
Theorem C3_error_report_entry (rt : Runtime) (unexpected : Series -> option string)
  (df : DataFrame) (i : nat) (index : value) (row : Series)
  (errors : list ErrorDetail) (line : value) :
  df !! i = Some (index, row) ->
  try_body rt unexpected row = Raise (ValidationError errors) ->
  add_two rt index = Ok line ->
  exists first rest first_sentence,
    errors = first :: rest /\
    errors = flat_map (field_errors rt (to_dict row)) AdPerformanceRecord_fields /\
    format_pydantic_error first = Ok first_sentence /\
    let entry :=
      {| Linha_CSV := line;
         AdSet_Nome_Aprox :=
           match row !! "AdSet_name" with Some v => v | None => VStr "N/A" end;
         Primeiro_Erro_Detectado := first_sentence;
         Total_Erros_Nesta_Linha := Z.of_nat (length errors) |} in
    (forall st, loop_body rt unexpected st (index, row) = Ok (st.1, st.2 ++ [entry])) /\
    (forall valid_records error_report,
        validate_data rt unexpected df = Ok (valid_records, error_report) ->
        error_report !! errors_before rt unexpected df i = Some entry) /\
    (Forall (fun it => is_number it.1 = true) df ->
     exists valid_records error_report,
       validate_data rt unexpected df = Ok (valid_records, error_report) /\
       error_report !! errors_before rt unexpected df i = Some entry) /\
    (forall rows,
        df = range_indexed rows ->
        line = VInt (Z.of_nat i + 2) /\ Forall (fun it => is_number it.1 = true) df).
Proof.
  intros Hi Htry Hline. rewrite try_body_spec in Htry.
  destruct (unexpected row) as [text|] eqn:Hu; [discriminate|].
  pose proof (model_errors_shape rt (to_dict row)) as Hshape.
  destruct (flat_map _ _) as [|first rest] eqn:Herrs; [discriminate|].
  injection Htry as <-.
  apply Forall_cons_1 in Hshape as [(field & pe & Hfirst) _].
  assert (row_outcome rt unexpected (index, row) =
          Ok (inr {| Linha_CSV := line;
                     AdSet_Nome_Aprox :=
                       match row !! "AdSet_name" with Some v => v | None => VStr "N/A" end;
                     Primeiro_Erro_Detectado := sentence_of first;
                     Total_Erros_Nesta_Linha := Z.of_nat (length (first :: rest)) |})) as Hout.
  { unfold row_outcome; cbn [fst snd]. rewrite Hu, Herrs, Hline. reflexivity. }
  exists first, rest, (sentence_of first).
  split; [reflexivity|]. split; [reflexivity|].
  split; [subst first; apply format_error_dict|].
  cbv zeta. split; [|split; [|split]].
  - intros st. rewrite loop_body_outcome, Hout. reflexivity.
  - intros v e Hrun. by eapply returned_entry_position.
  - intros Hnum. destruct (validate_data_returns rt unexpected df Hnum) as (v & e & Hrun & _).
    exists v, e. split; [exact Hrun|]. by eapply returned_entry_position.
  - intros rows ->. split; [|apply range_indexed_number].
    unfold range_indexed in Hi. rewrite list_lookup_imap in Hi.
    destruct (rows !! i); simpl in Hi; [|done].
    injection Hi as <- _. simpl in Hline. by injection Hline as <-.
Qed.

(** C3, as stated, fails: the line number is computed from the index label of
    the row, not from its position.  The row at position 0 of a table whose
    index starts at 4 (a filtered frame, say) gets line 6, not 2. *)
Lemma C3_counterexample :
  relabelled_frame !! 0%nat = Some (VInt 4, negative_amount_row) /\
  validate_data example_runtime no_fault relabelled_frame
  = Ok ([], [ {| Linha_CSV := VInt 6;
                 AdSet_Nome_Aprox := VStr "X";
                 Primeiro_Erro_Detectado :=
                   "Campo 'Amount_spent': Ensure this value is greater than or equal to 0.0.";
                 Total_Erros_Nesta_Linha := 1 |} ]) /\
  VInt 6 <> VInt (Z.of_nat 0 + 2).
Proof.
  split; [reflexivity|]. split; [vm_compute; reflexivity|]. discriminate.
Qed.

(** C4 (as the code has it). On every input table whose index labels are
    numbers the runner never stops early and returns both lists in full: a
    row that raises, a validation error or any other exception, becomes an
    entry of the error report, nothing is raised by the runner, and a row
    with an unexpected exception gets exactly one entry that counts one
    error, carries the generic message and uses the same label lookup. *)
Theorem C4_faults_are_reported (rt : Runtime) (unexpected : Series -> option string)
  (df : DataFrame) :
  Forall (fun it => is_number it.1 = true) df ->
  exists valid_records error_report,
    validate_data rt unexpected df = Ok (valid_records, error_report) /\
    (length valid_records + length error_report = length df)%nat /\
    (forall i index row e,
        df !! i = Some (index, row) ->
        try_body rt unexpected row = Raise e ->
        exists entry,
          error_report !! errors_before rt unexpected df i = Some entry /\
          add_two rt index = Ok (Linha_CSV entry) /\
          forall st, loop_body rt unexpected st (index, row) = Ok (st.1, st.2 ++ [entry])) /\
    (forall i index row text,
        df !! i = Some (index, row) ->
        unexpected row = Some text ->
        exists line,
          add_two rt index = Ok line /\
          let entry :=
            {| Linha_CSV := line;
               AdSet_Nome_Aprox :=
                 match row !! "AdSet_name" with Some v => v | None => VStr "N/A" end;
               Primeiro_Erro_Detectado := "Erro Geral: " +:+ text;
               Total_Erros_Nesta_Linha := 1 |} in
          try_body rt unexpected row = Raise (Exception text) /\
          error_report !! errors_before rt unexpected df i = Some entry /\
          forall st, loop_body rt unexpected st (index, row) = Ok (st.1, st.2 ++ [entry])).
Proof.
  intros Hnum.
  destruct (validate_data_returns rt unexpected df Hnum) as (v & e & Hrun & Hlen).
  exists v, e. split; [exact Hrun|]. split; [exact Hlen|]. split.
  - intros i index row ex Hi Htry.
    pose proof (Forall_lookup_1 _ _ _ _ Hnum Hi) as Hindex.
    destruct (row_outcome_number rt unexpected (index, row) Hindex) as [[d|en] Ho].
    { apply row_outcome_record in Ho as (_ & Hu & Hnil & _).
      rewrite try_body_spec, Hu, Hnil in Htry. discriminate. }
    exists en. split; [|split].
    + by eapply returned_entry_position.
    + by apply (row_outcome_line rt unexpected (index, row)).
    + intros st. by rewrite loop_body_outcome, Ho.
  - intros i index row text Hi Hu.
    pose proof (Forall_lookup_1 _ _ _ _ Hnum Hi) as Hindex.
    destruct (add_two_number rt index Hindex) as [line Hline].
    exists line. split; [exact Hline|]. cbv zeta.
    assert (row_outcome rt unexpected (index, row) =
            Ok (inr {| Linha_CSV := line;
                       AdSet_Nome_Aprox :=
                         match row !! "AdSet_name" with Some v => v | None => VStr "N/A" end;
                       Primeiro_Erro_Detectado := "Erro Geral: " +:+ text;
                       Total_Erros_Nesta_Linha := 1 |})) as Hout.
    { unfold row_outcome; cbn [fst snd]. by rewrite Hu, Hline. }
    split; [|split].
    + unfold try_body. by rewrite Hu.
    + by eapply returned_entry_position.
    + intros st. by rewrite loop_body_outcome, Hout.
Qed.

(** C4, as stated, fails: an exception raised inside an [except] clause is
    not caught by that clause.  On a table of one row that raises an
    unexpected exception and whose index label is the text "a", [index + 2]
    raises in the handler of [Exception] and the runner raises. *)
Lemma C4_counterexample :
  length text_labelled_fault_frame = 1%nat /\
  try_body example_runtime fault_on_unreadable unreadable_row
  = Raise (Exception "unreadable") /\
  validate_data example_runtime fault_on_unreadable text_labelled_fault_frame
  = Raise (TypeError ("can only concatenate str (not " +:+ dquote +:+ "int"
                      +:+ dquote +:+ ") to str")).
Proof.
  split; [reflexivity|]. split; vm_compute; reflexivity.
Qed.

(** A negative float is not [>= 0.0]. *)
Lemma float_negative_not_ge (f : pyfloat) :
  float_negative f = true -> float_ge f (FFinite 0 0) = false.
Proof.
  destruct f as [|negative|m e]; unfold float_negative; simpl.
  - discriminate.
  - destruct negative; [reflexivity|discriminate].
  - intros H. apply Z.ltb_lt in H. apply Z.leb_gt.
    assert (m < 0) as Hm by (destruct m; simpl in H; lia).
    assert (0 < 2 ^ (e - Z.min e 0)) as Hp by (apply Z.pow_pos_nonneg; lia).
    nia.
Qed.

(** C7. A row whose [Amount_spent] converts to a float that is negative
    (such as -5) makes the row validator report the error of the [ge=0.0]
    bound (type "value_error.number.not_ge") at [Amount_spent], and the row
    gets an entry in the error report and no record in [valid_records]. *)
Theorem C7_negative_amount_rejected (rt : Runtime)
  (unexpected : Series -> option string) (row : Series) (v : value) (f : pyfloat) :
  row !! "Amount_spent" = Some v ->
  float_validator rt v = inr f ->
  float_negative f = true ->
  (exists errors,
      AdPerformanceRecord rt (to_dict row) = Raise (ValidationError errors) /\
      errors = flat_map (field_errors rt (to_dict row)) AdPerformanceRecord_fields /\
      In (error_dict "Amount_spent" (NumberNotGeError rt (FFinite 0 0))) errors) /\
  forall st index,
    (is_number index = true ->
     exists entry, loop_body rt unexpected st (index, row) = Ok (st.1, st.2 ++ [entry])) /\
    (forall st', loop_body rt unexpected st (index, row) = Ok st' -> st'.1 = st.1).
Proof.
  intros Hv Hf Hneg.
  set (field := Required "Amount_spent" (Single (TFloat (Some (FFinite 0 0))))).
  assert (In field AdPerformanceRecord_fields) as Hfield by (simpl; tauto).
  assert (In (error_dict "Amount_spent" (NumberNotGeError rt (FFinite 0 0)))
             (field_errors rt (to_dict row) field)) as He.
  { unfold field_errors, to_dict; cbn [name field Required]. rewrite Hv.
    assert (field_validate rt field v = inl [NumberNotGeError rt (FFinite 0 0)]) as ->.
    { unfold field_validate; cbn [annotation allow_none field Required apply_validators].
      rewrite Hf. cbn [number_size_validator].
      rewrite (float_negative_not_ge f Hneg). cbn [negb].
      destruct v; try reflexivity; discriminate Hf. }
    left. reflexivity. }
  split.
  - by eapply constructor_raises.
  - intros st index. by eapply loop_body_rejected.
Qed.

(** C8. A row in which an optional numeric field (such as [Link_clicks]) is
    present with a value that neither [int] nor [float] accepts (such as the
    string "abc") makes the row validator report a type error at that field,
    and the row is rejected although the field is optional. *)
Theorem C8_optional_wrong_type_rejected (rt : Runtime)
  (unexpected : Series -> option string) (row : Series) (field_name : string)
  (v : value) :
  In field_name ["Link_clicks"; "Impressions"; "Conversions"] ->
  row !! field_name = Some v ->
  v <> VNone ->
  int_validator rt v = inl IntegerError ->
  float_validator rt v = inl FloatError ->
  (exists errors,
      AdPerformanceRecord rt (to_dict row) = Raise (ValidationError errors) /\
      errors = flat_map (field_errors rt (to_dict row)) AdPerformanceRecord_fields /\
      In (error_dict field_name IntegerError) errors /\
      In (error_dict field_name FloatError) errors) /\
  forall st index,
    (is_number index = true ->
     exists entry, loop_body rt unexpected st (index, row) = Ok (st.1, st.2 ++ [entry])) /\
    (forall st', loop_body rt unexpected st (index, row) = Ok st' -> st'.1 = st.1).
Proof.
  intros Hname Hv Hnone Hint Hfloat.
  set (field := Optional field_name (Union [TInt; TFloat None])).
  assert (In field AdPerformanceRecord_fields) as Hfield.
  { subst field. simpl in Hname.
    destruct Hname as [<-|[<-|[<-|[]]]]; simpl; tauto. }
  assert (field_errors rt (to_dict row) field
          = [error_dict field_name IntegerError; error_dict field_name FloatError]) as He.
  { unfold field_errors, to_dict; cbn [name field Optional]. rewrite Hv.
    assert (field_validate rt field v = inl [IntegerError; FloatError]) as ->.
    { unfold field_validate;
        cbn [annotation allow_none field Optional validate_union apply_validators].
      rewrite Hint, Hfloat.
      destruct v; try reflexivity. by destruct Hnone. }
    reflexivity. }
  split.
  - destruct (constructor_raises rt (to_dict row) field (error_dict field_name IntegerError) Hfield)
      as (errors & Hraise & Herrors & Hin); [rewrite He; by left|].
    exists errors. repeat split; try assumption.
    rewrite Herrors. apply in_flat_map. exists field. split; [assumption|].
    rewrite He. right. by left.
  - intros st index.
    eapply (loop_body_rejected rt unexpected st index row field
              (error_dict field_name IntegerError) Hfield).
    rewrite He. by left.
Qed.

Lemma flat_map_nil {A B} (f : A -> list B) (l : list A) (x : A) :
  flat_map f l = [] -> In x l -> f x = [].
Proof.
  induction l as [|y l IH]; simpl; [tauto|].
  intros H [->|Hx]; apply app_eq_nil in H as [H1 H2]; auto.
Qed.

(** C2 (as the code has it). A row that passes validation is appended
    to [valid_records] as [row.to_dict()], the raw dictionary of the row:
    every column of the row is in it with the value as read, not coerced and
    not restricted to the declared fields.  Since validation passed, every
    required field is present in it. *)
Theorem C2_valid_record_is_raw_row (rt : Runtime)
  (unexpected : Series -> option string) (df : DataFrame) (i : nat) (index : value)
  (row : Series) (values : Dict) :
  df !! i = Some (index, row) ->
  unexpected row = None ->
  AdPerformanceRecord rt (to_dict row) = Ok values ->
  (forall st,
      loop_body rt unexpected st (index, row) = Ok (st.1 ++ [to_dict row], st.2)) /\
  (forall valid_records error_report,
      validate_data rt unexpected df = Ok (valid_records, error_report) ->
      valid_records !! valid_before rt unexpected df i = Some (to_dict row)) /\
  (Forall (fun it => is_number it.1 = true) df ->
   exists valid_records error_report,
     validate_data rt unexpected df = Ok (valid_records, error_report) /\
     valid_records !! valid_before rt unexpected df i = Some (to_dict row)) /\
  (forall key, to_dict row !! key = row !! key) /\
  (forall field,
      In field AdPerformanceRecord_fields -> required field = true ->
      is_Some (to_dict row !! name field)).
Proof.
  intros Hi Hu Hok.
  pose proof (AdPerformanceRecord_spec rt (to_dict row)) as Hspec.
  destruct (flat_map (field_errors rt (to_dict row)) AdPerformanceRecord_fields)
    as [|first rest] eqn:Herrs; [|rewrite Hspec in Hok; discriminate].
  assert (row_outcome rt unexpected (index, row) = Ok (inl (to_dict row))) as Hout.
  { unfold row_outcome; cbn [fst snd]. by rewrite Hu, Herrs. }
  split; [|split; [|split; [|split]]].
  - intros st. by rewrite loop_body_outcome, Hout.
  - intros v e Hrun. by eapply returned_record_position.
  - intros Hnum. destruct (validate_data_returns rt unexpected df Hnum) as (v & e & Hrun & _).
    exists v, e. split; [exact Hrun|]. by eapply returned_record_position.
  - reflexivity.
  - intros field Hfield Hreq.
    pose proof (flat_map_nil _ _ field Herrs Hfield) as Hnil.
    unfold field_errors in Hnil.
    destruct (to_dict row !! name field) as [v|]; [by eexists|].
    rewrite Hreq in Hnil. discriminate.
Qed.

(** The conforming row with the undeclared column passes validation. *)
Lemma extra_column_row_no_errors :
  flat_map (field_errors example_runtime (to_dict extra_column_row))
    AdPerformanceRecord_fields = [].
Proof. vm_compute. reflexivity. Qed.

Lemma extra_column_row_validates :
  AdPerformanceRecord example_runtime (to_dict extra_column_row)
  = Ok extra_column_validated.
Proof.
  pose proof (AdPerformanceRecord_spec example_runtime (to_dict extra_column_row)) as H.
  rewrite extra_column_row_no_errors in H. exact H.
Qed.

Lemma extra_column_row_outcome (index : value) :
  row_outcome example_runtime no_fault (index, extra_column_row)
  = Ok (inl (to_dict extra_column_row)).
Proof.
  unfold row_outcome; cbn [fst snd no_fault].
  by rewrite extra_column_row_no_errors.
Qed.

Lemma conforming_row_outcome (index : value) :
  row_outcome example_runtime no_fault (index, conforming_row)
  = Ok (inl (to_dict conforming_row)).
Proof.
  unfold row_outcome; cbn [fst snd no_fault].
  assert (flat_map (field_errors example_runtime (to_dict conforming_row))
            AdPerformanceRecord_fields = []) as -> by (vm_compute; reflexivity).
  reflexivity.
Qed.

(** The labels of the example frame are numbers. *)
Lemma example_frame_number : Forall (fun it => is_number it.1 = true) example_frame.
Proof. apply range_indexed_number. Qed.

(** C2, as stated, fails: the conforming row with the undeclared column
    [Campanha] and the integer 5 as [Amount_spent] passes validation; the
    schema's record for it has no [Campanha] and has the float 5.0, while the
    record appended to [valid_records] keeps [Campanha] and the integer 5. *)
Lemma C2_counterexample :
  AdPerformanceRecord example_runtime (to_dict extra_column_row)
  = Ok extra_column_validated /\
  validate_data example_runtime no_fault (range_indexed [extra_column_row])
  = Ok ([to_dict extra_column_row], []) /\
  to_dict extra_column_row <> extra_column_validated /\
  to_dict extra_column_row !! "Campanha" = Some (VStr "Q1") /\
  extra_column_validated !! "Campanha" = None /\
  to_dict extra_column_row !! "Amount_spent" = Some (VInt 5) /\
  extra_column_validated !! "Amount_spent" = Some (VFloat (FFinite 5 0)).
Proof.
  split; [exact extra_column_row_validates|].
  split.
  { rewrite validate_data_outcomes. unfold range_indexed. cbn [imap comprehension].
    rewrite extra_column_row_outcome. reflexivity. }
  split; [|repeat split; vm_compute; reflexivity].
  intros H. apply (f_equal (fun d : Dict => d !! "Campanha")) in H.
  vm_compute in H. discriminate H.
Qed.

(** C5 (as the code has it). The formatter is total on violations: for every
    entry of [errors()] that names a field it returns exactly one sentence,
    one of the four templates, chosen by the diagnostic text; the texts of
    the engine's categories each have their template; and a text that matches
    no specific template gets the generic
    "Campo '<name>': <capitalized text>.".  It never raises. *)
Theorem C5_formatter_total (e : ErrorDetail) :
  loc e <> Some [] ->
  exists field text s,
    head (default ["Campo Desconhecido"] (loc e)) = Some field /\
    text = default "Erro de validação genérico." (msg e) /\
    format_pydantic_error e = Ok s /\
    (s = missing_sentence field \/ s = float_sentence field \/
     s = integer_sentence field \/ s = generic_sentence field text) /\
    (str_in "field required" text = false ->
     str_in "float" text
       && (str_in "not a valid float" text || str_in "value is not a valid float" text)
     = false ->
     str_in "int" text && str_in "not a valid integer" text = false ->
     s = "Campo '" +:+ field +:+ "': " +:+ capitalize text +:+ ".") /\
    (forall name,
        format_pydantic_error (error_dict name MissingError) = Ok (missing_sentence name) /\
        format_pydantic_error (error_dict name FloatError) = Ok (float_sentence name) /\
        format_pydantic_error (error_dict name IntegerError) = Ok (integer_sentence name) /\
        format_pydantic_error (error_dict name StrError)
        = Ok (generic_sentence name "str type expected") /\
        format_pydantic_error (error_dict name NoneIsNotAllowedError)
        = Ok (generic_sentence name "none is not an allowed value")).
Proof.
  intros Hloc.
  assert (exists field rest, default ["Campo Desconhecido"] (loc e) = field :: rest)
    as (field & rest & Hfield).
  { destruct (loc e) as [[|field rest]|]; simpl; [by destruct Hloc|eauto|eauto]. }
  exists field, (default "Erro de validação genérico." (msg e)).
  set (text := default "Erro de validação genérico." (msg e)).
  assert (format_pydantic_error e = Ok (sentence field text)) as Hfmt.
  { unfold format_pydantic_error. rewrite Hfield. cbn [first_item mbind result_bind].
    fold text. unfold sentence.
    destruct (str_in "field required" text); [reflexivity|].
    destruct (str_in "float" text && _); [reflexivity|].
    destruct (str_in "int" text && _); reflexivity. }
  exists (sentence field text).
  split; [by rewrite Hfield|]. split; [reflexivity|]. split; [exact Hfmt|].
  split; [|split].
  - unfold sentence, missing_sentence, float_sentence, integer_sentence, generic_sentence.
    destruct (str_in "field required" text); [tauto|].
    destruct (str_in "float" text && _); [tauto|].
    destruct (str_in "int" text && _); tauto.
  - intros H1 H2 H3. unfold sentence. by rewrite H1, H2, H3.
  - intros name. rewrite !format_error_dict. repeat split.
Qed.

(** An entry whose "loc" is an empty tuple is no violation of a field; on it
    the subscript [[0]] raises. *)
Example format_pydantic_error_empty_loc :
  format_pydantic_error {| loc := Some []; msg := Some "field required";
                           type_ := "value_error.missing" |}
  = Raise IndexError.
Proof. reflexivity. Qed.

(** C5, as stated, fails on the wording: the generic sentence starts with
    "Campo", not with "Field". *)
Lemma C5_counterexample :
  format_pydantic_error (error_dict "Fase" StrError)
  = Ok "Campo 'Fase': Str type expected." /\
  format_pydantic_error (error_dict "Fase" StrError)
  <> Ok "Field 'Fase': Str type expected.".
Proof. split; [vm_compute; reflexivity|vm_compute; discriminate]. Qed.

Lemma fields_split :
  AdPerformanceRecord_fields
  = fields_before_Date ++ Required "Date" (Single TStr) :: drop 6 AdPerformanceRecord_fields.
Proof. reflexivity. Qed.

(** C6 (as the code has it). For a missing required field the formatter
    returns "O campo '<name>' está faltando ou vazio."; a row that has no
    [Date], whose fields declared before [Date] are valid and that raises no
    unexpected exception gets an entry of the error report whose message is
    that sentence for 'Date' (the entry is built once [index + 2], its line,
    is computed). *)
Theorem C6_missing_field_sentence (rt : Runtime) (unexpected : Series -> option string)
  (field_name : string) (row : Series) :
  unexpected row = None ->
  row !! "Date" = None ->
  Forall (fun field => field_errors rt (to_dict row) field = []) fields_before_Date ->
  format_pydantic_error (error_dict field_name MissingError)
  = Ok ("O campo '" +:+ field_name +:+ "' está faltando ou vazio.") /\
  forall st index line,
    add_two rt index = Ok line ->
    exists entry,
      loop_body rt unexpected st (index, row) = Ok (st.1, st.2 ++ [entry]) /\
      Linha_CSV entry = line /\
      Primeiro_Erro_Detectado entry = "O campo 'Date' está faltando ou vazio.".
Proof.
  intros Hu Hdate Hbefore. split; [by rewrite format_error_dict|].
  assert (exists rest,
             flat_map (field_errors rt (to_dict row)) AdPerformanceRecord_fields
             = error_dict "Date" MissingError :: rest) as [rest Herrs].
  { rewrite fields_split, flat_map_app.
    assert (flat_map (field_errors rt (to_dict row)) fields_before_Date = []) as ->.
    { clear -Hbefore. induction Hbefore as [|f l Hf _ IH]; simpl; [reflexivity|].
      by rewrite Hf, IH. }
    cbn [flat_map app]. unfold field_errors at 1, to_dict; cbn [name required Required].
    rewrite Hdate. cbn [app]. eauto. }
  intros st index line Hline.
  eexists. rewrite loop_body_outcome. unfold row_outcome; cbn [fst snd].
  rewrite Hu, Herrs, Hline. split; [reflexivity|]. split; reflexivity.
Qed.

(** C6, as stated, fails: the sentence for a missing [Date] is the Portuguese
    one; and a row that lacks [Date] and also a field declared before it
    reports the earlier field first. *)
Lemma C6_counterexample :
  format_pydantic_error (error_dict "Date" MissingError)
  = Ok "O campo 'Date' está faltando ou vazio." /\
  format_pydantic_error (error_dict "Date" MissingError)
  <> Ok "Field 'Date' is missing or empty." /\
  missing_two_row !! "Date" = None /\
  validate_data example_runtime no_fault (range_indexed [missing_two_row])
  = Ok ([], [ {| Linha_CSV := VInt 2;
                 AdSet_Nome_Aprox := VStr "X";
                 Primeiro_Erro_Detectado := "O campo 'Organizador' está faltando ou vazio.";
                 Total_Erros_Nesta_Linha := 2 |} ]).
Proof.
  split; [vm_compute; reflexivity|].
  split; [vm_compute; discriminate|].
  split; vm_compute; reflexivity.
Qed.

(** An empty cell is no missing field: the key is present with the float NaN,
    which the schema turns into the string "nan", and the row is valid. *)
Example empty_date_cell_is_valid :
  validate_data example_runtime no_fault (range_indexed [empty_date_row])
  = Ok ([to_dict empty_date_row], []).
Proof.
  rewrite validate_data_outcomes. unfold range_indexed. cbn [imap comprehension].
  unfold row_outcome; cbn [fst snd no_fault].
  assert (flat_map (field_errors example_runtime (to_dict empty_date_row))
            AdPerformanceRecord_fields = []) as -> by (vm_compute; reflexivity).
  reflexivity.
Qed.

(** The report of the runner on the rows of the examples. *)
Example example_frame_report :
  snd <$> (match validate_data example_runtime fault_on_unreadable example_frame with
           | Ok r => Some r
           | Raise _ => None
           end)
  = Some [
      {| Linha_CSV := VInt 3;
         AdSet_Nome_Aprox := VStr "X";
         Primeiro_Erro_Detectado :=
           "Campo 'Amount_spent': Ensure this value is greater than or equal to 0.0.";
         Total_Erros_Nesta_Linha := 1 |};
      {| Linha_CSV := VInt 5;
         AdSet_Nome_Aprox := VStr "X";
         Primeiro_Erro_Detectado :=
           "O campo 'Link_clicks' deve ser um número inteiro (ex: 100).";
         Total_Erros_Nesta_Linha := 2 |};
      {| Linha_CSV := VInt 6;
         AdSet_Nome_Aprox := VStr "X";
         Primeiro_Erro_Detectado := "O campo 'Date' está faltando ou vazio.";
         Total_Erros_Nesta_Linha := 1 |};
      {| Linha_CSV := VInt 7;
         AdSet_Nome_Aprox := VStr "Y";
         Primeiro_Erro_Detectado := "Erro Geral: unreadable";
         Total_Erros_Nesta_Linha := 1 |} ].
Proof. vm_compute. reflexivity. Qed.

(** ** The theorems at concrete rows

    Each theorem above that has hypotheses is applied to rows of the
    examples, which shows its hypotheses can be met. *)

(** C1 at a concrete input. The example frame, whose labels are 0 to 5. *)
Lemma C1_witness :
  Forall (fun it => is_number it.1 = true) example_frame /\
  exists valid_records error_report,
    validate_data example_runtime fault_on_unreadable example_frame
    = Ok (valid_records, error_report) /\
    (length valid_records + length error_report = 6)%nat.
Proof.
  assert (Forall (fun it => is_number it.1 = true) example_frame) as Hnum
    by (unfold example_frame, range_indexed; cbn [imap]; repeat constructor).
  split; [exact Hnum|].
  destruct (C1_one_outcome_per_row example_runtime fault_on_unreadable example_frame Hnum)
    as (_ & _ & v & e & Hrun & Hlen).
  exists v, e. split; [exact Hrun|exact Hlen].
Defined.

(** C2 at a concrete input. A conforming row with an undeclared column, third row of the example frame. *)
Lemma C2_witness :
  example_frame !! 2%nat = Some (VInt 2, extra_column_row) /\
  no_fault extra_column_row = None /\
  AdPerformanceRecord example_runtime (to_dict extra_column_row)
  = Ok extra_column_validated /\
  exists valid_records error_report,
    validate_data example_runtime no_fault example_frame
    = Ok (valid_records, error_report) /\
    valid_records !! 1%nat = Some (to_dict extra_column_row).
Proof.
  split; [reflexivity|]. split; [reflexivity|].
  split; [exact extra_column_row_validates|].
  destruct (C2_valid_record_is_raw_row example_runtime no_fault example_frame 2
              (VInt 2) extra_column_row extra_column_validated)
    as (_ & _ & Hrun & _);
    [reflexivity|reflexivity|exact extra_column_row_validates|].
  destruct (Hrun example_frame_number) as (v & e & Hv & Hat).
  assert (valid_before example_runtime no_fault example_frame 2 = 1%nat) as Hpos
    by (vm_compute; reflexivity).
  rewrite Hpos in Hat.
  exists v, e. split; [exact Hv|exact Hat].
Defined.

(** C3 at a concrete input. The row with the negative amount, second row of a table of two. *)
Lemma C3_witness :
  range_indexed [conforming_row; negative_amount_row] !! 1%nat
  = Some (VInt 1, negative_amount_row) /\
  try_body example_runtime no_fault negative_amount_row
  = Raise (ValidationError
             [error_dict "Amount_spent" (NumberNotGeError example_runtime (FFinite 0 0))]) /\
  add_two example_runtime (VInt 1) = Ok (VInt 3) /\
  loop_body example_runtime no_fault ([], []) (VInt 1, negative_amount_row)
  = Ok ([], [ {| Linha_CSV := VInt 3;
                 AdSet_Nome_Aprox := VStr "X";
                 Primeiro_Erro_Detectado :=
                   "Campo 'Amount_spent': Ensure this value is greater than or equal to 0.0.";
                 Total_Erros_Nesta_Linha := 1 |} ]).
Proof.
  assert (try_body example_runtime no_fault negative_amount_row
          = Raise (ValidationError
                     [error_dict "Amount_spent"
                        (NumberNotGeError example_runtime (FFinite 0 0))])) as Htry
    by (vm_compute; reflexivity).
  split; [reflexivity|]. split; [exact Htry|]. split; [reflexivity|].
  destruct (C3_error_report_entry example_runtime no_fault
              (range_indexed [conforming_row; negative_amount_row]) 1 (VInt 1)
              negative_amount_row _ (VInt 3) eq_refl Htry eq_refl)
    as (first & rest & s & Herrs & _ & Hfmt & Hstep & _).
  injection Herrs as <- <-.
  vm_compute in Hfmt. injection Hfmt as <-.
  specialize (Hstep ([], [])). vm_compute in Hstep |- *. exact Hstep.
Defined.

(** C4 at a concrete input. The row that raises an unexpected exception, last row of the example frame. *)
Lemma C4_witness :
  Forall (fun it => is_number it.1 = true) example_frame /\
  example_frame !! 5%nat = Some (VInt 5, unreadable_row) /\
  fault_on_unreadable unreadable_row = Some "unreadable" /\
  exists valid_records error_report,
    validate_data example_runtime fault_on_unreadable example_frame
    = Ok (valid_records, error_report) /\
    error_report !! 3%nat
    = Some {| Linha_CSV := VInt 7;
              AdSet_Nome_Aprox := VStr "Y";
              Primeiro_Erro_Detectado := "Erro Geral: unreadable";
              Total_Erros_Nesta_Linha := 1 |}.
Proof.
  assert (Forall (fun it => is_number it.1 = true) example_frame) as Hnum
    by (unfold example_frame, range_indexed; cbn [imap]; repeat constructor).
  assert (fault_on_unreadable unreadable_row = Some "unreadable") as Hfault
    by (vm_compute; reflexivity).
  split; [exact Hnum|]. split; [reflexivity|]. split; [exact Hfault|].
  destruct (C4_faults_are_reported example_runtime fault_on_unreadable example_frame Hnum)
    as (v & e & Hrun & _ & _ & Hentry).
  exists v, e. split; [exact Hrun|].
  destruct (Hentry 5%nat (VInt 5) unreadable_row "unreadable" eq_refl Hfault)
    as (line & Hline & _ & Hat & _).
  injection Hline as <-.
  assert (errors_before example_runtime fault_on_unreadable example_frame 5 = 3%nat)
    as Hpos by (vm_compute; reflexivity).
  rewrite Hpos in Hat. vm_compute in Hat |- *. exact Hat.
Defined.

(** C5 at a concrete input. The violation of a field that is no string. *)
Lemma C5_witness :
  loc (error_dict "Fase" StrError) <> Some [] /\
  format_pydantic_error (error_dict "Fase" StrError)
  = Ok "Campo 'Fase': Str type expected.".
Proof.
  assert (loc (error_dict "Fase" StrError) <> Some []) as Hloc by discriminate.
  split; [exact Hloc|].
  destruct (C5_formatter_total (error_dict "Fase" StrError) Hloc)
    as (field & text & s & Hfield & Htext & Hfmt & _ & Hgeneric & _).
  injection Hfield as <-. simpl in Htext. subst text.
  rewrite Hfmt, Hgeneric; reflexivity.
Defined.

(** C6 at a concrete input. The row without [Date]. *)
Lemma C6_witness :
  no_fault missing_date_row = None /\
  missing_date_row !! "Date" = None /\
  Forall (fun field => field_errors example_runtime (to_dict missing_date_row) field = [])
         fields_before_Date /\
  exists entry,
    loop_body example_runtime no_fault ([], []) (VInt 4, missing_date_row)
    = Ok ([], [entry]) /\
    Linha_CSV entry = VInt 6 /\
    Primeiro_Erro_Detectado entry = "O campo 'Date' está faltando ou vazio.".
Proof.
  assert (missing_date_row !! "Date" = None) as Hdate by (vm_compute; reflexivity).
  assert (Forall (fun field => field_errors example_runtime (to_dict missing_date_row) field = [])
                 fields_before_Date) as Hbefore
    by (repeat constructor; vm_compute; reflexivity).
  split; [reflexivity|]. split; [exact Hdate|]. split; [exact Hbefore|].
  destruct (C6_missing_field_sentence example_runtime no_fault "Date"
              missing_date_row eq_refl Hdate Hbefore)
    as (_ & Hloop).
  destruct (Hloop ([], []) (VInt 4) (VInt 6) eq_refl) as (entry & Hstep & Hl & Hmsg).
  exists entry. split; [exact Hstep|]. split; [exact Hl|exact Hmsg].
Defined.

(** C7 at a concrete input. The row whose [Amount_spent] is -5. *)
Lemma C7_witness :
  negative_amount_row !! "Amount_spent" = Some (VInt (-5)) /\
  float_validator example_runtime (VInt (-5)) = inr (FFinite (-5) 0) /\
  float_negative (FFinite (-5) 0) = true /\
  (exists errors,
    AdPerformanceRecord example_runtime (to_dict negative_amount_row)
    = Raise (ValidationError errors) /\
    In (error_dict "Amount_spent" (NumberNotGeError example_runtime (FFinite 0 0))) errors) /\
  exists entry,
    loop_body example_runtime no_fault ([], []) (VInt 1, negative_amount_row)
    = Ok ([], [entry]).
Proof.
  assert (negative_amount_row !! "Amount_spent" = Some (VInt (-5))) as Hamount
    by (vm_compute; reflexivity).
  split; [exact Hamount|]. split; [reflexivity|]. split; [reflexivity|].
  destruct (C7_negative_amount_rejected example_runtime no_fault negative_amount_row
              (VInt (-5)) (FFinite (-5) 0) Hamount eq_refl eq_refl)
    as [(errors & Hraise & _ & Hin) Hloop].
  split; [exists errors; split; [exact Hraise|exact Hin]|].
  destruct (Hloop ([], []) (VInt 1)) as [Hentry _].
  exact (Hentry eq_refl).
Defined.

(** C8 at a concrete input. The row whose [Link_clicks] is the string "abc". *)
Lemma C8_witness :
  In "Link_clicks" ["Link_clicks"; "Impressions"; "Conversions"] /\
  wrong_clicks_row !! "Link_clicks" = Some (VStr "abc") /\
  VStr "abc" <> VNone /\
  int_validator example_runtime (VStr "abc") = inl IntegerError /\
  float_validator example_runtime (VStr "abc") = inl FloatError /\
  (exists errors,
    AdPerformanceRecord example_runtime (to_dict wrong_clicks_row)
    = Raise (ValidationError errors) /\
    In (error_dict "Link_clicks" IntegerError) errors) /\
  exists entry,
    loop_body example_runtime no_fault ([], []) (VInt 3, wrong_clicks_row)
    = Ok ([], [entry]).
Proof.
  assert (In "Link_clicks" ["Link_clicks"; "Impressions"; "Conversions"]) as Hin
    by (left; reflexivity).
  assert (wrong_clicks_row !! "Link_clicks" = Some (VStr "abc")) as Hclicks
    by (vm_compute; reflexivity).
  assert (VStr "abc" <> VNone) as Hne by discriminate.
  split; [exact Hin|]. split; [exact Hclicks|]. split; [exact Hne|].
  split; [reflexivity|]. split; [reflexivity|].
  destruct (C8_optional_wrong_type_rejected example_runtime no_fault wrong_clicks_row
              "Link_clicks" (VStr "abc") Hin Hclicks Hne eq_refl eq_refl)
    as [(errors & Hraise & _ & Herr & _) Hloop].
  split; [exists errors; split; [exact Hraise|exact Herr]|].
  destruct (Hloop ([], []) (VInt 3)) as [Hentry _].
  exact (Hentry eq_refl).
Defined.

(** C9 at a concrete input. The first and the third row of the example frame, both valid. *)
Lemma C9_witness :
  (0 < 2)%nat /\
  example_frame !! 0%nat = Some (VInt 0, conforming_row) /\
  example_frame !! 2%nat = Some (VInt 2, extra_column_row) /\
  loop_body example_runtime no_fault ([], []) (VInt 0, conforming_row)
  = Ok ([to_dict conforming_row], []) /\
  loop_body example_runtime no_fault ([], []) (VInt 2, extra_column_row)
  = Ok ([to_dict extra_column_row], []) /\
  exists valid_records error_report,
    validate_data example_runtime no_fault example_frame
    = Ok (valid_records, error_report) /\
    valid_records !! 0%nat = Some (to_dict conforming_row) /\
    valid_records !! 1%nat = Some (to_dict extra_column_row).
Proof.
  assert (0 < 2)%nat as Hlt by lia.
  assert (loop_body example_runtime no_fault ([], []) (VInt 0, conforming_row)
          = Ok ([to_dict conforming_row], [])) as Ha.
  { rewrite loop_body_outcome, conforming_row_outcome. reflexivity. }
  assert (loop_body example_runtime no_fault ([], []) (VInt 2, extra_column_row)
          = Ok ([to_dict extra_column_row], [])) as Hb.
  { rewrite loop_body_outcome, extra_column_row_outcome. reflexivity. }
  split; [exact Hlt|]. split; [reflexivity|]. split; [reflexivity|].
  split; [exact Ha|]. split; [exact Hb|].
  destruct (validate_data_returns example_runtime no_fault example_frame
              example_frame_number) as (v & e & Hrun & _).
  exists v, e. split; [exact Hrun|].
  destruct (C9_row_order_preserved example_runtime no_fault example_frame v e 0 2
              (VInt 0, conforming_row) (VInt 2, extra_column_row)
              Hrun Hlt eq_refl eq_refl)
    as [Hvalid _].
  destruct (Hvalid _ _ Ha Hb) as (_ & Hat0 & Hat2).
  assert (valid_before example_runtime no_fault example_frame 0 = 0%nat) as Hp0
    by reflexivity.
  assert (valid_before example_runtime no_fault example_frame 2 = 1%nat) as Hp2
    by (vm_compute; reflexivity).
  rewrite Hp0 in Hat0. rewrite Hp2 in Hat2.
  split; [exact Hat0|exact Hat2].
Defined.

(** * Further properties of the code *)

(** ** The schema and the row validator *)

Lemma fields_NoDup : NoDup (map name AdPerformanceRecord_fields).
Proof. apply (bool_decide_unpack _). vm_compute. reflexivity. Qed.

Lemma fields_no_empty_union :
  Forall (fun field => annotation field <> Union []) AdPerformanceRecord_fields.
Proof. repeat constructor; discriminate. Qed.

Lemma fields_optional_allow_none (field : ModelField) :
  In field AdPerformanceRecord_fields -> required field = false -> allow_none field = true.
Proof.
  simpl. intros H Hreq.
  repeat (destruct H as [<-|H]; [first [discriminate Hreq|reflexivity]|]).
  destruct H.
Qed.

Lemma field_named_None (k : string) (field : ModelField) :
  field_named k = None -> In field AdPerformanceRecord_fields -> name field <> k.
Proof.
  intros Hnone Hin. unfold field_named in Hnone.
  pose proof (find_none _ _ Hnone field Hin) as H. simpl in H.
  by apply String.eqb_neq.
Qed.

Lemma field_named_Some (k : string) :
  is_Some (field_named k) <-> exists field, In field AdPerformanceRecord_fields /\ name field = k.
Proof.
  split.
  - intros [field Hfind]. apply find_some in Hfind as [Hin Heq].
    exists field. split; [exact Hin|]. by apply String.eqb_eq.
  - intros (field & Hin & <-). destruct (field_named (name field)) eqn:E; [by eexists|].
    by destruct (field_named_None _ _ E Hin).
Qed.

Section Schema.

Variable rt : Runtime.

Lemma validate_union_length (ts : list Scalar) (v : value) (errors errors' : list PydanticError) :
  validate_union rt ts v errors = inl errors' ->
  length errors' = (length errors + length ts)%nat.
Proof.
  revert errors. induction ts as [|t ts IH]; intros errors; simpl.
  - intros [= <-]. lia.
  - destruct (apply_validators rt t v); [|discriminate].
    intros H. apply IH in H. rewrite length_app in H. simpl in H. lia.
Qed.

(** A field never fails with an empty list of errors. *)
Lemma field_validate_errors_length (field : ModelField) (v : value)
  (errors : list PydanticError) :
  field_validate rt field v = inl errors ->
  (length errors = 1 \/
   exists ts, annotation field = Union ts /\ length errors = length ts)%nat.
Proof.
  unfold field_validate. intros H.
  assert ((match annotation field with
           | Single t => match apply_validators rt t v with
                         | inl e => inl [e]
                         | inr v' => inr v'
                         end
           | Union ts => validate_union rt ts v []
           end = inl errors) \/ errors = [NoneIsNotAllowedError]) as [H'|Heq].
  { destruct v; auto. destruct (allow_none field); [discriminate|].
    right. congruence. }
  - destruct (annotation field) as [t|ts].
    + destruct (apply_validators rt t v); [|discriminate].
      injection H' as <-. by left.
    + right. exists ts. split; [reflexivity|].
      by apply validate_union_length in H'.
  - subst errors. by left.
Qed.

Lemma field_errors_extra (d : Dict) (k : string) (v : value) (field : ModelField) :
  name field <> k ->
  field_errors rt (<[k := v]> d) field = field_errors rt d field.
Proof. intros Hne. unfold field_errors. by rewrite lookup_insert_ne. Qed.

Lemma validate_fields_extra (fields : list ModelField) (d values : Dict)
  (errors : list ErrorDetail) (k : string) (v : value) :
  Forall (fun field => name field <> k) fields ->
  validate_fields rt fields (<[k := v]> d) values errors
  = validate_fields rt fields d values errors.
Proof.
  intros Hne. revert values errors.
  induction Hne as [|field rest Hfield _ IH]; intros values errors; simpl.
  - reflexivity.
  - rewrite lookup_insert_ne by congruence.
    destruct (d !! name field) as [x|].
    + destruct (field_validate rt field x); apply IH.
    + destruct (required field); apply IH.
Qed.

(** The values stored for a dictionary without errors. *)
Lemma validate_fields_values (fields : list ModelField) (d acc : Dict)
  (errors : list ErrorDetail) :
  NoDup (map name fields) ->
  Forall (fun field => annotation field <> Union []) fields ->
  flat_map (field_errors rt d) fields = [] ->
  forall k,
    (validate_fields rt fields d acc errors).1 !! k =
    match find (fun field => String.eqb (name field) k) fields with
    | Some field => Some (stored_value rt d field)
    | None => acc !! k
    end.
Proof.
  intros Hdup Hunion. revert acc errors.
  induction fields as [|field rest IH]; intros acc errors Hnil k; [reflexivity|].
  apply NoDup_cons in Hdup as [Hfresh Hdup].
  apply Forall_cons_1 in Hunion as [Hu Hunion].
  simpl in Hnil. apply app_eq_nil in Hnil as [Hfield Hrest].
  assert (forall acc',
             acc' !! name field = Some (stored_value rt d field) ->
             (forall k', k' <> name field -> acc' !! k' = acc !! k') ->
             (validate_fields rt rest d acc' errors).1 !! k =
             match find (fun f => String.eqb (name f) k) (field :: rest) with
             | Some f => Some (stored_value rt d f)
             | None => acc !! k
             end) as Hstep.
  { intros acc' Hat Hother. rewrite (IH Hdup Hunion acc' errors Hrest k).
    cbn [find]. destruct (String.eqb_spec (name field) k) as [<-|Hne].
    - destruct (find _ rest) as [f|] eqn:Hfind; [|exact Hat].
      apply find_some in Hfind as [Hin Heq]. apply String.eqb_eq in Heq.
      destruct Hfresh. apply list_elem_of_In, in_map_iff. eauto.
    - destruct (find _ rest); [reflexivity|]. apply Hother. congruence. }
  cbn [validate_fields]. unfold field_errors in Hfield. unfold stored_value in Hstep.
  destruct (d !! name field) as [v|].
  - destruct (field_validate rt field v) as [errs|v'] eqn:Hv.
    + apply field_validate_errors_length in Hv.
      destruct errs; [|discriminate Hfield].
      destruct Hv as [Hv|(ts & Hts & Hlen)]; [discriminate Hv|].
      destruct ts; [by destruct Hu|discriminate Hlen].
    + apply Hstep; [apply lookup_insert_eq|].
      intros k' Hk'. by apply lookup_insert_ne.
  - destruct (required field); [discriminate Hfield|].
    apply Hstep; [apply lookup_insert_eq|].
    intros k' Hk'. by apply lookup_insert_ne.
Qed.

Lemma AdPerformanceRecord_Ok (d values : Dict) :
  AdPerformanceRecord rt d = Ok values ->
  flat_map (field_errors rt d) AdPerformanceRecord_fields = [] /\
  values = (validate_model rt d).1.
Proof.
  intros Hok. pose proof (AdPerformanceRecord_spec rt d) as Hspec.
  destruct (flat_map _ _); [|rewrite Hspec in Hok; discriminate].
  split; [reflexivity|]. congruence.
Qed.

Lemma validated_lookup (d values : Dict) (k : string) :
  AdPerformanceRecord rt d = Ok values ->
  values !! k = stored_value rt d <$> field_named k.
Proof.
  intros Hok. apply AdPerformanceRecord_Ok in Hok as [Hnil ->].
  unfold validate_model.
  rewrite (validate_fields_values _ d ∅ [] fields_NoDup fields_no_empty_union Hnil k).
  fold (field_named k). destruct (field_named k); [reflexivity|apply lookup_empty].
Qed.

Lemma field_named_name (field : ModelField) :
  In field AdPerformanceRecord_fields -> field_named (name field) = Some field.
Proof.
  simpl. intros H.
  repeat (destruct H as [<-|H]; [reflexivity|]). destruct H.
Qed.

End Schema.

(** X1. A column the schema does not declare is ignored by validation: the
    constructor returns the same record or raises the same errors with and
    without it, and when the row fails the runner reports the same entry, or
    raises the same exception. *)
Theorem X1_undeclared_column_ignored (rt : Runtime)
  (unexpected : Series -> option string) (row : Series) (k : string) (v : value)
  (st : list Dict * list ErrorEntry) (index : value) :
  field_named k = None ->
  unexpected row = None ->
  unexpected (<[k := v]> row) = None ->
  AdPerformanceRecord rt (to_dict (<[k := v]> row)) = AdPerformanceRecord rt (to_dict row) /\
  (forall entry,
      loop_body rt unexpected st (index, row) = Ok (st.1, st.2 ++ [entry]) ->
      loop_body rt unexpected st (index, <[k := v]> row) = Ok (st.1, st.2 ++ [entry])) /\
  (loop_body rt unexpected st (index, row) = Ok (st.1 ++ [to_dict row], st.2) ->
   loop_body rt unexpected st (index, <[k := v]> row)
   = Ok (st.1 ++ [to_dict (<[k := v]> row)], st.2)) /\
  (forall e,
      loop_body rt unexpected st (index, row) = Raise e ->
      loop_body rt unexpected st (index, <[k := v]> row) = Raise e).
Proof.
  intros Hk Hu Hu'.
  assert (Forall (fun field => name field <> k) AdPerformanceRecord_fields) as Hne.
  { apply List.Forall_forall. intros field Hin. by apply field_named_None. }
  assert (flat_map (field_errors rt (to_dict (<[k := v]> row))) AdPerformanceRecord_fields
          = flat_map (field_errors rt (to_dict row)) AdPerformanceRecord_fields) as Herrs.
  { unfold to_dict. clear -Hne.
    induction Hne as [|field rest Hfield _ IH]; simpl; [reflexivity|].
    by rewrite field_errors_extra, IH. }
  assert ((<[k := v]> row) !! "AdSet_name" = row !! "AdSet_name") as Hlabel.
  { apply lookup_insert_ne. intros ->. vm_compute in Hk. discriminate Hk. }
  assert (row_outcome rt unexpected (index, <[k := v]> row)
          = match row_outcome rt unexpected (index, row) with
            | Ok (inl _) => Ok (inl (to_dict (<[k := v]> row)))
            | other => other
            end) as Hrel.
  { unfold row_outcome; cbn [fst snd]. rewrite Hu, Hu', Herrs, Hlabel. clear Herrs.
    destruct (flat_map _ _); [reflexivity|].
    destruct (add_two rt index); reflexivity. }
  split; [|split; [|split]].
  - unfold AdPerformanceRecord, validate_model, to_dict.
    by rewrite validate_fields_extra.
  - intros entry. rewrite !loop_body_outcome, Hrel.
    destruct (row_outcome rt unexpected (index, row)) as [[d|en]|e]; simpl; [|done|done].
    intros H. injection H as H _. apply (f_equal length) in H.
    rewrite length_app in H. simpl in H. lia.
  - rewrite !loop_body_outcome, Hrel.
    destruct (row_outcome rt unexpected (index, row)) as [[d|en]|e]; simpl;
      [reflexivity| |done].
    intros H. injection H as H _. apply (f_equal length) in H.
    rewrite length_app in H. simpl in H. lia.
  - intros e. rewrite !loop_body_outcome, Hrel.
    destruct (row_outcome rt unexpected (index, row)) as [[d|en]|e']; simpl; done.
Qed.

(** X2. A row that lacks a required field is rejected, and the errors of the
    row hold the "field required" error at that field. *)
Theorem X2_missing_required_field_reported (rt : Runtime)
  (unexpected : Series -> option string) (row : Series) (field : ModelField) :
  In field AdPerformanceRecord_fields ->
  required field = true ->
  row !! name field = None ->
  (exists errors,
      AdPerformanceRecord rt (to_dict row) = Raise (ValidationError errors) /\
      In (error_dict (name field) MissingError) errors) /\
  format_pydantic_error (error_dict (name field) MissingError)
  = Ok ("O campo '" +:+ name field +:+ "' está faltando ou vazio.") /\
  forall st index,
    (is_number index = true ->
     exists entry, loop_body rt unexpected st (index, row) = Ok (st.1, st.2 ++ [entry])) /\
    (forall st', loop_body rt unexpected st (index, row) = Ok st' -> st'.1 = st.1).
Proof.
  intros Hfield Hreq Hrow.
  assert (In (error_dict (name field) MissingError) (field_errors rt (to_dict row) field))
    as He.
  { unfold field_errors, to_dict. rewrite Hrow, Hreq. by left. }
  split; [|split].
  - destruct (constructor_raises rt (to_dict row) field _ Hfield He)
      as (errors & Hraise & _ & Hin). eauto.
  - by rewrite format_error_dict.
  - intros st index. by eapply loop_body_rejected.
Qed.

(** X3. When the constructor succeeds, the validated record has exactly the
    declared fields as keys: a field present in the input holds its validated
    value, an absent field is an optional one and holds [None], and no other
    key of the input is kept. *)
Theorem X3_validated_record_shape (rt : Runtime) (d values : Dict) :
  AdPerformanceRecord rt d = Ok values ->
  (forall k, is_Some (values !! k) <->
             exists field, In field AdPerformanceRecord_fields /\ name field = k) /\
  (forall field v,
      In field AdPerformanceRecord_fields -> d !! name field = Some v ->
      exists v', field_validate rt field v = inr v' /\ values !! name field = Some v') /\
  (forall field,
      In field AdPerformanceRecord_fields -> d !! name field = None ->
      required field = false /\ values !! name field = Some VNone).
Proof.
  intros Hok. pose proof (AdPerformanceRecord_Ok rt d values Hok) as [Hnil _].
  split; [|split].
  - intros k. rewrite (validated_lookup rt d values k Hok), <- field_named_Some.
    destruct (field_named k); simpl; split; intros [x Hx]; by eauto.
  - intros field v Hin Hv.
    pose proof (flat_map_nil _ _ field Hnil Hin) as Hfield.
    rewrite (validated_lookup rt d values _ Hok), (field_named_name field Hin).
    unfold field_errors in Hfield. unfold stored_value. simpl. rewrite Hv in *.
    destruct (field_validate rt field v) as [errs|v'] eqn:Hval; [|eauto].
    apply field_validate_errors_length in Hval.
    destruct errs; [|discriminate Hfield].
    destruct Hval as [Hval|(ts & Hts & Hlen)]; [discriminate Hval|].
    pose proof fields_no_empty_union as Hu.
    rewrite List.Forall_forall in Hu. specialize (Hu field Hin).
    destruct ts; [by destruct Hu|discriminate Hlen].
  - intros field Hin Hv.
    pose proof (flat_map_nil _ _ field Hnil Hin) as Hfield.
    rewrite (validated_lookup rt d values _ Hok), (field_named_name field Hin).
    unfold field_errors in Hfield. unfold stored_value. simpl. rewrite Hv in *.
    destruct (required field); [discriminate Hfield|]. split; reflexivity.
Qed.

(** X4. An optional field that is absent, or present with the value [None],
    causes no error; when the constructor succeeds the validated record holds
    [None] for it. *)
Theorem X4_optional_field_absent_or_none (rt : Runtime) (d : Dict)
  (field : ModelField) :
  In field AdPerformanceRecord_fields ->
  required field = false ->
  d !! name field = None \/ d !! name field = Some VNone ->
  field_errors rt d field = [] /\
  forall values, AdPerformanceRecord rt d = Ok values -> values !! name field = Some VNone.
Proof.
  intros Hin Hreq Hd.
  pose proof (fields_optional_allow_none field Hin Hreq) as Hallow.
  split.
  - unfold field_errors, field_validate.
    destruct Hd as [-> | ->]; rewrite ?Hreq, ?Hallow; reflexivity.
  - intros values Hok.
    rewrite (validated_lookup rt d values _ Hok), (field_named_name field Hin).
    unfold stored_value, field_validate. simpl.
    destruct Hd as [-> | ->]; rewrite ?Hallow; reflexivity.
Qed.

(** X5. A required field that is present with the value [None] is not
    reported as missing: the row is rejected with the error "none is not an
    allowed value" at that field, which the formatter words with the generic
    sentence. *)
Theorem X5_none_in_required_field (rt : Runtime)
  (unexpected : Series -> option string) (row : Series) (field : ModelField) :
  In field AdPerformanceRecord_fields ->
  required field = true ->
  row !! name field = Some VNone ->
  field_errors rt (to_dict row) field = [error_dict (name field) NoneIsNotAllowedError] /\
  format_pydantic_error (error_dict (name field) NoneIsNotAllowedError)
  = Ok ("Campo '" +:+ name field +:+ "': None is not an allowed value.") /\
  forall st index,
    (is_number index = true ->
     exists entry, loop_body rt unexpected st (index, row) = Ok (st.1, st.2 ++ [entry])) /\
    (forall st', loop_body rt unexpected st (index, row) = Ok st' -> st'.1 = st.1).
Proof.
  intros Hfield Hreq Hrow.
  assert (allow_none field = false) as Hallow.
  { revert Hreq. simpl in Hfield.
    repeat (destruct Hfield as [<-|Hfield]; [first [discriminate|reflexivity]|]).
    destruct Hfield. }
  assert (field_errors rt (to_dict row) field
          = [error_dict (name field) NoneIsNotAllowedError]) as He.
  { unfold field_errors, to_dict, field_validate. by rewrite Hrow, Hallow. }
  split; [exact He|]. split; [by rewrite format_error_dict|].
  intros st index.
  eapply (loop_body_rejected rt unexpected st index row field
            (error_dict (name field) NoneIsNotAllowedError) Hfield).
  rewrite He. by left.
Qed.

(** X6. A text field accepts every present string, number and boolean: a
    string is kept and a number or a boolean becomes its [str()], so an empty
    cell, which pandas reads as the float NaN, passes in a text column.  An
    object of another type, such as a list, is refused with the error "str
    type expected", which the formatter words with the generic sentence. *)
Theorem X6_text_field_values (rt : Runtime) (d : Dict)
  (field : ModelField) (v : value) :
  In field AdPerformanceRecord_fields ->
  annotation field = Single TStr ->
  d !! name field = Some v ->
  v <> VNone ->
  (is_csv_value v = true ->
   field_errors rt d field = [] /\
   exists s, str_validator rt v = inr s /\
     forall values, AdPerformanceRecord rt d = Ok values ->
                    values !! name field = Some (VStr s)) /\
  (is_csv_value v = false ->
   field_errors rt d field = [error_dict (name field) StrError] /\
   format_pydantic_error (error_dict (name field) StrError)
   = Ok ("Campo '" +:+ name field +:+ "': Str type expected.") /\
   exists errors,
     AdPerformanceRecord rt d = Raise (ValidationError errors) /\
     In (error_dict (name field) StrError) errors).
Proof.
  intros Hin Hann Hd Hv. split.
  - intros Hcsv.
    assert (exists s, str_validator rt v = inr s /\ field_validate rt field v = inr (VStr s))
      as (s & Hs & Hval).
    { unfold field_validate. rewrite Hann. cbn [apply_validators].
      destruct v; try (eexists; split; reflexivity);
        [by destruct Hv|discriminate Hcsv]. }
    split.
    + unfold field_errors. by rewrite Hd, Hval.
    + exists s. split; [exact Hs|]. intros values Hok.
      rewrite (validated_lookup rt d values _ Hok), (field_named_name field Hin).
      unfold stored_value. simpl. by rewrite Hd, Hval.
  - intros Hcsv.
    assert (field_errors rt d field = [error_dict (name field) StrError]) as He.
    { unfold field_errors, field_validate. rewrite Hd, Hann.
      destruct v; try discriminate Hcsv. reflexivity. }
    split; [exact He|]. split; [by rewrite format_error_dict|].
    destruct (constructor_raises rt d field (error_dict (name field) StrError) Hin)
      as (errors & Hraise & _ & Hine); [rewrite He; by left|].
    eauto.
Qed.

(** X7. An empty [Amount_spent] cell (the float NaN) is not reported as a
    missing field: NaN is not [>= 0.0], so the row is rejected with the error
    of the [ge] bound at [Amount_spent]. *)
Theorem X7_empty_amount_rejected (rt : Runtime)
  (unexpected : Series -> option string) (row : Series) :
  row !! "Amount_spent" = Some (VFloat FNaN) ->
  (exists errors,
      AdPerformanceRecord rt (to_dict row) = Raise (ValidationError errors) /\
      In (error_dict "Amount_spent" (NumberNotGeError rt (FFinite 0 0))) errors /\
      ~ In (error_dict "Amount_spent" MissingError) errors) /\
  forall st index,
    (is_number index = true ->
     exists entry, loop_body rt unexpected st (index, row) = Ok (st.1, st.2 ++ [entry])) /\
    (forall st', loop_body rt unexpected st (index, row) = Ok st' -> st'.1 = st.1).
Proof.
  intros Hv.
  set (field := Required "Amount_spent" (Single (TFloat (Some (FFinite 0 0))))).
  assert (In field AdPerformanceRecord_fields) as Hfield by (simpl; tauto).
  assert (field_errors rt (to_dict row) field
          = [error_dict "Amount_spent" (NumberNotGeError rt (FFinite 0 0))]) as He.
  { unfold field_errors, to_dict; cbn [name field Required]. by rewrite Hv. }
  split.
  - destruct (constructor_raises rt (to_dict row) field
                (error_dict "Amount_spent" (NumberNotGeError rt (FFinite 0 0))) Hfield)
      as (errors & Hraise & Herrors & Hin); [rewrite He; by left|].
    exists errors. split; [exact Hraise|]. split; [exact Hin|].
    rewrite Herrors. intros Hmiss. apply in_flat_map in Hmiss as (f & Hf & Hmiss).
    pose proof (field_errors_shape rt (to_dict row) f) as Hshape.
    rewrite List.Forall_forall in Hshape. destruct (Hshape _ Hmiss) as [pe Hpe].
    injection Hpe as Hname _ _.
    assert (f = field) as ->.
    { pose proof (field_named_name f Hf) as H1. rewrite <- Hname in H1.
      vm_compute in H1. injection H1 as <-. reflexivity. }
    rewrite He in Hmiss. destruct Hmiss as [Hmiss|[]]. discriminate Hmiss.
  - intros st index.
    eapply (loop_body_rejected rt unexpected st index row field
              (error_dict "Amount_spent" (NumberNotGeError rt (FFinite 0 0))) Hfield).
    rewrite He. by left.
Qed.

(** X8. A validated record passes validation again: the constructor accepts
    the record it returned, with the same keys.  (The values may change once
    more: a float accepted by the [float] member of a union is handed to its
    [int] member on the second pass.) *)
Theorem X8_validated_record_revalidates (rt : Runtime) (d values : Dict) :
  AdPerformanceRecord rt d = Ok values ->
  exists values',
    AdPerformanceRecord rt values = Ok values' /\
    forall k, is_Some (values' !! k) <-> is_Some (values !! k).
Proof.
  intros Hok.
  assert (forall t v v', apply_validators rt t v = inr v' ->
                         apply_validators rt t v' = inr v' /\ v' <> VNone) as Hscalar.
  { intros t v v'. destruct t as [| |ge]; cbn [apply_validators].
    - destruct (int_validator rt v); [discriminate|]. intros [= <-]. by split.
    - destruct (str_validator rt v); [discriminate|]. intros [= <-]. by split.
    - destruct (float_validator rt v) as [|f]; [discriminate|].
      destruct (number_size_validator rt ge f) as [|f'] eqn:Hsize; [discriminate|].
      intros [= <-]. cbn [float_validator].
      assert (f' = f) as ->.
      { unfold number_size_validator in Hsize. destruct ge as [bound|]; [|congruence].
        destruct (negb (float_ge f bound)); congruence. }
      rewrite Hsize. by split. }
  assert (forall ts v v' errs, validate_union rt ts v errs = inr v' ->
                               exists t, In t ts /\ apply_validators rt t v = inr v') as Hmember.
  { induction ts as [|t ts IH]; intros v v' errs; simpl; [discriminate|].
    destruct (apply_validators rt t v) as [e|w] eqn:Ht.
    - intros H. destruct (IH _ _ _ H) as (t' & Hin & Ht'). eauto.
    - intros [= <-]. eauto. }
  assert (forall ts v t w errs, In t ts -> apply_validators rt t v = inr w ->
                                exists w', validate_union rt ts v errs = inr w') as Haccept.
  { induction ts as [|t' ts IH]; intros v t w errs; simpl; [tauto|].
    intros [->|Hin] Ht.
    - rewrite Ht. eauto.
    - destruct (apply_validators rt t' v); [|eauto]. by eapply IH. }
  assert (forall field v v', field_validate rt field v = inr v' ->
                             exists v'', field_validate rt field v' = inr v'') as Hclosed.
  { intros field v v' Hv. unfold field_validate in Hv.
    assert (v' = VNone /\ allow_none field = true \/
            (v' <> VNone /\
             match annotation field with
             | Single t => apply_validators rt t v' = inr v'
             | Union ts => exists t, In t ts /\ apply_validators rt t v' = inr v'
             end)) as [[-> Hallow]|[Hne Hann]].
    { assert (match annotation field with
              | Single t => match apply_validators rt t v with
                            | inl e => inl [e]
                            | inr v' => inr v'
                            end
              | Union ts => validate_union rt ts v []
              end = inr v' ->
              v' <> VNone /\
              match annotation field with
              | Single t => apply_validators rt t v' = inr v'
              | Union ts => exists t, In t ts /\ apply_validators rt t v' = inr v'
              end) as Hann.
      { destruct (annotation field) as [t|ts].
        - destruct (apply_validators rt t v) as [|w] eqn:Ht; [discriminate|].
          intros [= <-]. destruct (Hscalar _ _ _ Ht). by split.
        - intros H. destruct (Hmember _ _ _ _ H) as (t & Hin & Ht).
          destruct (Hscalar _ _ _ Ht). split; [assumption|]. eauto. }
      destruct v; auto.
      destruct (allow_none field); [|discriminate]. left. split; congruence. }
    - unfold field_validate. rewrite Hallow. eauto.
    - unfold field_validate. destruct (annotation field) as [t|ts].
      + rewrite Hann. destruct v'; eauto. by destruct Hne.
      + destruct Hann as (t & Hin & Ht).
        destruct (Haccept ts v' t v' [] Hin Ht) as [w' Hw'].
        rewrite Hw'. destruct v'; eauto. by destruct Hne. }
  pose proof (AdPerformanceRecord_Ok rt d values Hok) as [Hnil _].
  assert (flat_map (field_errors rt values) AdPerformanceRecord_fields = []) as Hnil'.
  { assert (forall field, In field AdPerformanceRecord_fields ->
                          field_errors rt values field = []) as Hall.
    { intros field Hin. unfold field_errors.
      rewrite (validated_lookup rt d values _ Hok), (field_named_name field Hin).
      simpl. unfold stored_value.
      pose proof (flat_map_nil _ _ field Hnil Hin) as Hfield.
      unfold field_errors in Hfield.
      destruct (d !! name field) as [v|].
      - destruct (field_validate rt field v) as [errs|v'] eqn:Hv.
        + apply field_validate_errors_length in Hv.
          destruct errs; [|discriminate Hfield].
          destruct Hv as [Hv|(ts & Hts & Hlen)]; [discriminate Hv|].
          pose proof fields_no_empty_union as Hu.
          rewrite List.Forall_forall in Hu. specialize (Hu field Hin).
          destruct ts; [by destruct Hu|discriminate Hlen].
        + destruct (Hclosed _ _ _ Hv) as [v'' ->]. reflexivity.
      - destruct (required field) eqn:Hreq; [discriminate Hfield|].
        unfold field_validate.
        by rewrite (fields_optional_allow_none field Hin Hreq). }
    clear -Hall. induction AdPerformanceRecord_fields as [|f l IH]; simpl; [reflexivity|].
    rewrite Hall by (by left). apply IH. intros field Hin. apply Hall. by right. }
  pose proof (AdPerformanceRecord_spec rt values) as Hspec. rewrite Hnil' in Hspec.
  eexists. split; [exact Hspec|].
  intros k. rewrite (validated_lookup rt values _ k Hspec), (validated_lookup rt d values k Hok).
  destruct (field_named k); simpl; split; intros [x Hx]; by eauto.
Qed.

(** The number of errors of a field is bounded. *)
Lemma field_errors_bound (rt : Runtime) (d : Dict) (field : ModelField) :
  (length (field_errors rt d field) <= field_bound field)%nat.
Proof.
  unfold field_errors, field_bound.
  destruct (d !! name field) as [v|].
  - destruct (field_validate rt field v) as [errs|v'] eqn:Hv; [|simpl; lia].
    rewrite length_map.
    pose proof (field_validate_errors_length rt field v errs Hv) as Hlen.
    destruct (annotation field) as [t|ts] eqn:Hann.
    + destruct Hlen as [Hlen|(ts & Hts & _)]; [lia|discriminate Hts].
    + destruct Hlen as [Hlen|(ts' & [= <-] & Hlen)]; lia.
  - destruct (required field) eqn:Hreq; simpl; [|lia].
    destruct (annotation field) as [[| |]|]; try lia.
Qed.

Lemma field_errors_csv_bound (rt : Runtime) (d : Dict) (field : ModelField) :
  (required field = false -> annotation field = Single TStr ->
   from_option is_csv_value true (d !! name field) = true) ->
  (length (field_errors rt d field) <= csv_field_bound field)%nat.
Proof.
  intros Hcsv. pose proof (field_errors_bound rt d field) as Hbound.
  unfold field_bound in Hbound. unfold csv_field_bound.
  destruct (annotation field) as [[| |]|] eqn:Hann; try exact Hbound.
  destruct (required field) eqn:Hreq; [exact Hbound|].
  destruct (allow_none field) eqn:Hallow; [|exact Hbound].
  specialize (Hcsv eq_refl eq_refl). cbn [orb negb].
  unfold field_errors, field_validate. rewrite Hann, Hallow.
  destruct (d !! name field) as [v|]; [|by rewrite Hreq].
  destruct v; try (simpl; lia). discriminate Hcsv.
Qed.

Lemma model_errors_bound (rt : Runtime) (d : Dict) :
  (length (flat_map (field_errors rt d) AdPerformanceRecord_fields) <= 17)%nat.
Proof.
  assert (forall fields,
             (length (flat_map (field_errors rt d) fields)
              <= list_sum (map field_bound fields))%nat) as H.
  { induction fields as [|f l IH]; simpl; [lia|].
    rewrite length_app. pose proof (field_errors_bound rt d f). lia. }
  apply (H AdPerformanceRecord_fields).
Qed.

Lemma model_errors_csv_bound (rt : Runtime) (d : Dict) :
  from_option is_csv_value true (d !! "Segmentação") = true ->
  (length (flat_map (field_errors rt d) AdPerformanceRecord_fields) <= 16)%nat.
Proof.
  intros Hseg.
  assert (forall fields,
             (forall field, In field fields -> required field = false ->
                            annotation field = Single TStr ->
                            from_option is_csv_value true (d !! name field) = true) ->
             (length (flat_map (field_errors rt d) fields)
              <= list_sum (map csv_field_bound fields))%nat) as H.
  { induction fields as [|f l IH]; intros Hall; simpl; [lia|].
    rewrite length_app.
    pose proof (field_errors_csv_bound rt d f (Hall f (or_introl eq_refl))).
    assert (length (flat_map (field_errors rt d) l) <= list_sum (map csv_field_bound l))%nat
      by (apply IH; intros field Hin; apply Hall; by right).
    lia. }
  apply (H AdPerformanceRecord_fields).
  simpl. intros field Hin Hreq Hann.
  repeat (destruct Hin as [<-|Hin];
          [first [discriminate Hreq|discriminate Hann|exact Hseg]|]).
  destruct Hin.
Qed.

(** X9. Every entry of the error report counts at least one error and at
    most seventeen: one for each of the eleven fields of one type and two
    (integer and float) for each of the three numeric optional fields.  When
    no [Segmentação] cell holds an object of another type, as in a table read
    from a CSV file, the count is at most sixteen: the optional text field
    then never fails. *)
Theorem X9_error_count_bounds (rt : Runtime) (unexpected : Series -> option string)
  (df : DataFrame) (valid_records : list Dict) (error_report : list ErrorEntry)
  (entry : ErrorEntry) :
  validate_data rt unexpected df = Ok (valid_records, error_report) ->
  In entry error_report ->
  1 <= Total_Erros_Nesta_Linha entry <= 17 /\
  (Forall (fun it => from_option is_csv_value true (it.2 !! "Segmentação") = true) df ->
   Total_Erros_Nesta_Linha entry <= 16).
Proof.
  intros Hrun Hin. apply validate_data_Ok in Hrun as (outs & Houts & _ & ->).
  apply list_elem_of_In, list_elem_of_omap in Hin as (o & Ho & Hentry).
  apply list_elem_of_lookup in Ho as [i Ho].
  apply comprehension_Forall2 in Houts.
  destruct (Forall2_lookup_r _ _ _ _ _ Houts Ho) as (it & Hit & Hout).
  destruct o as [d|en]; [discriminate Hentry|]. injection Hentry as ->.
  unfold row_outcome in Hout.
  destruct (unexpected it.2).
  { destruct (add_two rt it.1); [|discriminate Hout].
    injection Hout as <-. simpl. lia. }
  pose proof (model_errors_bound rt (to_dict it.2)) as Hbound.
  pose proof (model_errors_csv_bound rt (to_dict it.2)) as Hcsv.
  destruct (flat_map _ _) as [|first rest]; [discriminate|].
  destruct (add_two rt it.1); [|discriminate Hout].
  injection Hout as <-. cbn [Total_Erros_Nesta_Linha mbind result_bind].
  split; [cbn [length] in *; lia|].
  intros Hall. pose proof (Forall_lookup_1 _ _ _ _ Hall Hit) as Hseg.
  specialize (Hcsv Hseg). cbn [length] in *. lia.
Qed.

(** ** Substrings *)

Lemma prefix_append (a s : string) :
  String.prefix a s = true <-> exists post, s = a +:+ post.
Proof.
  revert s. induction a as [|c a IH]; intros s.
  - destruct s; simpl; split; eauto.
  - destruct s as [|c' s].
    + simpl. split; [discriminate|intros [post H]; discriminate H].
    + change (String.prefix (String c a) (String c' s))
        with (match ascii_dec c c' with
              | left _ => String.prefix a s
              | right _ => false
              end).
      destruct (ascii_dec c c') as [<-|Hne].
      * split.
        -- intros H. apply IH in H as [post ->]. by exists post.
        -- intros [post H]. apply IH. exists post.
           cbn [String.append] in H. by injection H.
      * split; [discriminate|]. intros [post H].
        cbn [String.append] in H. injection H as H _. by destruct Hne.
Qed.

Lemma append_cons (x : ascii) (a b : string) :
  String x a +:+ b = String x (a +:+ b).
Proof. reflexivity. Qed.

Lemma append_assoc (a b c : string) : (a +:+ b) +:+ c = a +:+ (b +:+ c).
Proof.
  induction a as [|x a IH]; [reflexivity|].
  by rewrite !append_cons, IH.
Qed.

Lemma str_in_append (sub s : string) :
  str_in sub s = true <-> exists pre post, s = pre +:+ sub +:+ post.
Proof.
  split.
  - induction s as [|c s IH]; cbn [str_in].
    + destruct (String.prefix sub EmptyString) eqn:Hp; [|discriminate].
      intros _. apply prefix_append in Hp as [post Hpost].
      exists EmptyString, post. exact Hpost.
    + destruct (String.prefix sub (String c s)) eqn:Hp.
      * intros _. apply prefix_append in Hp as [post Hpost].
        exists EmptyString, post. exact Hpost.
      * intros H. destruct (IH H) as (pre & post & ->).
        exists (String c pre), post. reflexivity.
  - intros (pre & post & ->). induction pre as [|c pre IH].
    + assert (String.prefix sub (sub +:+ post) = true) as Hp
        by (apply prefix_append; eauto).
      change (EmptyString +:+ sub +:+ post) with (sub +:+ post).
      destruct (sub +:+ post); cbn [str_in]; by rewrite Hp.
    + rewrite append_cons. cbn [str_in].
      destruct (String.prefix sub _); [reflexivity|exact IH].
Qed.

(** A phrase that occurs in a part of a text occurs in the text. *)
Lemma str_in_trans (a b c : string) :
  str_in a b = true -> str_in b c = true -> str_in a c = true.
Proof.
  rewrite !str_in_append. intros (p & q & ->) (p' & q' & ->).
  exists (p' +:+ p), (q +:+ q'). by rewrite !append_assoc.
Qed.

(** X10. The choice of the formatter rests on three phrases only, tried in
    this order: "field required", "not a valid float", "not a valid integer".
    The tests for "float" and "int" and for "value is not a valid float" never
    change the outcome, since those phrases contain or are contained in the
    three. *)
Theorem X10_formatter_three_phrases (e : ErrorDetail) :
  loc e <> Some [] ->
  exists field,
    head (default ["Campo Desconhecido"] (loc e)) = Some field /\
    format_pydantic_error e =
    Ok (let text := default "Erro de validação genérico." (msg e) in
        if str_in "field required" text then
          "O campo '" +:+ field +:+ "' está faltando ou vazio."
        else if str_in "not a valid float" text then
          "O campo '" +:+ field +:+ "' deve ser um número decimal (ex: 100.50)."
        else if str_in "not a valid integer" text then
          "O campo '" +:+ field +:+ "' deve ser um número inteiro (ex: 100)."
        else
          "Campo '" +:+ field +:+ "': " +:+ capitalize text +:+ ".").
Proof.
  intros Hloc.
  assert (exists field rest, default ["Campo Desconhecido"] (loc e) = field :: rest)
    as (field & rest & Hfield).
  { destruct (loc e) as [[|field rest]|]; simpl; [by destruct Hloc|eauto|eauto]. }
  exists field. split; [by rewrite Hfield|].
  unfold format_pydantic_error. rewrite Hfield. cbn [first_item mbind result_bind].
  cbv zeta. set (text := default "Erro de validação genérico." (msg e)).
  destruct (str_in "field required" text); [reflexivity|].
  destruct (str_in "not a valid float" text) eqn:Hfloat.
  - rewrite (str_in_trans "float" "not a valid float" text eq_refl Hfloat). reflexivity.
  - assert (str_in "value is not a valid float" text = false) as ->.
    { destruct (str_in "value is not a valid float" text) eqn:H; [|reflexivity].
      rewrite (str_in_trans "not a valid float" "value is not a valid float" text eq_refl H)
        in Hfloat. discriminate. }
    rewrite orb_false_r, andb_false_r.
    destruct (str_in "not a valid integer" text) eqn:Hint.
    + rewrite (str_in_trans "int" "not a valid integer" text eq_refl Hint). reflexivity.
    + rewrite andb_false_r. reflexivity.
Qed.

(** ** More on the batch runner *)

Lemma comprehension_app {A B} (f : A -> Result B) (l1 l2 : list A) :
  comprehension f (l1 ++ l2) =
  ys1 ← comprehension f l1; ys2 ← comprehension f l2; Ok (ys1 ++ ys2).
Proof.
  induction l1 as [|x l1 IH]; simpl.
  - by destruct (comprehension f l2).
  - destruct (f x) as [y|e]; [|reflexivity]. simpl. rewrite IH.
    destruct (comprehension f l1) as [ys1|e]; [|reflexivity]. simpl.
    by destruct (comprehension f l2).
Qed.

(** X11. The runner treats the rows one by one: on two frames put one after
    the other it does what it does on the first and then what it does on the
    second, so it returns the valid records of the first followed by those of
    the second, and likewise for the error report, or raises the first
    exception of the two runs.  On frames whose index labels are numbers all
    three runs return. *)
Theorem X11_batch_composition (rt : Runtime) (unexpected : Series -> option string)
  (df1 df2 : DataFrame) :
  validate_data rt unexpected (df1 ++ df2) =
  (r1 ← validate_data rt unexpected df1;
   r2 ← validate_data rt unexpected df2;
   Ok (r1.1 ++ r2.1, r1.2 ++ r2.2)) /\
  (Forall (fun it => is_number it.1 = true) df1 ->
   Forall (fun it => is_number it.1 = true) df2 ->
   exists valid1 errors1 valid2 errors2,
     validate_data rt unexpected df1 = Ok (valid1, errors1) /\
     validate_data rt unexpected df2 = Ok (valid2, errors2) /\
     validate_data rt unexpected (df1 ++ df2) = Ok (valid1 ++ valid2, errors1 ++ errors2)).
Proof.
  assert (validate_data rt unexpected (df1 ++ df2) =
          (r1 ← validate_data rt unexpected df1;
           r2 ← validate_data rt unexpected df2;
           Ok (r1.1 ++ r2.1, r1.2 ++ r2.2))) as Hlaw.
  { rewrite !validate_data_outcomes, comprehension_app.
    destruct (comprehension _ df1) as [outs1|e]; [|reflexivity]. simpl.
    destruct (comprehension _ df2) as [outs2|e]; [|reflexivity]. simpl.
    by rewrite !omap_app. }
  split; [exact Hlaw|].
  intros H1 H2.
  destruct (validate_data_returns rt unexpected df1 H1) as (v1 & e1 & Hrun1 & _).
  destruct (validate_data_returns rt unexpected df2 H2) as (v2 & e2 & Hrun2 & _).
  exists v1, e1, v2, e2. split; [exact Hrun1|]. split; [exact Hrun2|].
  by rewrite Hlaw, Hrun1, Hrun2.
Qed.

Lemma omap_lookup_inv {A B} (f : A -> option B) (l : list A) (k : nat) (y : B) :
  omap f l !! k = Some y ->
  exists i x, l !! i = Some x /\ f x = Some y /\ k = length (omap f (take i l)).
Proof.
  revert k. induction l as [|x l IH]; intros k; [discriminate|].
  cbn. destruct (f x) as [z|] eqn:Hx.
  - destruct k as [|k]; simpl.
    + intros [= ->]. exists 0%nat, x. repeat split; assumption.
    + intros H. destruct (IH k H) as (i & x' & Hi & Hx' & ->).
      exists (S i), x'. cbn. rewrite Hx. repeat split; assumption.
  - intros H. destruct (IH k H) as (i & x' & Hi & Hx' & ->).
    exists (S i), x'. cbn. rewrite Hx. repeat split; assumption.
Qed.

Lemma omap_take_mono {A B} (f : A -> option B) (l : list A) (i j : nat) :
  (i <= j)%nat -> (length (omap f (take i l)) <= length (omap f (take j l)))%nat.
Proof.
  intros Hij. replace j with (i + (j - i))%nat by lia.
  rewrite <- take_take_drop, omap_app, length_app. lia.
Qed.

Section Origins.

Variable rt : Runtime.
Variable unexpected : Series -> option string.

Lemma row_outcome_error (index : value) (row : Series) (entry : ErrorEntry) :
  row_outcome rt unexpected (index, row) = Ok (inr entry) ->
  add_two rt index = Ok (Linha_CSV entry) /\
  exists e, try_body rt unexpected row = Raise e.
Proof.
  intros H. split; [by apply (row_outcome_line rt unexpected (index, row))|].
  revert H. rewrite try_body_spec. unfold row_outcome; cbn [fst snd].
  destruct (unexpected row); [eauto|].
  destruct (flat_map _ _); [discriminate|eauto].
Qed.

Lemma row_outcome_valid (index : value) (row : Series) (d : Dict) :
  row_outcome rt unexpected (index, row) = Ok (inl d) ->
  d = to_dict row /\ try_body rt unexpected row = Ok d /\
  forall index', row_outcome rt unexpected (index', row) = Ok (inl d).
Proof.
  intros H. apply row_outcome_record in H as (-> & Hu & Hnil & Hany).
  split; [reflexivity|]. split; [|exact Hany].
  by rewrite try_body_spec, Hu, Hnil.
Qed.

Lemma error_entry_origin (df : DataFrame) (outs : list (Dict + ErrorEntry))
  (k : nat) (entry : ErrorEntry) :
  comprehension (row_outcome rt unexpected) df = Ok outs ->
  omap error_of outs !! k = Some entry ->
  exists i index row,
    df !! i = Some (index, row) /\
    k = errors_before rt unexpected df i /\
    row_outcome rt unexpected (index, row) = Ok (inr entry).
Proof.
  intros Houts H. apply omap_lookup_inv in H as (i & o & Hi & Ho & ->).
  pose proof Houts as Hall. apply comprehension_Forall2 in Hall.
  destruct (Forall2_lookup_r _ _ _ _ _ Hall Hi) as ([index row] & Hdf & Hout).
  exists i, index, row. split; [exact Hdf|]. split.
  - by rewrite (errors_before_outcomes _ _ _ _ _ Houts).
  - destruct o; [discriminate|]. by injection Ho as ->.
Qed.

Lemma valid_record_origin (df : DataFrame) (outs : list (Dict + ErrorEntry))
  (k : nat) (d : Dict) :
  comprehension (row_outcome rt unexpected) df = Ok outs ->
  omap valid_of outs !! k = Some d ->
  exists i index row,
    df !! i = Some (index, row) /\
    k = valid_before rt unexpected df i /\
    row_outcome rt unexpected (index, row) = Ok (inl d).
Proof.
  intros Houts H. apply omap_lookup_inv in H as (i & o & Hi & Ho & ->).
  pose proof Houts as Hall. apply comprehension_Forall2 in Hall.
  destruct (Forall2_lookup_r _ _ _ _ _ Hall Hi) as ([index row] & Hdf & Hout).
  exists i, index, row. split; [exact Hdf|]. split.
  - by rewrite (valid_before_outcomes _ _ _ _ _ Houts).
  - destruct o; [|discriminate]. by injection Ho as ->.
Qed.

Lemma errors_before_mono (df : DataFrame) (outs : list (Dict + ErrorEntry)) (i j : nat) :
  comprehension (row_outcome rt unexpected) df = Ok outs ->
  (i <= j)%nat -> (errors_before rt unexpected df i <= errors_before rt unexpected df j)%nat.
Proof.
  intros Houts Hij. rewrite !(errors_before_outcomes _ _ _ _ _ Houts).
  by apply omap_take_mono.
Qed.

End Origins.

(** X12. Nothing appears in the outputs that no row produced: every entry of
    the error report is the entry of a row that raised in the [try], with that
    row's index label plus 2 as its line, and every valid record is the
    dictionary of a row that passed; each stands at the position given by the
    number of earlier rows of its kind. *)
Theorem X12_outputs_come_from_rows (rt : Runtime)
  (unexpected : Series -> option string) (df : DataFrame)
  (valid_records : list Dict) (error_report : list ErrorEntry) :
  validate_data rt unexpected df = Ok (valid_records, error_report) ->
  (forall k entry,
      error_report !! k = Some entry ->
      exists i index row,
        df !! i = Some (index, row) /\
        k = errors_before rt unexpected df i /\
        add_two rt index = Ok (Linha_CSV entry) /\
        (exists e, try_body rt unexpected row = Raise e) /\
        loop_body rt unexpected ([], []) (index, row) = Ok ([], [entry])) /\
  (forall k d,
      valid_records !! k = Some d ->
      exists i index row,
        df !! i = Some (index, row) /\
        k = valid_before rt unexpected df i /\
        d = to_dict row /\
        try_body rt unexpected row = Ok d).
Proof.
  intros Hrun. apply validate_data_Ok in Hrun as (outs & Houts & -> & ->).
  split.
  - intros k entry Hk.
    apply (error_entry_origin _ _ _ _ _ _ Houts) in Hk
      as (i & index & row & Hi & Hpos & Hout).
    exists i, index, row. split; [exact Hi|]. split; [exact Hpos|].
    destruct (row_outcome_error rt unexpected index row entry Hout) as [Hline Hraise].
    split; [exact Hline|]. split; [exact Hraise|].
    by rewrite loop_body_outcome, Hout.
  - intros k d Hk.
    apply (valid_record_origin _ _ _ _ _ _ Houts) in Hk
      as (i & index & row & Hi & Hpos & Hout).
    exists i, index, row. split; [exact Hi|]. split; [exact Hpos|].
    destruct (row_outcome_valid rt unexpected index row d Hout) as (Hd & Htry & _).
    by split.
Qed.

(** X13. On a table with the default index the error report lists the failing
    rows by increasing line number: the lines are integers, an earlier entry
    has a smaller line than a later one, so no line appears twice, and no line
    is below 2. *)
Theorem X13_report_lines_increase (rt : Runtime)
  (unexpected : Series -> option string) (rows : list Series)
  (valid_records : list Dict) (error_report : list ErrorEntry)
  (k1 k2 : nat) (a b : ErrorEntry) :
  validate_data rt unexpected (range_indexed rows) = Ok (valid_records, error_report) ->
  (k1 < k2)%nat ->
  error_report !! k1 = Some a ->
  error_report !! k2 = Some b ->
  exists line_a line_b,
    Linha_CSV a = VInt line_a /\ Linha_CSV b = VInt line_b /\
    2 <= line_a < line_b.
Proof.
  intros Hrun Hk Ha Hb. apply validate_data_Ok in Hrun as (outs & Houts & _ & ->).
  apply (error_entry_origin _ _ _ _ _ _ Houts) in Ha
    as (i1 & index1 & row1 & Hi1 & Hpos1 & Hout1).
  apply (error_entry_origin _ _ _ _ _ _ Houts) in Hb
    as (i2 & index2 & row2 & Hi2 & Hpos2 & Hout2).
  apply row_outcome_error in Hout1 as [Hline1 _].
  apply row_outcome_error in Hout2 as [Hline2 _].
  pose proof (errors_before_mono rt unexpected (range_indexed rows) outs i2 i1 Houts)
    as Hmono.
  unfold range_indexed in Hi1, Hi2. rewrite list_lookup_imap in Hi1, Hi2.
  destruct (rows !! i1); [|discriminate]. destruct (rows !! i2); [|discriminate].
  injection Hi1 as <- _. injection Hi2 as <- _.
  simpl in Hline1, Hline2. injection Hline1 as Hline1. injection Hline2 as Hline2.
  exists (Z.of_nat i1 + 2), (Z.of_nat i2 + 2).
  split; [by rewrite Hline1|]. split; [by rewrite Hline2|].
  assert (i1 < i2)%nat; [|lia].
  destruct (decide (i1 < i2)%nat) as [|Hge]; [assumption|].
  unfold range_indexed in *. lia.
Qed.

(** ** app.py *)

Lemma app_format_error_dict (field : string) (e : PydanticError) :
  App.format_pydantic_error (error_dict field e) = Ok (App.sentence field (msg_template e)).
Proof.
  unfold App.format_pydantic_error, App.sentence; simpl.
  destruct (str_in "field required" (msg_template e)); [reflexivity|].
  destruct (str_in "is not a valid float" (msg_template e) || _); [reflexivity|].
  destruct (str_in "int" (msg_template e) && _); reflexivity.
Qed.

(** X15. The formatter of app.py and the formatter of validate_app.py return
    the same sentence for every entry whose text has no "not a valid float"
    and has "is not a valid integer" whenever it has "not a valid integer";
    this covers every error of the schema but a float type error, for which
    app.py says "deve ser um número" where validate_app.py says "deve ser um
    número decimal". *)
Theorem X15_formatters_agree (e : ErrorDetail) :
  str_in "not a valid float" (default "Erro de validação genérico." (msg e)) = false ->
  str_in "is not a valid integer" (default "Erro de validação genérico." (msg e))
  = str_in "not a valid integer" (default "Erro de validação genérico." (msg e)) ->
  App.format_pydantic_error e = format_pydantic_error e /\
  forall name,
    App.format_pydantic_error (error_dict name FloatError)
    = Ok ("O campo '" +:+ name +:+ "' deve ser um número (ex: 100.50).") /\
    format_pydantic_error (error_dict name FloatError)
    = Ok ("O campo '" +:+ name +:+ "' deve ser um número decimal (ex: 100.50).").
Proof.
  intros Hfloat Hint. split; [|intros name; split; reflexivity].
  unfold App.format_pydantic_error, format_pydantic_error.
  destruct (first_item (default ["Campo Desconhecido"] (loc e))) as [field|];
    [|reflexivity].
  cbn [mbind result_bind]. cbv zeta.
  set (text := default "Erro de validação genérico." (msg e)) in *.
  destruct (str_in "field required" text); [reflexivity|].
  assert (str_in "is not a valid float" text = false) as ->.
  { destruct (str_in "is not a valid float" text) eqn:H; [|reflexivity].
    rewrite (str_in_trans "not a valid float" "is not a valid float" text eq_refl H)
      in Hfloat. discriminate. }
  assert (str_in "value is not a valid float" text = false) as ->.
  { destruct (str_in "value is not a valid float" text) eqn:H; [|reflexivity].
    rewrite (str_in_trans "not a valid float" "value is not a valid float" text eq_refl H)
      in Hfloat. discriminate. }
  rewrite Hfloat, Hint. cbn [orb]. rewrite andb_false_r. reflexivity.
Qed.

Section AppBatch.

Variable rt : Runtime.
Variable to_dict_raises : Series -> option string.
Variable constructor_raises : Series -> option string.

Lemma app_format_model_errors (d : Dict) :
  comprehension App.format_pydantic_error
    (flat_map (field_errors rt d) AdPerformanceRecord_fields)
  = Ok (map (fun e => App.sentence (default EmptyString (loc e ≫= head))
                                   (default EmptyString (msg e)))
            (flat_map (field_errors rt d) AdPerformanceRecord_fields)).
Proof.
  apply comprehension_Ok.
  eapply List.Forall_impl; [|apply model_errors_shape].
  intros e (field & pe & ->). apply app_format_error_dict.
Qed.

(** An iteration of app.py on a row whose [to_dict] does not raise: it does
    what the iteration of validate_app.py does, up to the wording of the
    message, and binds [record_dict] to the dictionary of the row. *)
Lemma app_loop_body_outcome (valid_records : list Dict)
  (error_report_list : list ErrorEntry) (record_dict : option Dict)
  (index : value) (row : Series) :
  to_dict_raises row = None ->
  match row_outcome rt constructor_raises (index, row) with
  | Ok (inl d) =>
      App.loop_body rt to_dict_raises constructor_raises
        ((valid_records, error_report_list), record_dict) (index, row)
      = Ok ((valid_records ++ [d], error_report_list), Some (to_dict row))
  | Ok (inr entry) =>
      exists entry',
        App.loop_body rt to_dict_raises constructor_raises
          ((valid_records, error_report_list), record_dict) (index, row)
        = Ok ((valid_records, error_report_list ++ [entry']), Some (to_dict row)) /\
        same_but_message entry' entry
  | Raise e =>
      App.loop_body rt to_dict_raises constructor_raises
        ((valid_records, error_report_list), record_dict) (index, row)
      = Raise e
  end.
Proof.
  intros Hto. unfold App.loop_body, row_outcome; cbn [fst snd]. rewrite Hto.
  destruct (constructor_raises row) as [text|].
  { destruct (add_two rt index); cbn [mbind result_bind]; [|reflexivity].
    eexists. split; [reflexivity|]. repeat split. }
  pose proof (AdPerformanceRecord_spec rt (to_dict row)) as Hspec.
  pose proof (app_format_model_errors (to_dict row)) as Hfmt.
  destruct (flat_map _ _) as [|first rest]; rewrite Hspec; [reflexivity|].
  rewrite Hfmt. cbn [mbind result_bind].
  destruct (add_two rt index); cbn [mbind result_bind map first_item length];
    [|reflexivity].
  eexists. split; [reflexivity|]. unfold same_but_message. cbn.
  rewrite length_map. repeat split.
Qed.

(** The loop of app.py when [row.to_dict()] raises on no row. *)
Lemma app_for_each_outcomes (df : DataFrame) :
  Forall (fun it => to_dict_raises it.2 = None) df ->
  forall v e' rd,
    match comprehension (row_outcome rt constructor_raises) df with
    | Ok outs =>
        exists E' rd',
          for_each (App.loop_body rt to_dict_raises constructor_raises) df ((v, e'), rd)
          = Ok ((v ++ omap valid_of outs, e' ++ E'), rd') /\
          Forall2 same_but_message E' (omap error_of outs)
    | Raise ex =>
        for_each (App.loop_body rt to_dict_raises constructor_raises) df ((v, e'), rd)
        = Raise ex
    end.
Proof.
  induction 1 as [|[index row] rest Hrow _ IH]; intros v e' rd.
  - exists [], rd. simpl. rewrite !app_nil_r. split; [reflexivity|constructor].
  - cbn [for_each comprehension fst snd] in *.
    pose proof (app_loop_body_outcome v e' rd index row Hrow) as Hstep.
    destruct (row_outcome rt constructor_raises (index, row)) as [[d|entry]|ex].
    + rewrite Hstep. cbn [mbind result_bind].
      specialize (IH (v ++ [d]) e' (Some (to_dict row))).
      destruct (comprehension (row_outcome rt constructor_raises) rest) as [outs|ex];
        cbn [mbind result_bind]; [|exact IH].
      destruct IH as (E' & rd' & Hrest & Hrel).
      exists E', rd'. rewrite Hrest. cbn. rewrite <- app_assoc. by split.
    + destruct Hstep as (entry' & Hstep & Hsame).
      rewrite Hstep. cbn [mbind result_bind].
      specialize (IH v (e' ++ [entry']) (Some (to_dict row))).
      destruct (comprehension (row_outcome rt constructor_raises) rest) as [outs|ex];
        cbn [mbind result_bind]; [|exact IH].
      destruct IH as (E' & rd' & Hrest & Hrel).
      exists (entry' :: E'), rd'. rewrite Hrest. cbn. rewrite <- app_assoc.
      split; [reflexivity|]. constructor; [exact Hsame|exact Hrel].
    + rewrite Hstep. reflexivity.
Qed.

End AppBatch.

(** X16. When [row.to_dict()] raises on no row, the runner of app.py does
    what the runner of validate_app.py does: when that one returns, it
    returns the same valid records and an error report with an entry for the
    same rows, with the same line, label and count (the messages are worded
    by the formatter of app.py); when that one raises, it raises the same
    exception.  On a table whose index labels are numbers both return. *)
Theorem X16_app_runner_agrees (rt : Runtime)
  (to_dict_raises constructor_raises : Series -> option string) (df : DataFrame) :
  Forall (fun it => to_dict_raises it.2 = None) df ->
  match validate_data rt constructor_raises df with
  | Ok (valid_records, error_report) =>
      exists error_report',
        App.validate_data rt to_dict_raises constructor_raises df
        = Ok (valid_records, error_report') /\
        Forall2 (fun entry' entry =>
                   Linha_CSV entry' = Linha_CSV entry /\
                   AdSet_Nome_Aprox entry' = AdSet_Nome_Aprox entry /\
                   Total_Erros_Nesta_Linha entry' = Total_Erros_Nesta_Linha entry)
                error_report' error_report
  | Raise e =>
      App.validate_data rt to_dict_raises constructor_raises df = Raise e
  end /\
  (Forall (fun it => is_number it.1 = true) df ->
   exists valid_records error_report error_report',
     validate_data rt constructor_raises df = Ok (valid_records, error_report) /\
     App.validate_data rt to_dict_raises constructor_raises df
     = Ok (valid_records, error_report') /\
     Forall2 (fun entry' entry =>
                Linha_CSV entry' = Linha_CSV entry /\
                AdSet_Nome_Aprox entry' = AdSet_Nome_Aprox entry /\
                Total_Erros_Nesta_Linha entry' = Total_Erros_Nesta_Linha entry)
             error_report' error_report).
Proof.
  intros Hto.
  pose proof (app_for_each_outcomes rt to_dict_raises constructor_raises df Hto [] [] None)
    as Hloop.
  assert (match validate_data rt constructor_raises df with
          | Ok (valid_records, error_report) =>
              exists error_report',
                App.validate_data rt to_dict_raises constructor_raises df
                = Ok (valid_records, error_report') /\
                Forall2 same_but_message error_report' error_report
          | Raise e =>
              App.validate_data rt to_dict_raises constructor_raises df = Raise e
          end) as Hagree.
  { rewrite validate_data_outcomes. unfold App.validate_data, iterrows.
    destruct (comprehension (row_outcome rt constructor_raises) df) as [outs|ex];
      cbn [mbind result_bind].
    - destruct Hloop as (E' & rd' & Hrun & Hrel). rewrite Hrun.
      exists E'. split; [reflexivity|exact Hrel].
    - by rewrite Hloop. }
  split; [exact Hagree|].
  intros Hnum.
  destruct (validate_data_returns rt constructor_raises df Hnum) as (v & e & Hrun & _).
  rewrite Hrun in Hagree. destruct Hagree as (e' & Happ & Hrel).
  exists v, e, e'. by repeat split.
Qed.

(** X17. In app.py the handler of unexpected exceptions reads the label from
    [record_dict], which is assigned inside the [try].  When [row.to_dict()]
    raises on the first row the variable is unbound and the runner itself
    raises; when it raises on a later row the entry carries the label of the
    row before it.  (The index labels are numbers, so that [index + 2], which
    the handler evaluates first, returns.) *)
Theorem X17_app_label_of_earlier_row (rt : Runtime)
  (to_dict_raises constructor_raises : Series -> option string)
  (index line : value) (row : Series) (text : string) :
  to_dict_raises row = Some text ->
  add_two rt index = Ok line ->
  (forall rest,
      App.validate_data rt to_dict_raises constructor_raises ((index, row) :: rest)
      = Raise App.UnboundLocalError) /\
  (forall index0 row0,
      to_dict_raises row0 = None ->
      is_number index0 = true ->
      exists valid_records error_report,
        App.validate_data rt to_dict_raises constructor_raises
          [(index0, row0); (index, row)]
        = Ok (valid_records, error_report) /\
        last error_report
        = Some {| Linha_CSV := line;
                  AdSet_Nome_Aprox :=
                    match row0 !! "AdSet_name" with Some v => v | None => VStr "N/A" end;
                  Primeiro_Erro_Detectado := "Erro Geral: " +:+ text;
                  Total_Erros_Nesta_Linha := 1 |}).
Proof.
  intros Hto Hline. split.
  - intros rest. unfold App.validate_data, iterrows. cbn [for_each App.loop_body].
    rewrite Hto, Hline. reflexivity.
  - intros index0 row0 Hto0 Hnum0. unfold App.validate_data, iterrows. cbn [for_each].
    pose proof (app_loop_body_outcome rt to_dict_raises constructor_raises
                  [] [] None index0 row0 Hto0) as Hstep.
    destruct (row_outcome_number rt constructor_raises (index0, row0) Hnum0) as [o Ho].
    rewrite Ho in Hstep. destruct o as [d|entry].
    + rewrite Hstep. cbn [mbind result_bind App.loop_body]. rewrite Hto, Hline.
      cbn. do 2 eexists. split; reflexivity.
    + destruct Hstep as (entry' & Hstep & _). rewrite Hstep.
      cbn [mbind result_bind App.loop_body]. rewrite Hto, Hline.
      cbn. do 2 eexists. split; reflexivity.
Qed.

(** ** The page *)

Section PageFacts.

Variable rt : Runtime.
Variable unexpected : Series -> option string.

Lemma row_outcome_kind (it : value * Series) (o : Dict + ErrorEntry) :
  row_outcome rt unexpected it = Ok o ->
  match o with
  | inl d => try_body rt unexpected it.2 = Ok d
  | inr _ => exists e, try_body rt unexpected it.2 = Raise e
  end.
Proof.
  destruct it as [index row], o as [d|entry]; cbn [snd]; intros H.
  - by apply row_outcome_valid in H as (_ & H & _).
  - by apply row_outcome_error in H as (_ & H).
Qed.

Lemma no_errors_iff_all_pass (df : DataFrame) (outs : list (Dict + ErrorEntry)) :
  comprehension (row_outcome rt unexpected) df = Ok outs ->
  omap error_of outs = [] <->
  Forall (fun it => exists d, try_body rt unexpected it.2 = Ok d) df.
Proof.
  rewrite comprehension_Forall2.
  induction 1 as [|it o df outs Hout _ IH]; [split; [constructor|reflexivity]|].
  cbn. pose proof (row_outcome_kind it o Hout) as Hkind.
  destruct o as [d|entry]; cbn.
  - rewrite IH. split; [intros H; constructor; eauto|].
    intros H. by apply Forall_cons_1 in H as [_ H].
  - split; [discriminate|]. intros H. apply Forall_cons_1 in H as [[d Hd] _].
    destruct Hkind as [e He]. congruence.
Qed.

Lemma no_valid_iff_all_fail (df : DataFrame) (outs : list (Dict + ErrorEntry)) :
  comprehension (row_outcome rt unexpected) df = Ok outs ->
  omap valid_of outs = [] <->
  Forall (fun it => exists e, try_body rt unexpected it.2 = Raise e) df.
Proof.
  rewrite comprehension_Forall2.
  induction 1 as [|it o df outs Hout _ IH]; [split; [constructor|reflexivity]|].
  cbn. pose proof (row_outcome_kind it o Hout) as Hkind.
  destruct o as [d|entry]; cbn.
  - split; [discriminate|]. intros H. apply Forall_cons_1 in H as [[e He] _].
    congruence.
  - rewrite IH. split; [intros H; constructor; eauto|].
    intros H. by apply Forall_cons_1 in H as [_ H].
Qed.

End PageFacts.

(** X18. What the page shows follows the run.  When the runner returns, the
    page shows the three counts of the run, which add up (valid plus failing
    equals total), and it shows the success message exactly when every row
    passed; otherwise it shows the table of the error report.  When the
    runner raises, the page shows the notice of an unexpected error with the
    text of the exception, and the exception itself, and nothing else after
    the opening notice.  On a table whose index labels are numbers the runner
    returns. *)
Theorem X18_page_follows_run (rt : Runtime)
  (unexpected : Series -> option string) (elapsed : string) (df : DataFrame) :
  match validate_data rt unexpected df with
  | Ok (valid_data, error_report) =>
      In (st_metric "Total de Linhas" (VInt (Z.of_nat (length df))))
         (validation_page rt unexpected elapsed df) /\
      In (st_metric "Válidas (OK)" (VInt (Z.of_nat (length valid_data))))
         (validation_page rt unexpected elapsed df) /\
      In (st_metric "Com Erro" (VInt (Z.of_nat (length error_report))))
         (validation_page rt unexpected elapsed df) /\
      Z.of_nat (length valid_data) + Z.of_nat (length error_report) = Z.of_nat (length df) /\
      (In (st_success "✅ **SUCESSO!** Todos os registros passaram na validação. O esquema de dados está correto.")
          (validation_page rt unexpected elapsed df)
       <-> Forall (fun it => exists d, try_body rt unexpected it.2 = Ok d) df) /\
      (In (st_dataframe_errors error_report) (validation_page rt unexpected elapsed df)
       <-> ~ Forall (fun it => exists d, try_body rt unexpected it.2 = Ok d) df)
  | Raise e =>
      validation_page rt unexpected elapsed df
      = [ st_info "Iniciando a validação linha a linha... Por favor, aguarde.";
          st_error ("Ocorreu um erro **inesperado** durante a leitura do CSV: "
                    +:+ exn_str e);
          st_exception e ]
  end /\
  (Forall (fun it => is_number it.1 = true) df ->
   exists valid_data error_report,
     validate_data rt unexpected df = Ok (valid_data, error_report)).
Proof.
  split.
  2: { intros Hnum.
       destruct (validate_data_returns rt unexpected df Hnum) as (v & e & Hrun & _).
       eauto. }
  unfold validation_page. rewrite validate_data_outcomes.
  destruct (comprehension (row_outcome rt unexpected) df) as [outs|ex] eqn:Houts;
    cbn [mbind result_bind]; [|reflexivity].
  pose proof (no_errors_iff_all_pass rt unexpected df outs Houts) as Hiff.
  pose proof (outcome_lengths outs) as Hlen.
  assert (length outs = length df) as Hsame.
  { apply comprehension_Forall2 in Houts. symmetry. by eapply Forall2_length. }
  set (valid_data := omap valid_of outs) in *.
  set (error_report := omap error_of outs) in *.
  split; [right; right; right; by left|].
  split; [right; right; right; right; by left|].
  split; [do 5 right; by left|].
  split; [lia|].
  destruct error_report as [|entry rest] eqn:Herr.
  - change (0 <? Z.of_nat (length (@nil ErrorEntry))) with false. cbv iota.
    split.
    + split; [intros _; by apply Hiff|]. intros _. do 7 right. by left.
    + split; [|intros H; destruct H; by apply Hiff].
      intros H. exfalso. cbn in H.
      repeat (destruct H as [H|H]; [discriminate H|]). destruct H.
  - assert ((0 <? Z.of_nat (length (entry :: rest))) = true) as ->
      by (apply Z.ltb_lt; simpl; lia).
    cbv iota. split.
    + split; [|intros H; apply Hiff in H; discriminate H].
      intros H. exfalso. cbn in H.
      repeat (destruct H as [H|H]; [discriminate H|]). destruct H.
    + split; [intros _ H; apply Hiff in H; discriminate H|].
      intros _. do 10 right. by left.
Qed.

(** X19. When no row is valid and the runner returns, as it does on a table
    whose index labels are numbers, the page ends with the notice "Nenhum dado
    válido para exibir (todas as linhas tiveram erro)." under the heading for
    0 valid records.  This includes the table without rows, for which the page
    shows the success message and this notice together. *)
Theorem X19_page_no_valid_data (rt : Runtime)
  (unexpected : Series -> option string) (elapsed : string) (df : DataFrame) :
  Forall (fun it => exists e, try_body rt unexpected it.2 = Raise e) df ->
  (forall valid_data error_report,
      validate_data rt unexpected df = Ok (valid_data, error_report) ->
      last (validation_page rt unexpected elapsed df)
      = Some (st_expander "Visualizar os 0 Registros Válidos"
                [st_warning "Nenhum dado válido para exibir (todas as linhas tiveram erro)."])) /\
  (Forall (fun it => is_number it.1 = true) df ->
   last (validation_page rt unexpected elapsed df)
   = Some (st_expander "Visualizar os 0 Registros Válidos"
             [st_warning "Nenhum dado válido para exibir (todas as linhas tiveram erro)."])) /\
  (df = [] ->
   In (st_success "✅ **SUCESSO!** Todos os registros passaram na validação. O esquema de dados está correto.")
      (validation_page rt unexpected elapsed df)).
Proof.
  intros Hfail.
  assert (forall valid_data error_report,
             validate_data rt unexpected df = Ok (valid_data, error_report) ->
             last (validation_page rt unexpected elapsed df)
             = Some (st_expander "Visualizar os 0 Registros Válidos"
                       [st_warning "Nenhum dado válido para exibir (todas as linhas tiveram erro)."]))
    as Hret.
  { intros v e Hrun. pose proof Hrun as Hrun'.
    apply validate_data_Ok in Hrun' as (outs & Houts & -> & ->).
    apply (no_valid_iff_all_fail rt unexpected df outs Houts) in Hfail.
    unfold validation_page. rewrite Hrun, Hfail.
    rewrite !app_comm_cons, app_assoc. apply last_snoc. }
  split; [exact Hret|]. split.
  - intros Hnum.
    destruct (validate_data_returns rt unexpected df Hnum) as (v & e & Hrun & _).
    by eapply Hret.
  - intros ->. vm_compute. do 7 right. by left.
Qed.

(** ** The currency format *)

Lemma replace_char_swap (s : string) :
  ~ In "X"%char (chars s) ->
  replace_char "X" "." (replace_char "." "," (replace_char "," "X" s))
  = swap_separators s.
Proof.
  induction s as [|c s IH]; [reflexivity|].
  cbn [chars In replace_char swap_separators]. intros Hx.
  rewrite IH by tauto. f_equal.
  destruct (Ascii.eqb_spec c ",") as [->|Hcomma]; [reflexivity|].
  destruct (Ascii.eqb_spec c ".") as [->|Hstop]; [reflexivity|].
  destruct (Ascii.eqb_spec c "X") as [->|_]; [|reflexivity].
  destruct Hx. by left.
Qed.

(** X20. The currency format writes a number the Brazilian way: after the
    prefix "R$ " it is the text of the number under [,.2f] with every comma
    turned into a full stop and every full stop into a comma, provided that
    text has no letter X (the text of a number has none). *)
Theorem X20_format_brl_swaps_separators (format_grouped_2f : value -> Result string)
  (v : value) (text : string) :
  isna v = false ->
  format_grouped_2f v = Ok text ->
  ~ In "X"%char (chars text) ->
  format_brl format_grouped_2f v = Ok ("R$ " +:+ swap_separators text).
Proof.
  intros Hna Hfmt Hx. unfold format_brl. rewrite Hna, Hfmt.
  cbn [mbind result_bind]. f_equal.
  change ("R$ " +:+ text) with (String "R" (String "$" (String " " text))).
  change ("R$ " +:+ swap_separators text)
    with (String "R" (String "$" (String " " (swap_separators text)))).
  cbn [replace_char]. rewrite (replace_char_swap text Hx). reflexivity.
Qed.

(** ** The further theorems at concrete rows *)

(** X1 at the conforming row and the undeclared column [Campanha]. *)
Lemma X1_witness :
  field_named "Campanha" = None /\
  no_fault conforming_row = None /\
  no_fault (<["Campanha" := VStr "Q1"]> conforming_row) = None /\
  AdPerformanceRecord example_runtime (to_dict (<["Campanha" := VStr "Q1"]> conforming_row))
  = AdPerformanceRecord example_runtime (to_dict conforming_row).
Proof.
  assert (field_named "Campanha" = None) as Hk by (vm_compute; reflexivity).
  split; [exact Hk|]. split; [reflexivity|]. split; [reflexivity|].
  exact (proj1 (X1_undeclared_column_ignored example_runtime no_fault conforming_row
                  "Campanha" (VStr "Q1") ([], []) (VInt 0) Hk eq_refl eq_refl)).
Defined.

(** X2 at the row without [Date]. *)
Lemma X2_witness :
  In (Required "Date" (Single TStr)) AdPerformanceRecord_fields /\
  required (Required "Date" (Single TStr)) = true /\
  missing_date_row !! "Date" = None /\
  exists errors,
    AdPerformanceRecord example_runtime (to_dict missing_date_row)
    = Raise (ValidationError errors) /\
    In (error_dict "Date" MissingError) errors.
Proof.
  assert (In (Required "Date" (Single TStr)) AdPerformanceRecord_fields) as Hin
    by (simpl; tauto).
  assert (missing_date_row !! "Date" = None) as Hrow by (vm_compute; reflexivity).
  split; [exact Hin|]. split; [reflexivity|]. split; [exact Hrow|].
  exact (proj1 (X2_missing_required_field_reported example_runtime no_fault
                  missing_date_row (Required "Date" (Single TStr)) Hin eq_refl Hrow)).
Defined.

(** X3 at the conforming row with an undeclared column: the integer amount
    is stored as validated. *)
Lemma X3_witness :
  AdPerformanceRecord example_runtime (to_dict extra_column_row)
  = Ok extra_column_validated /\
  In (Required "Amount_spent" (Single (TFloat (Some (FFinite 0 0)))))
     AdPerformanceRecord_fields /\
  to_dict extra_column_row !! "Amount_spent" = Some (VInt 5) /\
  exists v',
    field_validate example_runtime
      (Required "Amount_spent" (Single (TFloat (Some (FFinite 0 0))))) (VInt 5) = inr v' /\
    extra_column_validated !! "Amount_spent" = Some v'.
Proof.
  assert (In (Required "Amount_spent" (Single (TFloat (Some (FFinite 0 0)))))
             AdPerformanceRecord_fields) as Hin by (simpl; tauto).
  assert (to_dict extra_column_row !! "Amount_spent" = Some (VInt 5)) as Hd
    by (vm_compute; reflexivity).
  split; [exact extra_column_row_validates|]. split; [exact Hin|]. split; [exact Hd|].
  destruct (X3_validated_record_shape example_runtime (to_dict extra_column_row)
              extra_column_validated extra_column_row_validates) as (_ & Hpresent & _).
  exact (Hpresent _ (VInt 5) Hin Hd).
Defined.

(** X4 at the conforming row, which has no [Link_clicks]. *)
Lemma X4_witness :
  In (Optional "Link_clicks" (Union [TInt; TFloat None])) AdPerformanceRecord_fields /\
  required (Optional "Link_clicks" (Union [TInt; TFloat None])) = false /\
  to_dict conforming_row !! "Link_clicks" = None /\
  field_errors example_runtime (to_dict conforming_row)
    (Optional "Link_clicks" (Union [TInt; TFloat None])) = [].
Proof.
  assert (In (Optional "Link_clicks" (Union [TInt; TFloat None])) AdPerformanceRecord_fields)
    as Hin by (simpl; tauto).
  assert (to_dict conforming_row !! "Link_clicks" = None) as Hd
    by (vm_compute; reflexivity).
  split; [exact Hin|]. split; [reflexivity|]. split; [exact Hd|].
  exact (proj1 (X4_optional_field_absent_or_none example_runtime (to_dict conforming_row)
                  (Optional "Link_clicks" (Union [TInt; TFloat None]))
                  Hin eq_refl (or_introl Hd))).
Defined.

(** X5 at the row whose [Date] is [None]. *)
Lemma X5_witness :
  In (Required "Date" (Single TStr)) AdPerformanceRecord_fields /\
  required (Required "Date" (Single TStr)) = true /\
  none_date_row !! "Date" = Some VNone /\
  field_errors example_runtime (to_dict none_date_row) (Required "Date" (Single TStr))
  = [error_dict "Date" NoneIsNotAllowedError].
Proof.
  assert (In (Required "Date" (Single TStr)) AdPerformanceRecord_fields) as Hin
    by (simpl; tauto).
  assert (none_date_row !! "Date" = Some VNone) as Hrow by (vm_compute; reflexivity).
  split; [exact Hin|]. split; [reflexivity|]. split; [exact Hrow|].
  exact (proj1 (X5_none_in_required_field example_runtime no_fault none_date_row
                  (Required "Date" (Single TStr)) Hin eq_refl Hrow)).
Defined.

(** X6 at the row whose [Date] cell is empty, and at the row whose [Date]
    cell holds a list. *)
Lemma X6_witness :
  In (Required "Date" (Single TStr)) AdPerformanceRecord_fields /\
  annotation (Required "Date" (Single TStr)) = Single TStr /\
  to_dict empty_date_row !! "Date" = Some (VFloat FNaN) /\
  VFloat FNaN <> VNone /\
  field_errors example_runtime (to_dict empty_date_row) (Required "Date" (Single TStr)) = [] /\
  to_dict list_date_row !! "Date" = Some (VOther "list") /\
  VOther "list" <> VNone /\
  field_errors example_runtime (to_dict list_date_row) (Required "Date" (Single TStr))
  = [error_dict "Date" StrError].
Proof.
  assert (In (Required "Date" (Single TStr)) AdPerformanceRecord_fields) as Hin
    by (simpl; tauto).
  assert (to_dict empty_date_row !! "Date" = Some (VFloat FNaN)) as Hd
    by (vm_compute; reflexivity).
  assert (VFloat FNaN <> VNone) as Hne by discriminate.
  assert (to_dict list_date_row !! "Date" = Some (VOther "list")) as Hd'
    by (vm_compute; reflexivity).
  assert (VOther "list" <> VNone) as Hne' by discriminate.
  split; [exact Hin|]. split; [reflexivity|]. split; [exact Hd|]. split; [exact Hne|].
  split.
  { exact (proj1 (proj1 (X6_text_field_values example_runtime (to_dict empty_date_row)
                          (Required "Date" (Single TStr)) (VFloat FNaN) Hin eq_refl Hd Hne)
                   eq_refl)). }
  split; [exact Hd'|]. split; [exact Hne'|].
  exact (proj1 (proj2 (X6_text_field_values example_runtime (to_dict list_date_row)
                         (Required "Date" (Single TStr)) (VOther "list") Hin eq_refl Hd' Hne')
                  eq_refl)).
Defined.

(** X7 at the row whose [Amount_spent] cell is empty. *)
Lemma X7_witness :
  empty_amount_row !! "Amount_spent" = Some (VFloat FNaN) /\
  exists errors,
    AdPerformanceRecord example_runtime (to_dict empty_amount_row)
    = Raise (ValidationError errors) /\
    In (error_dict "Amount_spent" (NumberNotGeError example_runtime (FFinite 0 0))) errors.
Proof.
  assert (empty_amount_row !! "Amount_spent" = Some (VFloat FNaN)) as Hrow
    by (vm_compute; reflexivity).
  split; [exact Hrow|].
  destruct (X7_empty_amount_rejected example_runtime no_fault empty_amount_row Hrow)
    as [(errors & Hraise & Hin & _) _].
  exists errors. split; [exact Hraise|exact Hin].
Defined.

(** X8 at the validated record of the conforming row with an undeclared
    column. *)
Lemma X8_witness :
  AdPerformanceRecord example_runtime (to_dict extra_column_row)
  = Ok extra_column_validated /\
  exists values', AdPerformanceRecord example_runtime extra_column_validated = Ok values'.
Proof.
  split; [exact extra_column_row_validates|].
  destruct (X8_validated_record_revalidates example_runtime (to_dict extra_column_row)
              extra_column_validated extra_column_row_validates) as (values' & Hok & _).
  exists values'. exact Hok.
Defined.

(** X9 at a row that reaches the bound of a table read from a CSV file. *)
Lemma X9_witness :
  validate_data example_runtime no_fault (range_indexed [worst_row])
  = Ok ([], [ {| Linha_CSV := VInt 2;
                 AdSet_Nome_Aprox := VStr "N/A";
                 Primeiro_Erro_Detectado := "O campo 'Organizador' está faltando ou vazio.";
                 Total_Erros_Nesta_Linha := 16 |} ]) /\
  Forall (fun it : value * Series =>
            from_option is_csv_value true (it.2 !! "Segmentação") = true)
         (range_indexed [worst_row]) /\
  1 <= Total_Erros_Nesta_Linha
         {| Linha_CSV := VInt 2;
            AdSet_Nome_Aprox := VStr "N/A";
            Primeiro_Erro_Detectado := "O campo 'Organizador' está faltando ou vazio.";
            Total_Erros_Nesta_Linha := 16 |} <= 16.
Proof.
  assert (validate_data example_runtime no_fault (range_indexed [worst_row])
          = Ok ([], [ {| Linha_CSV := VInt 2;
                         AdSet_Nome_Aprox := VStr "N/A";
                         Primeiro_Erro_Detectado :=
                           "O campo 'Organizador' está faltando ou vazio.";
                         Total_Erros_Nesta_Linha := 16 |} ])) as Hrun
    by (vm_compute; reflexivity).
  assert (Forall (fun it : value * Series =>
                    from_option is_csv_value true (it.2 !! "Segmentação") = true)
                 (range_indexed [worst_row])) as Hcsv
    by (repeat constructor).
  split; [exact Hrun|]. split; [exact Hcsv|].
  destruct (X9_error_count_bounds example_runtime no_fault (range_indexed [worst_row])
              _ _ _ Hrun (or_introl eq_refl)) as [[Hlow _] Hhigh].
  split; [exact Hlow|exact (Hhigh Hcsv)].
Defined.

(** A row whose [Segmentação] cell holds a list reaches seventeen. *)
Example worst_object_row_count :
  validate_data example_runtime no_fault (range_indexed [worst_object_row])
  = Ok ([], [ {| Linha_CSV := VInt 2;
                 AdSet_Nome_Aprox := VStr "N/A";
                 Primeiro_Erro_Detectado := "O campo 'Organizador' está faltando ou vazio.";
                 Total_Erros_Nesta_Linha := 17 |} ]).
Proof. vm_compute. reflexivity. Qed.

(** X10 at the violation of a field that is no string. *)
Lemma X10_witness :
  loc (error_dict "Fase" StrError) <> Some [] /\
  format_pydantic_error (error_dict "Fase" StrError)
  = Ok "Campo 'Fase': Str type expected.".
Proof.
  assert (loc (error_dict "Fase" StrError) <> Some []) as Hloc by discriminate.
  split; [exact Hloc|].
  destruct (X10_formatter_three_phrases (error_dict "Fase" StrError) Hloc)
    as (field & Hfield & Hfmt).
  injection Hfield as <-. rewrite Hfmt. vm_compute. reflexivity.
Defined.

(** X12 at the example frame: its first error entry is that of the row with
    the negative amount. *)
Lemma X12_witness :
  exists valid_records error_report,
    validate_data example_runtime no_fault example_frame
    = Ok (valid_records, error_report) /\
    exists entry i index row,
      error_report !! 0%nat = Some entry /\
      example_frame !! i = Some (index, row) /\
      add_two example_runtime index = Ok (Linha_CSV entry) /\
      exists e, try_body example_runtime no_fault row = Raise e.
Proof.
  destruct (validate_data_returns example_runtime no_fault example_frame
              example_frame_number) as (v & e & Hrun & _).
  assert (exists entry,
             row_outcome example_runtime no_fault (VInt 1, negative_amount_row)
             = Ok (inr entry)) as [entry Hentry]
    by (eexists; vm_compute; reflexivity).
  assert (errors_before example_runtime no_fault example_frame 1 = 0%nat) as Hpos
    by (vm_compute; reflexivity).
  pose proof (returned_entry_position example_runtime no_fault example_frame v e 1
                (VInt 1, negative_amount_row) entry Hrun eq_refl Hentry) as Hat.
  rewrite Hpos in Hat.
  exists v, e. split; [exact Hrun|].
  destruct (X12_outputs_come_from_rows example_runtime no_fault example_frame v e Hrun)
    as [Herrors _].
  destruct (Herrors 0%nat entry Hat) as (i & index & row & Hi & _ & Hline & Hraise & _).
  exists entry, i, index, row. repeat split; assumption.
Defined.

(** X13 at the example rows: the first two entries are those of lines 3
    and 5. *)
Lemma X13_witness :
  exists valid_records error_report a b,
    validate_data example_runtime no_fault
      (range_indexed [conforming_row; negative_amount_row; extra_column_row;
                      wrong_clicks_row])
    = Ok (valid_records, error_report) /\
    (0 < 1)%nat /\
    error_report !! 0%nat = Some a /\
    error_report !! 1%nat = Some b /\
    exists line_a line_b,
      Linha_CSV a = VInt line_a /\ Linha_CSV b = VInt line_b /\
      2 <= line_a < line_b.
Proof.
  pose (rows := [conforming_row; negative_amount_row; extra_column_row; wrong_clicks_row]).
  destruct (validate_data_returns example_runtime no_fault (range_indexed rows)
              (range_indexed_number rows)) as (v & e & Hrun & _).
  assert (exists a,
             row_outcome example_runtime no_fault (VInt 1, negative_amount_row)
             = Ok (inr a)) as [a Houta]
    by (eexists; vm_compute; reflexivity).
  assert (exists b,
             row_outcome example_runtime no_fault (VInt 3, wrong_clicks_row)
             = Ok (inr b)) as [b Houtb]
    by (eexists; vm_compute; reflexivity).
  assert (errors_before example_runtime no_fault (range_indexed rows) 1 = 0%nat) as Hpa
    by (vm_compute; reflexivity).
  assert (errors_before example_runtime no_fault (range_indexed rows) 3 = 1%nat) as Hpb
    by (vm_compute; reflexivity).
  pose proof (returned_entry_position example_runtime no_fault (range_indexed rows) v e 1
                (VInt 1, negative_amount_row) a Hrun eq_refl Houta) as Ha.
  pose proof (returned_entry_position example_runtime no_fault (range_indexed rows) v e 3
                (VInt 3, wrong_clicks_row) b Hrun eq_refl Houtb) as Hb.
  rewrite Hpa in Ha. rewrite Hpb in Hb.
  assert (0 < 1)%nat as Hlt by lia.
  exists v, e, a, b. split; [exact Hrun|].
  split; [exact Hlt|]. split; [exact Ha|]. split; [exact Hb|].
  exact (X13_report_lines_increase example_runtime no_fault rows v e 0 1 a b
           Hrun Hlt Ha Hb).
Defined.

(** X15 at the violation of a field that is no string. *)
Lemma X15_witness :
  str_in "not a valid float"
    (default "Erro de validação genérico." (msg (error_dict "Fase" StrError))) = false /\
  str_in "is not a valid integer"
    (default "Erro de validação genérico." (msg (error_dict "Fase" StrError)))
  = str_in "not a valid integer"
      (default "Erro de validação genérico." (msg (error_dict "Fase" StrError))) /\
  App.format_pydantic_error (error_dict "Fase" StrError)
  = format_pydantic_error (error_dict "Fase" StrError).
Proof.
  split; [reflexivity|]. split; [reflexivity|].
  exact (proj1 (X15_formatters_agree (error_dict "Fase" StrError) eq_refl eq_refl)).
Defined.

(** X16 at the example frame, where only the constructor raises. *)
Lemma X16_witness :
  Forall (fun it : value * Series => no_fault it.2 = None) example_frame /\
  exists valid_records error_report error_report',
    validate_data example_runtime fault_on_unreadable example_frame
    = Ok (valid_records, error_report) /\
    App.validate_data example_runtime no_fault fault_on_unreadable example_frame
    = Ok (valid_records, error_report') /\
    length error_report' = length error_report.
Proof.
  assert (Forall (fun it : value * Series => no_fault it.2 = None) example_frame) as Hto
    by (repeat constructor).
  split; [exact Hto|].
  destruct (X16_app_runner_agrees example_runtime no_fault fault_on_unreadable
              example_frame Hto) as [_ Hreturns].
  destruct (Hreturns example_frame_number) as (v & e & e' & Hrun & Happ & Hrel).
  exists v, e, e'. split; [exact Hrun|]. split; [exact Happ|].
  exact (Forall2_length _ _ _ Hrel).
Defined.

(** X17 at the row on which [to_dict] raises, alone and after the conforming
    row. *)
Lemma X17_witness :
  fault_on_unreadable unreadable_row = Some "unreadable" /\
  add_two example_runtime (VInt 0) = Ok (VInt 2) /\
  add_two example_runtime (VInt 1) = Ok (VInt 3) /\
  App.validate_data example_runtime fault_on_unreadable no_fault [(VInt 0, unreadable_row)]
  = Raise App.UnboundLocalError /\
  fault_on_unreadable conforming_row = None /\
  exists valid_records error_report,
    App.validate_data example_runtime fault_on_unreadable no_fault
      [(VInt 0, conforming_row); (VInt 1, unreadable_row)]
    = Ok (valid_records, error_report) /\
    last error_report
    = Some {| Linha_CSV := VInt 3;
              AdSet_Nome_Aprox := VStr "X";
              Primeiro_Erro_Detectado := "Erro Geral: unreadable";
              Total_Erros_Nesta_Linha := 1 |}.
Proof.
  assert (fault_on_unreadable unreadable_row = Some "unreadable") as Hto
    by (vm_compute; reflexivity).
  assert (fault_on_unreadable conforming_row = None) as Hto0
    by (vm_compute; reflexivity).
  destruct (X17_app_label_of_earlier_row example_runtime fault_on_unreadable no_fault
              (VInt 1) (VInt 3) unreadable_row "unreadable" Hto eq_refl) as [_ Hlater].
  destruct (X17_app_label_of_earlier_row example_runtime fault_on_unreadable no_fault
              (VInt 0) (VInt 2) unreadable_row "unreadable" Hto eq_refl) as [Hfirst _].
  split; [exact Hto|]. split; [reflexivity|]. split; [reflexivity|].
  split; [exact (Hfirst [])|]. split; [exact Hto0|].
  destruct (Hlater (VInt 0) conforming_row Hto0 eq_refl) as (v & e & Hrun & Hlast).
  exists v, e. split; [exact Hrun|].
  rewrite Hlast. vm_compute. reflexivity.
Defined.

(** X19 at a table whose only row fails. *)
Lemma X19_witness :
  Forall (fun it : value * Series =>
            exists e, try_body example_runtime no_fault it.2 = Raise e)
         (range_indexed [negative_amount_row]) /\
  last (validation_page example_runtime no_fault "0.01" (range_indexed [negative_amount_row]))
  = Some (st_expander "Visualizar os 0 Registros Válidos"
            [st_warning "Nenhum dado válido para exibir (todas as linhas tiveram erro)."]).
Proof.
  assert (Forall (fun it : value * Series =>
                    exists e, try_body example_runtime no_fault it.2 = Raise e)
                 (range_indexed [negative_amount_row])) as Hfail.
  { repeat constructor. eexists. vm_compute. reflexivity. }
  split; [exact Hfail|].
  exact (proj1 (proj2 (X19_page_no_valid_data example_runtime no_fault "0.01"
                         (range_indexed [negative_amount_row]) Hfail))
           (range_indexed_number [negative_amount_row])).
Defined.

(** The page of a table whose index labels are texts and whose row fails. *)
Example text_labelled_page :
  validation_page example_runtime no_fault "0.01" text_labelled_frame
  = [ st_info "Iniciando a validação linha a linha... Por favor, aguarde.";
      st_error ("Ocorreu um erro **inesperado** durante a leitura do CSV: "
                +:+ "can only concatenate str (not " +:+ dquote +:+ "int"
                +:+ dquote +:+ ") to str");
      st_exception (TypeError ("can only concatenate str (not " +:+ dquote +:+ "int"
                               +:+ dquote +:+ ") to str")) ].
Proof. vm_compute. reflexivity. Qed.

(** X20 at the number 1500. *)
Lemma X20_witness :
  isna (VInt 1500) = false /\
  example_format (VInt 1500) = Ok "1,500.00" /\
  ~ In "X"%char (chars "1,500.00") /\
  format_brl example_format (VInt 1500) = Ok "R$ 1.500,00".
Proof.
  assert (~ In "X"%char (chars "1,500.00")) as Hx.
  { cbn. intros H. repeat (destruct H as [H|H]; [discriminate H|]). destruct H. }
  split; [reflexivity|]. split; [reflexivity|]. split; [exact Hx|].
  exact (X20_format_brl_swaps_separators example_format (VInt 1500) "1,500.00"
           eq_refl eq_refl Hx).
Defined.
